(** * Ant colony simulation (src/main.py): a shallow embedding and its properties

    Conventions of the embedding.
    - Python [int] values are [Z]; [len(...)] is [Z.of_nat (length ...)].
    - Python [float] values are read as real numbers ([R]): every statement
      below is about the exact-arithmetic reading of the program.
    - The results of the calls to [random] are inputs of the functions that
      make them (one field per call site), so every theorem quantifies over
      all outcomes of the draws.
    - A [Food] object carries an identity ([Food.fid]): the program compares
      food objects with [in] and [list.remove], which for a class without
      [__eq__] is object identity.
    - All ants refer to the one [Colony] object of [main]; the colony is
      therefore threaded through the ant methods as explicit state.
    - An [IndexError] is [None] in the [option] monad.
    - Drawing and the pheromone grid (never written by the program) are
      left out: they read the state and do not change colony, ants or food.
      [Pheromone.decay] and the condition of [Pheromone.draw] are modelled.
    - [Ant.move] is cut into its three consecutive parts: [Ant.sense]
      (lines 144-151), [Ant.step] (lines 154-171) and [Ant.act]
      (lines 173-179). *)

From Stdlib Require Import Reals Lra Lia ZArith List Bool Permutation.
Import ListNotations.

Open Scope Z_scope.
Open Scope R_scope.

(** ** Constants (main.py, lines 10-46) *)

Definition WIDTH : Z := 960.
Definition HEIGHT : Z := 1080.

Definition INITIAL_COLONY_SIZE : Z := 100.
Definition MAX_COLONY_SIZE : Z := 500.
Definition COLONY_GROWTH_RATE : R := 1 / 10.
Definition INITIAL_FOOD_STORAGE : R := 1000.
Definition FOOD_CONSUMPTION_RATE : R := 1 / 10.
Definition CRITICAL_FOOD_LEVEL : R := 300.
Definition OPTIMAL_FOOD_LEVEL : R := 800.

Definition ANTHILL_POINT : R * R := (IZR (WIDTH / 2), IZR (HEIGHT / 2)).
Definition BASE_ANT_SPEED : R := 1.
Definition FOOD_DETECTION_RANGE_SQUARED : R := 100 * 100.
Definition FOOD_COLLECTION_RANGE_SQUARED : R := 10 * 10.
Definition FOOD_SPAWN_AMOUNT_PER_CLICK : nat := 50.

Definition BUILD_RANGE : R := 30.
Definition BUILD_EFFICIENCY : R := 2 / 10.
Definition MAX_NEST_SIZE : Z := 200.

(** ** Comparisons of reals as booleans *)

Definition Rlt_b (a b : R) : bool := if Rlt_dec a b then true else false.
Definition Rge_b (a b : R) : bool := if Rge_dec a b then true else false.
Definition Rgt_b (a b : R) : bool := if Rgt_dec a b then true else false.
Definition Rneq_b (a b : R) : bool := if Req_dec_T a b then false else true.

(** [sq_dist]: squared distance between two points. *)
Definition sq_dist (p1 p2 : R * R) : R :=
  (fst p1 - fst p2) * (fst p1 - fst p2) + (snd p1 - snd p2) * (snd p1 - snd p2).

(** ** The error monad of the index operations *)

Definition bind {A B} (m : option A) (k : A -> option B) : option B :=
  match m with Some a => k a | None => None end.

Notation "x <- m ;; k" := (bind m (fun x => k))
  (at level 61, m at next level, right associativity).
Notation "' pat <- m ;; k" := (bind m (fun x => match x with pat => k end))
  (at level 61, pat pattern, m at next level, right associativity).

(** ** Python list indexing: [l[i]] with negative indices counted from the end *)

Definition py_norm (len : nat) (i : Z) : option nat :=
  if ((0 <=? i) && (i <? Z.of_nat len))%Z then Some (Z.to_nat i)
  else if ((- Z.of_nat len <=? i) && (i <? 0))%Z then Some (Z.to_nat (Z.of_nat len + i))
  else None.

Definition py_get {A} (l : list A) (i : Z) : option A :=
  n <- py_norm (length l) i ;; nth_error l n.

Fixpoint set_nth {A} (l : list A) (n : nat) (v : A) : list A :=
  match l, n with
  | [], _ => []
  | _ :: t, O => v :: t
  | h :: t, S n' => h :: set_nth t n' v
  end.

Definition py_set {A} (l : list A) (i : Z) (v : A) : option (list A) :=
  n <- py_norm (length l) i ;; Some (set_nth l n v).

(** ** Colony (lines 53-58, 79-82) *)

Module Colony.

Record t : Type := mk {
  food_storage : R;
  nest_size : Z;
  population : Z;
  building_progress : R
}.

Definition init : t :=
  {| food_storage := INITIAL_FOOD_STORAGE;
     nest_size := 20;
     population := INITIAL_COLONY_SIZE;
     building_progress := 0 |}.

Definition set_food_storage (c : t) (v : R) : t :=
  {| food_storage := v; nest_size := nest_size c;
     population := population c; building_progress := building_progress c |}.

Definition set_nest_size (c : t) (v : Z) : t :=
  {| food_storage := food_storage c; nest_size := v;
     population := population c; building_progress := building_progress c |}.

Definition set_building_progress (c : t) (v : R) : t :=
  {| food_storage := food_storage c; nest_size := nest_size c;
     population := population c; building_progress := v |}.

Definition get_ant_speed (c : t) : R :=
  let speed_multiplier := 1 + IZR (nest_size c - 20) / 100 in
  BASE_ANT_SPEED * speed_multiplier.

End Colony.

(** ** Food (lines 107-111) *)

Module Food.

Record t : Type := mk {
  fid : nat;      (* object identity *)
  x : Z;
  y : Z;
  amount : Z      (* random.randint(5, 20) *)
}.

(** Python's [==] on food objects: identity. *)
Definition same (f g : t) : bool := Nat.eqb (fid f) (fid g).

Definition pos (f : t) : R * R := (IZR (x f), IZR (y f)).

End Food.

(** ** Manager: the grid of buckets (lines 85-99) *)

Module Manager.

Definition t : Type := list (list (list Food.t)).

Definition init : t :=
  repeat (repeat [] (Z.to_nat (HEIGHT / 10))) (Z.to_nat (WIDTH / 10)).

Definition add (m : t) (item : Food.t) : option t :=
  let grid_x := (Food.x item / 10)%Z in
  let grid_y := (Food.y item / 10)%Z in
  row <- py_get m grid_x ;;
  tile <- py_get row grid_y ;;
  row' <- py_set row grid_y (tile ++ [item]) ;;
  py_set m grid_x row'.

(** [item in tile] *)
Definition contains (tile : list Food.t) (item : Food.t) : bool :=
  existsb (Food.same item) tile.

(** [tile.remove(item)]: drops the first element equal to [item]. *)
Fixpoint list_remove (tile : list Food.t) (item : Food.t) : list Food.t :=
  match tile with
  | [] => []
  | f :: rest => if Food.same item f then rest else f :: list_remove rest item
  end.

Definition remove (m : t) (item : Food.t) : option t :=
  let grid_x := (Food.x item / 10)%Z in
  let grid_y := (Food.y item / 10)%Z in
  row <- py_get m grid_x ;;
  tile <- py_get row grid_y ;;
  if contains tile item then
    row' <- py_set row grid_y (list_remove tile item) ;;
    py_set m grid_x row'
  else Some m.

(** The items in the order in which the three nested loops of
    [find_food] (and of the drawing code) meet them. *)
Definition items (m : t) : list Food.t := concat (concat m).

End Manager.

(** [spawn_food]: [amount] new food objects at [(x, y)]; [next] is the
    identity of the first one, [qty] gives the quantity drawn for each. *)
Fixpoint spawn_food (food_manager : Manager.t) (x y : Z) (amount : nat)
    (next : nat) (qty : nat -> Z) : option (Manager.t * nat) :=
  match amount with
  | O => Some (food_manager, next)
  | S k =>
      let food := Food.mk next x y (qty next) in
      fm' <- Manager.add food_manager food ;;
      spawn_food fm' x y k (S next) qty
  end.

(** ** Pheromone (lines 116-129) *)

Definition PHEROMONE_STRENGTH : Z := 100.

Module Pheromone.

Record t : Type := mk {
  x : Z;
  y : Z;
  strength : Z
}.

(** [__init__]; [strength] defaults to [PHEROMONE_STRENGTH]. *)
Definition init (px py : Z) (strength : option Z) : t :=
  {| x := px; y := py;
     strength := match strength with Some s => s | None => PHEROMONE_STRENGTH end |}.

(** [decay] (lines 122-125). *)
Definition decay (p : t) : t :=
  let s := (strength p - 1)%Z in
  {| x := x p; y := y p; strength := if (s <? 0)%Z then 0%Z else s |}.

(** The condition under which [draw] draws the marker (line 128). *)
Definition visible (p : t) : bool := (0 <? strength p)%Z.

End Pheromone.

(** ** Ant (lines 131-209) *)

Inductive Role : Type := builder | scavenger.

(** An outcome of [random.choice([-1, 0, 1])]. *)
Inductive Choice : Type := minus_one | zero | plus_one.

Definition choice_val (c : Choice) : R :=
  match c with minus_one => -1 | zero => 0 | plus_one => 1 end.

(** The random draws one call of [Ant.move] can make, in program order. *)
Record MoveDraws : Type := mkDraws {
  switch_draw : R;      (* line 204: random.random() < 0.1 *)
  role_draw : R;        (* line 205: random.random() < 0.3 *)
  step_x : Choice;      (* line 170 *)
  step_y : Choice;      (* line 171 *)
  build_draw : R        (* line 175: random.random() < 0.3 *)
}.

Module Ant.

Record t : Type := mk {
  x : R;
  y : R;
  speed : R;
  role : Role;
  building : bool;
  has_food : bool;
  target : option Food.t
}.

Definition pos (a : t) : R * R := (x a, y a).

Definition set_pos (a : t) (p : R * R) : t :=
  mk (fst p) (snd p) (speed a) (role a) (building a) (has_food a) (target a).
Definition set_speed (a : t) (v : R) : t :=
  mk (x a) (y a) v (role a) (building a) (has_food a) (target a).
Definition set_role (a : t) (r : Role) : t :=
  mk (x a) (y a) (speed a) r (building a) (has_food a) (target a).
Definition set_building (a : t) (b : bool) : t :=
  mk (x a) (y a) (speed a) (role a) b (has_food a) (target a).
Definition set_has_food (a : t) (b : bool) : t :=
  mk (x a) (y a) (speed a) (role a) (building a) b (target a).
Definition set_target (a : t) (tg : option Food.t) : t :=
  mk (x a) (y a) (speed a) (role a) (building a) (has_food a) tg.

Definition is_scavenger (a : t) : bool :=
  match role a with scavenger => true | builder => false end.
Definition is_builder (a : t) : bool :=
  match role a with builder => true | scavenger => false end.

(** [__init__] (lines 132-140); [d] is the draw of line 137. *)
Definition init (px py : R) (colony : Colony.t) (d : R) : t :=
  {| x := px; y := py;
     speed := Colony.get_ant_speed colony;
     role := if Rlt_b d (3 / 10) then builder else scavenger;
     building := false;
     has_food := false;
     target := None |}.

(** [move_toward] (lines 181-187). *)
Definition move_toward (a : t) (target_point : R * R) : t :=
  let dx := fst target_point - x a in
  let dy := snd target_point - y a in
  let dist := sqrt (dx * dx + dy * dy) in
  if Rneq_b dist 0 then
    set_pos a (x a + (dx / dist) * speed a, y a + (dy / dist) * speed a)
  else a.

(** [find_food] (lines 189-196): three nested loops, left at the first
    food object in range. [None] means that the loop ran to its end. *)
Fixpoint scan_tile (a : t) (tile : list Food.t) : option Food.t :=
  match tile with
  | [] => None
  | food :: rest =>
      if Rlt_b (sq_dist (pos a) (Food.pos food)) FOOD_DETECTION_RANGE_SQUARED
      then Some food
      else scan_tile a rest
  end.

Fixpoint scan_row (a : t) (row : list (list Food.t)) : option Food.t :=
  match row with
  | [] => None
  | tile :: rest =>
      match scan_tile a tile with
      | Some food => Some food
      | None => scan_row a rest
      end
  end.

Fixpoint scan_grid (a : t) (repository : Manager.t) : option Food.t :=
  match repository with
  | [] => None
  | row :: rest =>
      match scan_row a row with
      | Some food => Some food
      | None => scan_grid a rest
      end
  end.

Definition find_food (a : t) (food_manager : Manager.t) : t :=
  match scan_grid a food_manager with
  | Some food => set_target a (Some food)
  | None => a
  end.

(** [update_role] (lines 198-205). *)
Definition update_role (a : t) (colony : Colony.t) (d : MoveDraws) : t :=
  if Rlt_b (Colony.food_storage colony) CRITICAL_FOOD_LEVEL then
    set_role a scavenger
  else if Rgt_b (Colony.food_storage colony) OPTIMAL_FOOD_LEVEL then
    if Rlt_b (switch_draw d) (1 / 10) then
      set_role a (if Rlt_b (role_draw d) (3 / 10) then builder else scavenger)
    else a
  else a.

(** [build] (lines 207-209): the ant is unchanged, the colony may be. *)
Definition build (a : t) (colony : Colony.t) : Colony.t :=
  if Rlt_b (sq_dist (pos a) ANTHILL_POINT) (BUILD_RANGE * BUILD_RANGE) then
    Colony.set_building_progress colony
      (Colony.building_progress colony + BUILD_EFFICIENCY)
  else colony.

(** The state an ant method works on: the ant, the shared colony and
    the shared food index. *)
Definition state : Type := t * Colony.t * Manager.t.

(** Lines 144-151: speed refresh, role refresh, food detection. *)
Definition sense (a : t) (colony : Colony.t) (food_manager : Manager.t)
    (d : MoveDraws) : t :=
  let a := set_speed a (Colony.get_ant_speed colony) in
  let a := update_role a colony d in
  if is_scavenger a && negb (has_food a) then find_food a food_manager else a.

(** Lines 154-171: the movement branch. *)
Definition step (a : t) (colony : Colony.t) (food_manager : Manager.t)
    (d : MoveDraws) : option state :=
  if has_food a then
    let a := move_toward a ANTHILL_POINT in
    if Rlt_b (sq_dist (pos a) ANTHILL_POINT) FOOD_COLLECTION_RANGE_SQUARED then
      Some (set_has_food a false,
            Colony.set_food_storage colony (Colony.food_storage colony + 20),
            food_manager)
    else Some (a, colony, food_manager)
  else
    match target a with
    | Some tg =>
        let a := move_toward a (Food.pos tg) in
        if Rlt_b (sq_dist (pos a) (Food.pos tg)) FOOD_COLLECTION_RANGE_SQUARED then
          let a := set_has_food a true in
          fm' <- Manager.remove food_manager tg ;;
          Some (set_target a None, colony, fm')
        else Some (a, colony, food_manager)
    | None =>
        let a := set_pos a (x a + choice_val (step_x d) * speed a, y a) in
        let a := set_pos a (x a, y a + choice_val (step_y d) * speed a) in
        Some (a, colony, food_manager)
    end.

(** Lines 173-179: building. *)
Definition act (a : t) (colony : Colony.t) (d : MoveDraws) : t * Colony.t :=
  if is_builder a && negb (has_food a) then
    if Rlt_b (build_draw d) (3 / 10) then
      let a := set_building a true in
      (a, build a colony)
    else (set_building a false, colony)
  else (set_building a false, colony).

(** [move] (lines 142-179). *)
Definition move (a : t) (colony : Colony.t) (food_manager : Manager.t)
    (d : MoveDraws) : option state :=
  let a := sense a colony food_manager d in
  '(a, colony, food_manager) <- step a colony food_manager d ;;
  let '(a, colony) := act a colony d in
  Some (a, colony, food_manager).

End Ant.

(** ** Colony.update (lines 60-77)

    Placed after [Ant] because it constructs one. [growth_draw] is the draw
    of line 75 and [newborn_draw] the role draw of the new ant. *)
Definition Colony_update (c : Colony.t) (ants : list Ant.t)
    (growth_draw newborn_draw : R) : Colony.t * option Ant.t :=
  let c := Colony.set_food_storage c
             (Colony.food_storage c - IZR (Z.of_nat (length ants)) * FOOD_CONSUMPTION_RATE) in
  let c := Colony.set_food_storage c (Rmax 0 (Colony.food_storage c)) in
  let c :=
    if Rge_b (Colony.building_progress c) 100 && (Colony.nest_size c <? MAX_NEST_SIZE)%Z
    then Colony.set_building_progress (Colony.set_nest_size c (Colony.nest_size c + 1)) 0
    else c in
  if Rgt_b (Colony.food_storage c) OPTIMAL_FOOD_LEVEL
     && (Z.of_nat (length ants) <? MAX_COLONY_SIZE)%Z
     && Rlt_b growth_draw COLONY_GROWTH_RATE
  then (c, Some (Ant.init (fst ANTHILL_POINT) (snd ANTHILL_POINT) c newborn_draw))
  else (c, None).

(** ** The main loop (lines 218-282) *)

Record World : Type := mkWorld {
  colony : Colony.t;
  ants : list Ant.t;
  food_manager : Manager.t;
  next_fid : nat          (* identity of the next food object created *)
}.

(** What one iteration of the loop receives from outside. *)
Record Frame : Type := mkFrame {
  clicks : list (Z * Z);         (* positions of the MOUSEBUTTONDOWN events *)
  quantity : nat -> Z;           (* randint(5, 20) of each new food object *)
  growth_draw : R;
  newborn_draw : R;
  move_draws : nat -> MoveDraws  (* draws of the ant at each list position *)
}.

(** Lines 234-239. *)
Fixpoint handle_clicks (cs : list (Z * Z)) (fm : Manager.t) (next : nat)
    (qty : nat -> Z) : option (Manager.t * nat) :=
  match cs with
  | [] => Some (fm, next)
  | (cx, cy) :: rest =>
      '(fm', next') <- spawn_food fm cx cy FOOD_SPAWN_AMOUNT_PER_CLICK next qty ;;
      handle_clicks rest fm' next' qty
  end.

(** Lines 270-272: [for ant in ants: ant.move(food_manager)]; [i] is the
    list position of the first ant of [l]. *)
Fixpoint move_all (l : list Ant.t) (i : nat) (c : Colony.t) (fm : Manager.t)
    (draws : nat -> MoveDraws) : option (list Ant.t * Colony.t * Manager.t) :=
  match l with
  | [] => Some ([], c, fm)
  | a :: rest =>
      '(a', c', fm') <- Ant.move a c fm (draws i) ;;
      '(rest', c'', fm'') <- move_all rest (S i) c' fm' draws ;;
      Some (a' :: rest', c'', fm'')
  end.

(** One iteration of the [while] loop. *)
Definition tick (f : Frame) (w : World) : option World :=
  '(fm, next) <- handle_clicks (clicks f) (food_manager w) (next_fid w) (quantity f) ;;
  let '(c, new_ant) := Colony_update (colony w) (ants w) (growth_draw f) (newborn_draw f) in
  let ants1 := match new_ant with Some a => ants w ++ [a] | None => ants w end in
  '(ants2, c', fm') <- move_all ants1 0 c fm (move_draws f) ;;
  Some (mkWorld c' ants2 fm' next).

(** Several iterations, one frame each. *)
Fixpoint run (fs : list Frame) (w : World) : option World :=
  match fs with
  | [] => Some w
  | f :: rest => w' <- tick f w ;; run rest w'
  end.

(** The state [main] builds before the loop (lines 220-229). *)
Definition main_init (role_draws : nat -> R) (qty : nat -> Z) : option World :=
  let colony := Colony.init in
  let ants := map (fun i => Ant.init (fst ANTHILL_POINT) (snd ANTHILL_POINT) colony (role_draws i))
                  (seq 0 (Z.to_nat INITIAL_COLONY_SIZE)) in
  '(fm, next) <- spawn_food Manager.init 480 150 (FOOD_SPAWN_AMOUNT_PER_CLICK * 3) 0 qty ;;
  '(fm, next) <- spawn_food fm 480 930 (FOOD_SPAWN_AMOUNT_PER_CLICK * 3) next qty ;;
  Some (mkWorld colony ants fm next).

(** * Notions used in the statements *)

(** The list of ants the pass of an iteration runs over. *)
Definition ants_after_update (w : World) (f : Frame) : list Ant.t :=
  match snd (Colony_update (colony w) (ants w) (growth_draw f) (newborn_draw f)) with
  | Some a => ants w ++ [a]
  | None => ants w
  end.

(** A food object is detected when its squared distance is strictly below
    the detection range (line 194). *)
Definition in_range (a : Ant.t) (food : Food.t) : Prop :=
  sq_dist (Ant.pos a) (Food.pos food) < FOOD_DETECTION_RANGE_SQUARED.

(** The Euclidean distance of an ant to a point. *)
Definition distance (a : Ant.t) (p : R * R) : R := sqrt (sq_dist (Ant.pos a) p).

(** [indexed fm f]: the food object [f] (by identity) is in the index. *)
Definition indexed (fm : Manager.t) (f : Food.t) : Prop :=
  exists g, In g (Manager.items fm) /\ Food.fid g = Food.fid f.

(** Every food object in the index was created before [next_fid]. *)
Definition ids_below (w : World) : Prop :=
  forall g, In g (Manager.items (food_manager w)) -> (Food.fid g < next_fid w)%nat.

(** The number of ants of a list that carry food. *)
Definition carrying (l : list Ant.t) : nat := length (filter Ant.has_food l).

(** A point of the window: where a mouse click can be. *)
Definition in_window (px py : Z) : Prop :=
  (0 <= px < WIDTH)%Z /\ (0 <= py < HEIGHT)%Z.

(** The grid has the shape [Manager.__init__] gives it. *)
Definition grid_shape (m : Manager.t) : Prop :=
  length m = Z.to_nat (WIDTH / 10) /\
  Forall (fun row => length row = Z.to_nat (HEIGHT / 10)) m.

(** All food of the index lies in the window. *)
Definition items_in_window (m : Manager.t) : Prop :=
  forall g, In g (Manager.items m) -> in_window (Food.x g) (Food.y g).

(** The target of the ant, if it has one, lies in the window. *)
Definition target_in_window (a : Ant.t) : Prop :=
  forall tg, Ant.target a = Some tg -> in_window (Food.x tg) (Food.y tg).

(** A state the loop can be in: the grid has its shape, and all food, in
    the index or kept as a target, lies in the window. *)
Definition world_ok (w : World) : Prop :=
  grid_shape (food_manager w) /\
  items_in_window (food_manager w) /\
  Forall target_in_window (ants w).

(** The identities of the food objects of the index are pairwise distinct. *)
Definition unique_ids (m : Manager.t) : Prop :=
  NoDup (map Food.fid (Manager.items m)).

(** The bucket [repository[x // 10][y // 10]] of a food object. *)
Definition bucket_of (m : Manager.t) (f : Food.t) : option (list Food.t) :=
  row <- py_get m (Food.x f / 10) ;; py_get row (Food.y f / 10).

(** Every food object of the index lies in the bucket of its coordinates. *)
Definition bucketed (m : Manager.t) : Prop :=
  forall g, In g (Manager.items m) ->
  exists tile, bucket_of m g = Some tile /\ In g tile.

(** The update of the bucket of [f] by [upd]: the common part of
    [Manager.add] and [Manager.remove]. *)
Definition update_bucket (m : Manager.t) (f : Food.t)
    (upd : list Food.t -> list Food.t) : option Manager.t :=
  row <- py_get m (Food.x f / 10) ;;
  tile <- py_get row (Food.y f / 10) ;;
  row' <- py_set row (Food.y f / 10) (upd tile) ;;
  py_set m (Food.x f / 10) row'.

(** The invariants of the index: distinct identities, every object in the
    bucket of its coordinates, all identities below the next one. *)
Definition index_inv (m : Manager.t) (next : nat) : Prop :=
  unique_ids m /\ bucketed m /\
  (forall g, In g (Manager.items m) -> (Food.fid g < next)%nat).

(** * States and frames of the concrete runs

    Small states in the style of the scenarios of the specification; all
    food lies in a grid built by [Manager.add] from [Manager.init]. *)

(** Draws under which an ant neither switches role, nor steps in the random
    walk, nor builds. *)
Definition still : MoveDraws := mkDraws (1 / 2) (1 / 2) zero zero (1 / 2).

(** Draws under which the random walk steps by +1 along x and a builder
    builds. *)
Definition eager : MoveDraws := mkDraws (1 / 2) (1 / 2) plus_one zero 0.

(** A frame without clicks and without colony growth. *)
Definition calm : Frame := mkFrame [] (fun _ => 5%Z) (1 / 2) (1 / 2) (fun _ => still).

(** A frame without clicks in which the growth draw succeeds. *)
Definition lucky : Frame := mkFrame [] (fun _ => 5%Z) 0 (1 / 2) (fun _ => eager).

(** A colony with food storage [v], the initial nest and no building
    progress. *)
Definition stock (v : R) : Colony.t := Colony.mk v 20 100 0.

(** A scavenger on the vertical line through the nest. *)
Definition scout (py : R) (carry : bool) (tg : option Food.t) : Ant.t :=
  Ant.mk 480 py 1 scavenger false carry tg.

(** A builder standing on the nest point. *)
Definition mason : Ant.t := Ant.mk 480 540 1 builder false false None.

(** The last food object left of a pile of 50, 11 below the nest point. *)
Definition last_food : Food.t := Food.mk 49 480 551 7.

(** Another object of the pile, harvested before: it is not in any index
    of the runs. *)
Definition taken : Food.t := Food.mk 48 480 552 7.

Definition one_item : Manager.t :=
  Eval vm_compute in
    match Manager.add Manager.init last_food with Some m => m | None => Manager.init end.

(** Two ants and the rest of the pile. *)
Definition pile (v : R) (a b : Ant.t) (fm : Manager.t) : World :=
  mkWorld (stock v) [a; b] fm 50.

(** Two ants, respectively one ant, and no food. *)
Definition duo (v : R) (a b : Ant.t) : World := mkWorld (stock v) [a; b] Manager.init 0.
Definition solo (v : R) (a : Ant.t) : World := mkWorld (stock v) [a] Manager.init 0.

(** A fresh colony without ants (scenario A of the specification). *)
Definition empty_world : World := mkWorld Colony.init [] Manager.init 0.

(** Scenario C of the specification: building progress 99.9. *)
Definition nearly_built : Colony.t := Colony.mk 1000 20 100 (999 / 10).

(** The index after [spawn_food] of two objects at (480, 150) into the
    empty grid. *)
Definition two_spawned : Manager.t :=
  Eval vm_compute in
    match spawn_food Manager.init 480 150 2 0 (fun _ => 5%Z) with
    | Some (m, _) => m
    | None => Manager.init
    end.

(** Three food objects around an ant at the nest point: one at squared
    distance exactly 10000, one in range that the loops meet first, and a
    nearer one that they meet later. *)
Definition on_the_edge : Food.t := Food.mk 0 400 480 5.
Definition first_found : Food.t := Food.mk 1 470 620 5.
Definition nearest : Food.t := Food.mk 2 480 545 5.

Definition three_items : Manager.t :=
  Eval vm_compute in
    match
      m1 <- Manager.add Manager.init nearest ;;
      m2 <- Manager.add m1 first_found ;;
      Manager.add m2 on_the_edge
    with Some m => m | None => Manager.init end.

(** * Properties *)

(** ** Deciding the comparisons *)

Lemma Rlt_b_true (a b : R) : a < b -> Rlt_b a b = true.
Proof. intros H. unfold Rlt_b. destruct (Rlt_dec a b); [reflexivity | contradiction]. Qed.

Lemma Rlt_b_false (a b : R) : ~ a < b -> Rlt_b a b = false.
Proof. intros H. unfold Rlt_b. destruct (Rlt_dec a b); [contradiction | reflexivity]. Qed.

Lemma Rlt_b_iff (a b : R) : Rlt_b a b = true <-> a < b.
Proof.
  unfold Rlt_b. destruct (Rlt_dec a b); split; intros; try assumption; try reflexivity.
  - discriminate.
  - contradiction.
Qed.

Lemma Rge_b_true (a b : R) : a >= b -> Rge_b a b = true.
Proof. intros H. unfold Rge_b. destruct (Rge_dec a b); [reflexivity | contradiction]. Qed.

Lemma Rge_b_false (a b : R) : ~ a >= b -> Rge_b a b = false.
Proof. intros H. unfold Rge_b. destruct (Rge_dec a b); [contradiction | reflexivity]. Qed.

Lemma Rgt_b_true (a b : R) : a > b -> Rgt_b a b = true.
Proof. intros H. unfold Rgt_b. destruct (Rgt_dec a b); [reflexivity | contradiction]. Qed.

Lemma Rgt_b_false (a b : R) : ~ a > b -> Rgt_b a b = false.
Proof. intros H. unfold Rgt_b. destruct (Rgt_dec a b); [contradiction | reflexivity]. Qed.

Lemma Rneq_b_true (a b : R) : a <> b -> Rneq_b a b = true.
Proof. intros H. unfold Rneq_b. destruct (Req_dec_T a b); [contradiction | reflexivity]. Qed.

Lemma Rneq_b_false (a b : R) : a = b -> Rneq_b a b = false.
Proof. intros H. unfold Rneq_b. destruct (Req_dec_T a b); [reflexivity | contradiction]. Qed.

Lemma Rmax_0_nonneg (v : R) : 0 <= Rmax 0 v.
Proof. apply Rmax_l. Qed.

Lemma ANTHILL_POINT_eq : ANTHILL_POINT = (480, 540).
Proof. reflexivity. Qed.

(** ** What [Colony.update] does to each field *)

Section ColonyUpdate.

Variable c : Colony.t.
Variable l : list Ant.t.
Variables g n : R.

Let c' := fst (Colony_update c l g n).

Lemma update_food_storage :
  Colony.food_storage c' =
  Rmax 0 (Colony.food_storage c - IZR (Z.of_nat (length l)) * FOOD_CONSUMPTION_RATE).
Proof.
  subst c'. unfold Colony_update. cbn.
  repeat match goal with |- context [if ?b then _ else _] => destruct b end;
    reflexivity.
Qed.

Lemma update_population : Colony.population c' = Colony.population c.
Proof.
  subst c'. unfold Colony_update. cbn.
  repeat match goal with |- context [if ?b then _ else _] => destruct b end;
    reflexivity.
Qed.

Lemma update_nest_size_grow :
  Colony.building_progress c >= 100 -> (Colony.nest_size c < MAX_NEST_SIZE)%Z ->
  Colony.nest_size c' = (Colony.nest_size c + 1)%Z /\ Colony.building_progress c' = 0.
Proof.
  intros Hb Hn. subst c'. unfold Colony_update. cbn.
  rewrite (Rge_b_true _ _ Hb).
  apply Z.ltb_lt in Hn. rewrite Hn. cbn.
  match goal with |- context [if ?b then _ else _] => destruct b end;
    split; reflexivity.
Qed.

Lemma update_nest_size_keep :
  ~ (Colony.building_progress c >= 100 /\ (Colony.nest_size c < MAX_NEST_SIZE)%Z) ->
  Colony.nest_size c' = Colony.nest_size c /\
  Colony.building_progress c' = Colony.building_progress c.
Proof.
  intros H. subst c'. unfold Colony_update. cbn.
  destruct (Rge_dec (Colony.building_progress c) 100) as [Hb | Hb].
  - rewrite (Rge_b_true _ _ Hb).
    destruct (Z.ltb_spec (Colony.nest_size c) MAX_NEST_SIZE) as [Hn | Hn].
    + exfalso. apply H. split; assumption.
    + cbn. match goal with |- context [if ?b then _ else _] => destruct b end;
        split; reflexivity.
  - rewrite (Rge_b_false _ _ Hb). cbn.
    match goal with |- context [if ?b then _ else _] => destruct b end;
      split; reflexivity.
Qed.

Lemma update_nest_size_bounds :
  (Colony.nest_size c <= Colony.nest_size c' <= Colony.nest_size c + 1)%Z /\
  (Colony.nest_size c <= MAX_NEST_SIZE -> Colony.nest_size c' <= MAX_NEST_SIZE)%Z.
Proof.
  destruct (Rge_dec (Colony.building_progress c) 100) as [Hb | Hb];
    [destruct (Z_lt_ge_dec (Colony.nest_size c) MAX_NEST_SIZE) as [Hn | Hn] |].
  - destruct (update_nest_size_grow Hb Hn) as [E _]. rewrite E. lia.
  - destruct update_nest_size_keep as [E _]; [intros [_ ?]; lia | rewrite E; lia].
  - destruct update_nest_size_keep as [E _]; [intros [? _]; contradiction | rewrite E; lia].
Qed.

(** A new ant is returned only below the population cap. *)
Lemma update_spawn_below_cap (a : Ant.t) :
  snd (Colony_update c l g n) = Some a ->
  (Z.of_nat (length l) < MAX_COLONY_SIZE)%Z /\
  Colony.food_storage c' > OPTIMAL_FOOD_LEVEL /\ g < COLONY_GROWTH_RATE.
Proof.
  subst c'. unfold Colony_update.
  match goal with |- context [if ?b then (?u, Some ?v) else _] =>
    destruct b eqn:E; cbn [fst snd]; [| discriminate] end.
  intros _.
  apply andb_prop in E as [E E3]. apply andb_prop in E as [E1 E2].
  apply Z.ltb_lt in E2. apply Rlt_b_iff in E3.
  unfold Rgt_b in E1. destruct (Rgt_dec _ _) as [E1' | ]; [| discriminate].
  auto.
Qed.

End ColonyUpdate.

(** ** Frame properties of the ant methods *)

Ltac break_if :=
  match goal with
  | |- context [if ?b then _ else _] => destruct b eqn:?
  | |- context [match ?o with Some _ => _ | None => _ end] => destruct o eqn:?
  | H : context [if ?b then _ else _] |- _ => destruct b eqn:?
  | H : context [match ?o with Some _ => _ | None => _ end] |- _ => destruct o eqn:?
  end.

Ltac some_inv :=
  repeat match goal with
  | H : Some _ = Some _ |- _ => inversion H; subst; clear H
  | H : None = Some _ |- _ => discriminate H
  | H : (_, _) = (_, _) |- _ => inversion H; subst; clear H
  end.

Lemma find_food_frame (a : Ant.t) (fm : Manager.t) :
  let a' := Ant.find_food a fm in
  Ant.pos a' = Ant.pos a /\ Ant.speed a' = Ant.speed a /\ Ant.role a' = Ant.role a /\
  Ant.has_food a' = Ant.has_food a /\ Ant.building a' = Ant.building a.
Proof. unfold Ant.find_food. break_if; cbn; auto. Qed.

Lemma update_role_frame (a : Ant.t) (c : Colony.t) (d : MoveDraws) :
  let a' := Ant.update_role a c d in
  Ant.pos a' = Ant.pos a /\ Ant.speed a' = Ant.speed a /\
  Ant.has_food a' = Ant.has_food a /\ Ant.target a' = Ant.target a /\
  Ant.building a' = Ant.building a.
Proof. unfold Ant.update_role. repeat break_if; cbn; auto. Qed.

Lemma update_role_critical (a : Ant.t) (c : Colony.t) (d : MoveDraws) :
  Colony.food_storage c < CRITICAL_FOOD_LEVEL ->
  Ant.role (Ant.update_role a c d) = scavenger.
Proof. intros H. unfold Ant.update_role. rewrite (Rlt_b_true _ _ H). reflexivity. Qed.

Lemma update_role_steady (a : Ant.t) (c : Colony.t) (d : MoveDraws) :
  CRITICAL_FOOD_LEVEL <= Colony.food_storage c <= OPTIMAL_FOOD_LEVEL ->
  Ant.update_role a c d = a.
Proof.
  intros [H1 H2]. unfold Ant.update_role.
  rewrite Rlt_b_false by lra. rewrite Rgt_b_false by lra. reflexivity.
Qed.

Lemma sense_frame (a : Ant.t) (c : Colony.t) (fm : Manager.t) (d : MoveDraws) :
  let a' := Ant.sense a c fm d in
  Ant.pos a' = Ant.pos a /\ Ant.speed a' = Colony.get_ant_speed c /\
  Ant.has_food a' = Ant.has_food a /\ Ant.building a' = Ant.building a /\
  Ant.role a' = Ant.role (Ant.update_role a c d).
Proof.
  unfold Ant.sense.
  destruct (update_role_frame (Ant.set_speed a (Colony.get_ant_speed c)) c d)
    as (P & S & F & T & B).
  assert (R0 : Ant.role (Ant.update_role (Ant.set_speed a (Colony.get_ant_speed c)) c d)
               = Ant.role (Ant.update_role a c d)).
  { unfold Ant.update_role. repeat break_if; reflexivity. }
  break_if.
  - destruct (find_food_frame
                (Ant.update_role (Ant.set_speed a (Colony.get_ant_speed c)) c d) fm)
      as (P' & S' & R' & F' & B').
    cbv zeta in *. rewrite P', S', R', F', B', P, S, F, B, R0. cbn. auto.
  - cbv zeta in *. rewrite P, S, F, B, R0. cbn. auto.
Qed.

Lemma move_toward_frame (a : Ant.t) (p : R * R) :
  let a' := Ant.move_toward a p in
  Ant.speed a' = Ant.speed a /\ Ant.role a' = Ant.role a /\
  Ant.has_food a' = Ant.has_food a /\ Ant.target a' = Ant.target a /\
  Ant.building a' = Ant.building a.
Proof. unfold Ant.move_toward. break_if; cbn; auto. Qed.

(** The movement branch never changes the role, the nest size, the
    population field or the building progress; it changes the food storage
    only by the deposit of 20, and only for an ant that carried food. *)
Lemma step_frame (a : Ant.t) (c : Colony.t) (fm : Manager.t) (d : MoveDraws)
    (a' : Ant.t) (c' : Colony.t) (fm' : Manager.t) :
  Ant.step a c fm d = Some (a', c', fm') ->
  Ant.role a' = Ant.role a /\
  Colony.nest_size c' = Colony.nest_size c /\
  Colony.population c' = Colony.population c /\
  Colony.building_progress c' = Colony.building_progress c /\
  (c' = c \/
   Ant.has_food a = true /\
   c' = Colony.set_food_storage c (Colony.food_storage c + 20)).
Proof.
  unfold Ant.step. intros H.
  destruct (Ant.has_food a) eqn:F.
  - destruct (move_toward_frame a ANTHILL_POINT) as (_ & R0 & _).
    break_if; some_inv; cbn; rewrite ?R0; auto 10.
  - destruct (Ant.target a) as [tg |] eqn:T.
    + destruct (move_toward_frame a (Food.pos tg)) as (_ & R0 & _).
      break_if.
      * unfold bind in H. break_if; some_inv. cbn. rewrite ?R0. auto 10.
      * some_inv. rewrite ?R0. auto 10.
    + some_inv. cbn. auto 10.
Qed.

Lemma build_frame (a : Ant.t) (c : Colony.t) :
  let c' := Ant.build a c in
  Colony.food_storage c' = Colony.food_storage c /\
  Colony.nest_size c' = Colony.nest_size c /\
  Colony.population c' = Colony.population c.
Proof. unfold Ant.build. break_if; cbn; auto. Qed.

Lemma act_frame (a : Ant.t) (c : Colony.t) (d : MoveDraws) :
  let '(a', c') := Ant.act a c d in
  Ant.pos a' = Ant.pos a /\ Ant.role a' = Ant.role a /\
  Ant.has_food a' = Ant.has_food a /\ Ant.target a' = Ant.target a /\
  Colony.food_storage c' = Colony.food_storage c /\
  Colony.nest_size c' = Colony.nest_size c /\
  Colony.population c' = Colony.population c.
Proof.
  unfold Ant.act. destruct (build_frame (Ant.set_building a true) c) as (F & N & P).
  repeat break_if; cbn; auto 10.
Qed.

(** [move] unfolded into its three phases. *)
Lemma move_phases (a : Ant.t) (c : Colony.t) (fm : Manager.t) (d : MoveDraws)
    (a' : Ant.t) (c' : Colony.t) (fm' : Manager.t) :
  Ant.move a c fm d = Some (a', c', fm') ->
  exists a1 c1,
    Ant.step (Ant.sense a c fm d) c fm d = Some (a1, c1, fm') /\
    Ant.act a1 c1 d = (a', c').
Proof.
  unfold Ant.move, bind. intros H.
  destruct (Ant.step (Ant.sense a c fm d) c fm d) as [[[a1 c1] fm1] |]; [| discriminate].
  destruct (Ant.act a1 c1 d) as [a2 c2] eqn:E. some_inv.
  exists a1, c1. auto.
Qed.

(** The effect of one [move] on the colony. *)
Lemma move_colony (a : Ant.t) (c : Colony.t) (fm : Manager.t) (d : MoveDraws)
    (a' : Ant.t) (c' : Colony.t) (fm' : Manager.t) :
  Ant.move a c fm d = Some (a', c', fm') ->
  Colony.nest_size c' = Colony.nest_size c /\
  Colony.population c' = Colony.population c /\
  (Colony.food_storage c' = Colony.food_storage c \/
   Ant.has_food a = true /\ Colony.food_storage c' = Colony.food_storage c + 20).
Proof.
  intros H. apply move_phases in H as (a1 & c1 & Hs & Ha).
  apply step_frame in Hs as (_ & N & P & _ & S).
  pose proof (act_frame a1 c1 d) as Hact. rewrite Ha in Hact.
  destruct Hact as (_ & _ & _ & _ & F' & N' & P').
  destruct (sense_frame a c fm d) as (_ & _ & HF & _).
  rewrite N', P', F', N, P. repeat split.
  destruct S as [-> | [Hf ->]]; [left; reflexivity | right].
  cbv zeta in HF. rewrite HF in Hf. split; [assumption | reflexivity].
Qed.

(** The role an ant has after [move] is the one [update_role] gave it. *)
Lemma move_role (a : Ant.t) (c : Colony.t) (fm : Manager.t) (d : MoveDraws)
    (a' : Ant.t) (c' : Colony.t) (fm' : Manager.t) :
  Ant.move a c fm d = Some (a', c', fm') ->
  Ant.role a' = Ant.role (Ant.update_role a c d).
Proof.
  intros H. apply move_phases in H as (a1 & c1 & Hs & Ha).
  apply step_frame in Hs as (R0 & _).
  pose proof (act_frame a1 c1 d) as Hact. rewrite Ha in Hact.
  destruct Hact as (_ & R1 & _).
  destruct (sense_frame a c fm d) as (_ & _ & _ & _ & R2).
  cbv zeta in R2. congruence.
Qed.

(** ** One pass over the ants, one iteration, several iterations *)

Lemma move_all_colony (l : list Ant.t) :
  forall i c fm draws l' c' fm',
  move_all l i c fm draws = Some (l', c', fm') ->
  length l' = length l /\
  Colony.nest_size c' = Colony.nest_size c /\
  Colony.population c' = Colony.population c /\
  Colony.food_storage c <= Colony.food_storage c'.
Proof.
  induction l as [| a rest IH]; intros i c fm draws l' c' fm' H; cbn in H.
  - some_inv. repeat split; lra.
  - unfold bind in H.
    destruct (Ant.move a c fm (draws i)) as [[[a1 c1] fm1] |] eqn:Hm; [| discriminate].
    destruct (move_all rest (S i) c1 fm1 draws) as [[[r2 c2] fm2] |] eqn:Hr; [| discriminate].
    some_inv.
    apply IH in Hr as (L & N & P & F).
    apply move_colony in Hm as (N1 & P1 & F1).
    cbn. repeat split; try congruence.
    destruct F1 as [F1 | [_ F1]]; lra.
Qed.

Lemma tick_phases (f : Frame) (w w' : World) :
  tick f w = Some w' ->
  exists fm,
    handle_clicks (clicks f) (food_manager w) (next_fid w) (quantity f)
      = Some (fm, next_fid w') /\
    move_all (ants_after_update w f) 0
      (fst (Colony_update (colony w) (ants w) (growth_draw f) (newborn_draw f)))
      fm (move_draws f)
      = Some (ants w', colony w', food_manager w').
Proof.
  unfold tick, ants_after_update, bind. intros H.
  destruct (handle_clicks _ _ _ _) as [[fm next] |]; [| discriminate].
  destruct (Colony_update _ _ _ _) as [c new_ant]. cbn [fst snd].
  destruct (move_all _ _ _ _ _) as [[[l2 c2] fm2] |] eqn:Hm; [| discriminate].
  some_inv. cbn. exists fm. split; [reflexivity | exact Hm].
Qed.

Lemma ants_after_update_length (w : World) (f : Frame) :
  (length (ants_after_update w f) = length (ants w) \/
   length (ants_after_update w f) = S (length (ants w)) /\
   (Z.of_nat (length (ants w)) < MAX_COLONY_SIZE)%Z).
Proof.
  unfold ants_after_update.
  destruct (snd (Colony_update _ _ _ _)) as [a |] eqn:E; [right | left; reflexivity].
  apply update_spawn_below_cap in E as (Hc & _).
  rewrite length_app. cbn. split; [lia | assumption].
Qed.

Lemma tick_colony (f : Frame) (w w' : World) :
  tick f w = Some w' ->
  let c1 := fst (Colony_update (colony w) (ants w) (growth_draw f) (newborn_draw f)) in
  Colony.nest_size (colony w') = Colony.nest_size c1 /\
  Colony.population (colony w') = Colony.population (colony w) /\
  Colony.food_storage c1 <= Colony.food_storage (colony w') /\
  length (ants w') = length (ants_after_update w f).
Proof.
  intros H. apply tick_phases in H as (fm & _ & Hm).
  apply move_all_colony in Hm as (L & N & P & F).
  cbv zeta. rewrite update_population in P. auto.
Qed.

(** ** C4: the food storage is never negative after an iteration *)

(** C4. After every iteration of the main loop, whatever the state it starts
    from (in particular after any earlier iterations [fs]) and whatever the
    clicks and draws, [colony.food_storage >= 0]: [Colony.update] leaves
    [max(0, storage - len(ants) * rate)], and each ant of the pass either
    leaves the storage alone or adds 20. *)
Theorem C4_food_storage_nonneg (fs : list Frame) (f : Frame) (w w1 w2 : World) :
  run fs w = Some w1 ->
  tick f w1 = Some w2 ->
  Colony.food_storage (colony w2) >= 0 /\
  Colony.food_storage (colony w2) >=
    Rmax 0 (Colony.food_storage (colony w1)
            - IZR (Z.of_nat (length (ants w1))) * FOOD_CONSUMPTION_RATE).
Proof.
  intros _ H. apply tick_colony in H as (_ & _ & F & _).
  rewrite update_food_storage in F.
  pose proof (Rmax_0_nonneg (Colony.food_storage (colony w1)
    - IZR (Z.of_nat (length (ants w1))) * FOOD_CONSUMPTION_RATE)).
  split; lra.
Qed.

(** ** C5: the nest radius grows monotonically and stays below the cap *)

Lemma tick_nest_size (f : Frame) (w w' : World) :
  tick f w = Some w' ->
  (Colony.nest_size (colony w) <= Colony.nest_size (colony w')
     <= Colony.nest_size (colony w) + 1)%Z /\
  (Colony.nest_size (colony w) <= MAX_NEST_SIZE ->
   Colony.nest_size (colony w') <= MAX_NEST_SIZE)%Z.
Proof.
  intros H. apply tick_colony in H as (N & _). cbv zeta in N. rewrite N.
  apply update_nest_size_bounds.
Qed.

Lemma run_nest_size (fs : list Frame) :
  forall w w', run fs w = Some w' ->
  (Colony.nest_size (colony w) <= Colony.nest_size (colony w'))%Z /\
  (Colony.nest_size (colony w) <= MAX_NEST_SIZE ->
   Colony.nest_size (colony w') <= MAX_NEST_SIZE)%Z.
Proof.
  induction fs as [| f rest IH]; intros w w' H; cbn in H.
  - some_inv. split; [lia | auto].
  - unfold bind in H. destruct (tick f w) as [w1 |] eqn:Ht; [| discriminate].
    apply tick_nest_size in Ht as ([L _] & B). apply IH in H as (L' & B').
    split; [lia | auto].
Qed.

(** From the initial colony every run keeps the nest size between 20 and
    [MAX_NEST_SIZE]. *)
Lemma run_from_init_nest_size (fs : list Frame) (w0 w : World) :
  colony w0 = Colony.init ->
  run fs w0 = Some w ->
  (20 <= Colony.nest_size (colony w) <= MAX_NEST_SIZE)%Z.
Proof.
  intros H0 H. apply run_nest_size in H as (L & B). rewrite H0 in *.
  cbn in L, B. split; [exact L | apply B; unfold MAX_NEST_SIZE; lia].
Qed.

(** C5. Along every run, the nest radius never decreases (it is compared
    between any two points [w1], [w2] of the run), and when it starts at or
    below [MAX_NEST_SIZE], as the initial radius 20 does, it never exceeds
    [MAX_NEST_SIZE]. *)
Theorem C5_nest_size_monotone_bounded (fs1 fs2 : list Frame) (w w1 w2 : World) :
  (Colony.nest_size (colony w) <= MAX_NEST_SIZE)%Z ->
  run fs1 w = Some w1 ->
  run fs2 w1 = Some w2 ->
  (Colony.nest_size (colony w1) <= Colony.nest_size (colony w2) <= MAX_NEST_SIZE)%Z.
Proof.
  intros H0 H1 H2.
  apply run_nest_size in H1 as (_ & B1). apply run_nest_size in H2 as (L2 & B2).
  split; auto.
Qed.

(** ** C6: the number of ants stays below the cap *)

Lemma tick_ants_length (f : Frame) (w w' : World) :
  tick f w = Some w' ->
  length (ants w') = length (ants w) \/
  length (ants w') = S (length (ants w)) /\
  (Z.of_nat (length (ants w)) < MAX_COLONY_SIZE)%Z.
Proof.
  intros H. apply tick_colony in H as (_ & _ & _ & L). rewrite L.
  apply ants_after_update_length.
Qed.

Lemma run_ants_length (fs : list Frame) :
  forall w w', run fs w = Some w' ->
  (length (ants w) <= length (ants w'))%nat /\
  ((Z.of_nat (length (ants w)) <= MAX_COLONY_SIZE)%Z ->
   (Z.of_nat (length (ants w')) <= MAX_COLONY_SIZE)%Z).
Proof.
  induction fs as [| f rest IH]; intros w w' H; cbn in H.
  - some_inv. split; [lia | auto].
  - unfold bind in H. destruct (tick f w) as [w1 |] eqn:Ht; [| discriminate].
    apply tick_ants_length in Ht. apply IH in H as (L' & B').
    split; [lia |]. intros. apply B'. lia.
Qed.

(** C6. Starting with at most [MAX_COLONY_SIZE] ants (the program starts
    with [INITIAL_COLONY_SIZE] = 100 <= 500), the number of ants never
    exceeds [MAX_COLONY_SIZE] along any run; every iteration keeps the number
    or adds exactly one ant, the latter only when the number was strictly
    below [MAX_COLONY_SIZE]; and the number never decreases. *)
Theorem C6_population_bound (fs : list Frame) (f : Frame) (w w1 w2 : World) :
  (Z.of_nat (length (ants w)) <= MAX_COLONY_SIZE)%Z ->
  run fs w = Some w1 ->
  tick f w1 = Some w2 ->
  (Z.of_nat (length (ants w1)) <= MAX_COLONY_SIZE)%Z /\
  (Z.of_nat (length (ants w2)) <= MAX_COLONY_SIZE)%Z /\
  (length (ants w) <= length (ants w1))%nat /\
  (length (ants w2) = length (ants w1) \/
   length (ants w2) = S (length (ants w1)) /\
   (Z.of_nat (length (ants w1)) < MAX_COLONY_SIZE)%Z).
Proof.
  intros H0 H1 H2.
  apply run_ants_length in H1 as (L1 & B1).
  apply tick_ants_length in H2.
  repeat split; auto. destruct H2 as [-> | [-> ?]]; [auto | lia].
Qed.

(** ** C7: one nest increment per update, progress reset to 0 *)

(** C7. Whenever [Colony.update] runs with [building_progress >= 100] and
    [nest_size < MAX_NEST_SIZE], the nest size grows by exactly 1 and the
    building progress is exactly 0 afterwards, whatever the excess over 100
    was (progress 99.9 plus one build of 0.2 gives 0, not 0.1). *)
Theorem C7_building_increment (c : Colony.t) (l : list Ant.t) (g n : R) :
  Colony.building_progress c >= 100 ->
  (Colony.nest_size c < MAX_NEST_SIZE)%Z ->
  Colony.nest_size (fst (Colony_update c l g n)) = (Colony.nest_size c + 1)%Z /\
  Colony.building_progress (fst (Colony_update c l g n)) = 0.
Proof. intros Hb Hn. exact (update_nest_size_grow c l g n Hb Hn). Qed.

(** ** C10: the population field is written at construction only *)

Lemma run_population (fs : list Frame) :
  forall w w', run fs w = Some w' ->
  Colony.population (colony w') = Colony.population (colony w).
Proof.
  induction fs as [| f rest IH]; intros w w' H; cbn in H.
  - some_inv. reflexivity.
  - unfold bind in H. destruct (tick f w) as [w1 |] eqn:Ht; [| discriminate].
    apply tick_colony in Ht as (_ & P & _). apply IH in H. congruence.
Qed.

(** C10. [Colony.__init__] writes [population = INITIAL_COLONY_SIZE]; no
    iteration of the loop ([Colony.update], the ant methods, food spawning)
    changes the field, so after any run from a freshly built colony it is
    still [INITIAL_COLONY_SIZE], whatever the length of the list of ants has
    become. The decisions of [Colony.update] read [len(ants)], not the
    field. *)
Theorem C10_population_field_frozen (fs : list Frame) (w w' : World) :
  colony w = Colony.init ->
  run fs w = Some w' ->
  Colony.population (colony w') = INITIAL_COLONY_SIZE /\
  Colony.population (colony w') = Colony.population (colony w).
Proof.
  intros H0 H. apply run_population in H. rewrite H, H0. split; reflexivity.
Qed.

(** ** C8: the food search takes the first item in range *)

Lemma scan_tile_app (a : Ant.t) (t1 t2 : list Food.t) :
  Ant.scan_tile a (t1 ++ t2) =
  match Ant.scan_tile a t1 with Some f => Some f | None => Ant.scan_tile a t2 end.
Proof.
  induction t1 as [| f rest IH]; cbn; [reflexivity |].
  destruct (Rlt_b _ _); [reflexivity | exact IH].
Qed.

Lemma scan_row_concat (a : Ant.t) (row : list (list Food.t)) :
  Ant.scan_row a row = Ant.scan_tile a (concat row).
Proof.
  induction row as [| tile rest IH]; cbn; [reflexivity |].
  rewrite scan_tile_app, IH. reflexivity.
Qed.

Lemma scan_grid_items (a : Ant.t) (m : Manager.t) :
  Ant.scan_grid a m = Ant.scan_tile a (Manager.items m).
Proof.
  unfold Manager.items.
  induction m as [| row rest IH]; cbn; [reflexivity |].
  rewrite concat_app, scan_tile_app, IH, scan_row_concat. reflexivity.
Qed.

Lemma scan_tile_first (a : Ant.t) (before after : list Food.t) (food : Food.t) :
  in_range a food ->
  (forall g, In g before -> ~ in_range a g) ->
  Ant.scan_tile a (before ++ food :: after) = Some food.
Proof.
  intros Hin Hout. induction before as [| g rest IH]; cbn.
  - rewrite (Rlt_b_true _ _ Hin). reflexivity.
  - rewrite Rlt_b_false by (apply Hout; left; reflexivity).
    apply IH. intros h Hh. apply Hout. right. exact Hh.
Qed.

Lemma scan_tile_none (a : Ant.t) (l : list Food.t) :
  (forall g, In g l -> ~ in_range a g) ->
  Ant.scan_tile a l = None.
Proof.
  intros Hout. induction l as [| g rest IH]; cbn; [reflexivity |].
  rewrite Rlt_b_false by (apply Hout; left; reflexivity).
  apply IH. intros h Hh. apply Hout. right. exact Hh.
Qed.

(** The role refresh does not look at the speed. *)
Lemma update_role_speed (a : Ant.t) (v : R) (c : Colony.t) (d : MoveDraws) :
  Ant.role (Ant.update_role (Ant.set_speed a v) c d) = Ant.role (Ant.update_role a c d).
Proof. unfold Ant.update_role. repeat break_if; reflexivity. Qed.

(** The loops of [find_food] read the position of the ant only. *)
Lemma scan_tile_pos (a1 a2 : Ant.t) (l : list Food.t) :
  Ant.pos a1 = Ant.pos a2 -> Ant.scan_tile a1 l = Ant.scan_tile a2 l.
Proof.
  intros E. induction l as [| g rest IH]; cbn; [reflexivity |].
  rewrite E, IH. reflexivity.
Qed.

(** Lines 149-151: an ant that is a scavenger after the role refresh and
    carries no food is searched for, whatever its target. *)
Lemma sense_searches (a : Ant.t) (c : Colony.t) (fm : Manager.t) (d : MoveDraws) :
  Ant.role (Ant.update_role a c d) = scavenger ->
  Ant.has_food a = false ->
  Ant.sense a c fm d =
  Ant.find_food (Ant.update_role (Ant.set_speed a (Colony.get_ant_speed c)) c d) fm.
Proof.
  intros Hr Hf. unfold Ant.sense, Ant.is_scavenger.
  destruct (update_role_frame (Ant.set_speed a (Colony.get_ant_speed c)) c d)
    as (_ & _ & F & _). cbv zeta in F. cbn in F.
  rewrite update_role_speed, Hr, F, Hf. reflexivity.
Qed.

(** Any other ant is not searched for. *)
Lemma sense_skips (a : Ant.t) (c : Colony.t) (fm : Manager.t) (d : MoveDraws) :
  Ant.role (Ant.update_role a c d) = builder \/ Ant.has_food a = true ->
  Ant.sense a c fm d = Ant.update_role (Ant.set_speed a (Colony.get_ant_speed c)) c d.
Proof.
  intros H. unfold Ant.sense, Ant.is_scavenger.
  destruct (update_role_frame (Ant.set_speed a (Colony.get_ant_speed c)) c d)
    as (_ & _ & F & _). cbv zeta in F. cbn in F.
  rewrite update_role_speed, F.
  destruct H as [-> | ->]; [reflexivity |].
  destruct (Ant.role _); reflexivity.
Qed.

(** The target after the detection step of a searching ant. *)
Lemma sense_target_scan (a : Ant.t) (c : Colony.t) (fm : Manager.t) (d : MoveDraws) :
  Ant.role (Ant.update_role a c d) = scavenger ->
  Ant.has_food a = false ->
  Ant.target (Ant.sense a c fm d) =
  match Ant.scan_tile a (Manager.items fm) with
  | Some food => Some food
  | None => Ant.target a
  end.
Proof.
  intros Hr Hf. rewrite (sense_searches a c fm d Hr Hf).
  destruct (update_role_frame (Ant.set_speed a (Colony.get_ant_speed c)) c d)
    as (P & _ & _ & T & _). cbv zeta in P, T. cbn in T.
  unfold Ant.find_food. rewrite scan_grid_items.
  rewrite (scan_tile_pos _ a _ P).
  destruct (Ant.scan_tile a (Manager.items fm)); [reflexivity | exact T].
Qed.

(** The movement branch of an ant that holds a target and no food: it
    walks towards the target and harvests it when it is then within the
    collection range. *)
Lemma step_pursuit (a : Ant.t) (c : Colony.t) (fm : Manager.t) (d : MoveDraws)
    (tg : Food.t) (a' : Ant.t) (c' : Colony.t) (fm' : Manager.t) :
  Ant.has_food a = false ->
  Ant.target a = Some tg ->
  Ant.step a c fm d = Some (a', c', fm') ->
  (sq_dist (Ant.pos (Ant.move_toward a (Food.pos tg))) (Food.pos tg)
     < FOOD_COLLECTION_RANGE_SQUARED ->
   Ant.has_food a' = true /\ Ant.target a' = None /\
   Manager.remove fm tg = Some fm') /\
  (~ sq_dist (Ant.pos (Ant.move_toward a (Food.pos tg))) (Food.pos tg)
     < FOOD_COLLECTION_RANGE_SQUARED ->
   Ant.has_food a' = false /\ Ant.target a' = Some tg /\ fm' = fm).
Proof.
  intros Hf Ht H. unfold Ant.step in H. rewrite Hf, Ht in H.
  destruct (move_toward_frame a (Food.pos tg)) as (_ & _ & F & T & _).
  cbv zeta in F, T.
  destruct (Rlt_dec (sq_dist (Ant.pos (Ant.move_toward a (Food.pos tg))) (Food.pos tg))
              FOOD_COLLECTION_RANGE_SQUARED) as [Hin | Hout].
  - rewrite (Rlt_b_true _ _ Hin) in H. unfold bind in H.
    destruct (Manager.remove fm tg) as [fm1 |] eqn:Er; [| discriminate].
    some_inv. cbn. split; [auto | intros; contradiction].
  - rewrite (Rlt_b_false _ _ Hout) in H. some_inv.
    split; [intros; contradiction |]. intros _. rewrite F, T, Hf, Ht. auto.
Qed.

(** The same for a whole call of [move], from the target that the
    detection step leaves. *)
Lemma move_pursuit (a : Ant.t) (c : Colony.t) (fm : Manager.t) (d : MoveDraws)
    (tg : Food.t) (a' : Ant.t) (c' : Colony.t) (fm' : Manager.t) :
  Ant.has_food a = false ->
  Ant.target (Ant.sense a c fm d) = Some tg ->
  Ant.move a c fm d = Some (a', c', fm') ->
  (sq_dist (Ant.pos (Ant.move_toward (Ant.sense a c fm d) (Food.pos tg))) (Food.pos tg)
     < FOOD_COLLECTION_RANGE_SQUARED ->
   Ant.has_food a' = true /\ Ant.target a' = None /\
   Manager.remove fm tg = Some fm') /\
  (~ sq_dist (Ant.pos (Ant.move_toward (Ant.sense a c fm d) (Food.pos tg))) (Food.pos tg)
     < FOOD_COLLECTION_RANGE_SQUARED ->
   Ant.has_food a' = false /\ Ant.target a' = Some tg /\ fm' = fm).
Proof.
  intros Hf Ht H.
  apply move_phases in H as (a1 & c1 & Hs & Ha).
  destruct (sense_frame a c fm d) as (_ & _ & F0 & _). cbv zeta in F0.
  rewrite Hf in F0.
  destruct (step_pursuit _ _ _ _ _ _ _ _ F0 Ht Hs) as (Hin & Hout).
  pose proof (act_frame a1 c1 d) as Hact. rewrite Ha in Hact.
  destruct Hact as (_ & _ & F & T & _). rewrite F, T.
  split; assumption.
Qed.

(** The movement branch of an ant without target and without food is the
    random-walk step: target, carrying flag and index stay as they are. *)
Lemma move_no_target (a : Ant.t) (c : Colony.t) (fm : Manager.t) (d : MoveDraws)
    (a' : Ant.t) (c' : Colony.t) (fm' : Manager.t) :
  Ant.has_food a = false ->
  Ant.target (Ant.sense a c fm d) = None ->
  Ant.move a c fm d = Some (a', c', fm') ->
  Ant.target a' = None /\ Ant.has_food a' = false /\ fm' = fm.
Proof.
  intros Hf Ht H.
  apply move_phases in H as (a1 & c1 & Hs & Ha).
  destruct (sense_frame a c fm d) as (_ & _ & F0 & _). cbv zeta in F0.
  rewrite Hf in F0.
  pose proof (act_frame a1 c1 d) as Hact. rewrite Ha in Hact.
  destruct Hact as (_ & _ & F & T & _). rewrite F, T.
  unfold Ant.step in Hs. rewrite F0, Ht in Hs. some_inv. cbn.
  rewrite F0, Ht. auto.
Qed.

(** C8. Every call of [move] on an ant that is a scavenger after the role
    refresh and carries no food runs the food search (lines 149-151),
    whether or not the ant already holds a target. The search sets the
    target to the first food object, in the order of the three nested
    loops over the grid, whose squared distance to the ant is strictly
    below [FOOD_DETECTION_RANGE_SQUARED] (an object at exactly that squared
    distance is passed over, and a nearer object later in the order is not
    preferred); the same call then pursues that object, and ends with it
    as target or with the object harvested and taken out of the index.
    When no object is strictly in range the search assigns nothing: the
    target is the one the ant had, so an ant without a target stays
    without, also at the end of the call. *)
Theorem C8_find_food_first_in_range (a : Ant.t) (c : Colony.t) (fm : Manager.t)
    (d : MoveDraws) :
  Ant.role (Ant.update_role a c d) = scavenger ->
  Ant.has_food a = false ->
  (forall before food after,
     Manager.items fm = before ++ food :: after ->
     in_range a food ->
     (forall g, In g before -> ~ in_range a g) ->
     Ant.find_food a fm = Ant.set_target a (Some food) /\
     Ant.target (Ant.sense a c fm d) = Some food /\
     (forall a' c' fm',
        Ant.move a c fm d = Some (a', c', fm') ->
        Ant.target a' = Some food /\ Ant.has_food a' = false /\ fm' = fm \/
        Ant.target a' = None /\ Ant.has_food a' = true /\
        Manager.remove fm food = Some fm')) /\
  ((forall g, In g (Manager.items fm) -> ~ in_range a g) ->
   Ant.find_food a fm = a /\
   Ant.target (Ant.sense a c fm d) = Ant.target a /\
   (Ant.target a = None ->
    forall a' c' fm',
      Ant.move a c fm d = Some (a', c', fm') ->
      Ant.target a' = None /\ Ant.has_food a' = false /\ fm' = fm)).
Proof.
  intros Hr Hf. split.
  - intros before food after E Hin Hout.
    assert (Hs : Ant.target (Ant.sense a c fm d) = Some food).
    { rewrite (sense_target_scan a c fm d Hr Hf), E.
      rewrite (scan_tile_first a before after food Hin Hout). reflexivity. }
    split; [| split; [exact Hs |]].
    + unfold Ant.find_food. rewrite scan_grid_items, E.
      rewrite (scan_tile_first a before after food Hin Hout). reflexivity.
    + intros a' c' fm' H.
      destruct (move_pursuit a c fm d food a' c' fm' Hf Hs H) as (Near & Far).
      destruct (Rlt_dec
                  (sq_dist (Ant.pos (Ant.move_toward (Ant.sense a c fm d) (Food.pos food)))
                     (Food.pos food))
                  FOOD_COLLECTION_RANGE_SQUARED) as [Hn | Hn].
      * right. destruct (Near Hn) as (F & T & Er). auto.
      * left. destruct (Far Hn) as (F & T & Ef). auto.
  - intros Hout.
    assert (Hs : Ant.target (Ant.sense a c fm d) = Ant.target a).
    { rewrite (sense_target_scan a c fm d Hr Hf).
      rewrite (scan_tile_none a _ Hout). reflexivity. }
    split; [| split; [exact Hs |]].
    + unfold Ant.find_food. rewrite scan_grid_items.
      rewrite (scan_tile_none a _ Hout). reflexivity.
    + intros Hnone a' c' fm' H. rewrite Hnone in Hs.
      exact (move_no_target a c fm d a' c' fm' Hf Hs H).
Qed.

(** ** C9: an ant carrying food gets closer to the nest *)

Lemma sum_squares_nonneg (u v : R) : 0 <= u * u + v * v.
Proof. nra. Qed.

Lemma sq_dist_nonneg (p q : R * R) : 0 <= sq_dist p q.
Proof. unfold sq_dist. apply sum_squares_nonneg. Qed.

(** [move_toward] when the distance is known. *)
Lemma move_toward_value (a : Ant.t) (p : R * R) (dist : R) :
  0 < dist ->
  dist * dist = (fst p - Ant.x a) * (fst p - Ant.x a) + (snd p - Ant.y a) * (snd p - Ant.y a) ->
  Ant.move_toward a p =
  Ant.set_pos a (Ant.x a + ((fst p - Ant.x a) / dist) * Ant.speed a,
                 Ant.y a + ((snd p - Ant.y a) / dist) * Ant.speed a).
Proof.
  intros Hpos Hsq. unfold Ant.move_toward. cbv zeta.
  assert (E : sqrt ((fst p - Ant.x a) * (fst p - Ant.x a)
                    + (snd p - Ant.y a) * (snd p - Ant.y a)) = dist).
  { apply sqrt_lem_1; [apply sum_squares_nonneg | lra | exact Hsq]. }
  rewrite E. rewrite Rneq_b_true by lra. reflexivity.
Qed.

(** [move_toward] advances by [speed] along the unit vector: the distance to
    the point drops by exactly [speed], as long as [speed] does not
    overshoot. *)
Lemma move_toward_distance (a : Ant.t) (p : R * R) :
  0 < Ant.speed a <= distance a p ->
  distance (Ant.move_toward a p) p = distance a p - Ant.speed a.
Proof.
  intros [Hs Hd]. unfold distance in *.
  set (dx := fst p - Ant.x a). set (dy := snd p - Ant.y a).
  set (d := sqrt (sq_dist (Ant.pos a) p)) in *.
  assert (HD : sq_dist (Ant.pos a) p = dx * dx + dy * dy).
  { unfold sq_dist, dx, dy. cbn. ring. }
  assert (Hdd : d * d = dx * dx + dy * dy).
  { unfold d. rewrite sqrt_sqrt; [exact HD | apply sq_dist_nonneg]. }
  assert (Hd0 : 0 < d) by lra.
  rewrite (move_toward_value a p d Hd0 Hdd).
  fold dx dy.
  assert (E : sq_dist (Ant.pos (Ant.set_pos a
                 (Ant.x a + dx / d * Ant.speed a, Ant.y a + dy / d * Ant.speed a))) p
              = (d - Ant.speed a) * (d - Ant.speed a)).
  { unfold sq_dist. cbn.
    replace (Ant.x a + dx / d * Ant.speed a - fst p) with (dx * (Ant.speed a / d - 1))
      by (unfold dx; field; lra).
    replace (Ant.y a + dy / d * Ant.speed a - snd p) with (dy * (Ant.speed a / d - 1))
      by (unfold dy; field; lra).
    replace (dx * (Ant.speed a / d - 1) * (dx * (Ant.speed a / d - 1))
             + dy * (Ant.speed a / d - 1) * (dy * (Ant.speed a / d - 1)))
      with ((dx * dx + dy * dy) * ((Ant.speed a / d - 1) * (Ant.speed a / d - 1)))
      by ring.
    rewrite <- Hdd. field. lra. }
  rewrite E. apply sqrt_square. lra.
Qed.

(** The speed the colony gives its ants, for the nest sizes a run can
    reach. *)
Lemma get_ant_speed_bounds (c : Colony.t) :
  (20 <= Colony.nest_size c <= MAX_NEST_SIZE)%Z ->
  1 <= Colony.get_ant_speed c <= 28 / 10.
Proof.
  intros [H1 H2]. unfold Colony.get_ant_speed, BASE_ANT_SPEED, MAX_NEST_SIZE in *.
  assert (0 <= IZR (Colony.nest_size c - 20) <= 180).
  { split; [apply (IZR_le 0) | apply (IZR_le _ 180)]; lia. }
  lra.
Qed.

Lemma distance_ge_10 (a : Ant.t) (p : R * R) :
  sq_dist (Ant.pos a) p >= FOOD_COLLECTION_RANGE_SQUARED -> 10 <= distance a p.
Proof.
  unfold FOOD_COLLECTION_RANGE_SQUARED, distance. intros H.
  rewrite <- (sqrt_square 10) by lra. apply sqrt_le_1_alt. lra.
Qed.

(** One call of [move] on an ant that carries food and is not yet within
    the collection range of the nest. *)
Lemma move_carrying_closer (a : Ant.t) (c : Colony.t) (fm : Manager.t) (d : MoveDraws)
    (a' : Ant.t) (c' : Colony.t) (fm' : Manager.t) :
  (20 <= Colony.nest_size c <= MAX_NEST_SIZE)%Z ->
  Ant.has_food a = true ->
  sq_dist (Ant.pos a) ANTHILL_POINT >= FOOD_COLLECTION_RANGE_SQUARED ->
  Ant.move a c fm d = Some (a', c', fm') ->
  distance a' ANTHILL_POINT = distance a ANTHILL_POINT - Colony.get_ant_speed c /\
  distance a' ANTHILL_POINT < distance a ANTHILL_POINT.
Proof.
  intros Hn Hf Hfar H.
  pose proof (get_ant_speed_bounds c Hn) as Hs.
  pose proof (distance_ge_10 a ANTHILL_POINT Hfar) as Hd.
  apply move_phases in H as (a1 & c1 & Hstep & Hact).
  destruct (sense_frame a c fm d) as (P & S & F & _).
  cbv zeta in P, S, F.
  set (a0 := Ant.sense a c fm d) in *.
  assert (D0 : distance a0 ANTHILL_POINT = distance a ANTHILL_POINT).
  { unfold distance. rewrite P. reflexivity. }
  assert (D1 : distance a1 ANTHILL_POINT = distance a0 ANTHILL_POINT - Ant.speed a0).
  { unfold Ant.step in Hstep. rewrite F, Hf in Hstep.
    rewrite <- (move_toward_distance a0 ANTHILL_POINT) by (rewrite S, D0; lra).
    break_if; some_inv; reflexivity. }
  pose proof (act_frame a1 c1 d) as Ha. rewrite Hact in Ha. destruct Ha as (P' & _).
  assert (D2 : distance a' ANTHILL_POINT = distance a1 ANTHILL_POINT).
  { unfold distance. rewrite P'. reflexivity. }
  rewrite D2, D1, D0, S. split; lra.
Qed.

(** The ant at position [k] of the list is moved exactly once in a pass,
    with some intermediate colony of the same nest size, and stays at
    position [k]. *)
Lemma move_all_nth (l : list Ant.t) :
  forall i c fm draws l' c' fm' k a,
  move_all l i c fm draws = Some (l', c', fm') ->
  nth_error l k = Some a ->
  exists ck fmk a' ck' fmk',
    Colony.nest_size ck = Colony.nest_size c /\
    Ant.move a ck fmk (draws (i + k)%nat) = Some (a', ck', fmk') /\
    nth_error l' k = Some a'.
Proof.
  induction l as [| b rest IH]; intros i c fm draws l' c' fm' k a H Hk.
  - destruct k; discriminate.
  - cbn in H. unfold bind in H.
    destruct (Ant.move b c fm (draws i)) as [[[b1 c1] fm1] |] eqn:Hm; [| discriminate].
    destruct (move_all rest (S i) c1 fm1 draws) as [[[r2 c2] fm2] |] eqn:Hr; [| discriminate].
    some_inv. destruct k as [| k].
    + cbn in Hk. some_inv. exists c, fm, b1, c1, fm1.
      rewrite Nat.add_0_r. auto.
    + cbn in Hk. destruct (IH _ _ _ _ _ _ _ _ _ Hr Hk) as (ck & fmk & a' & ck' & fmk' & N & M & E).
      exists ck, fmk, a', ck', fmk'.
      apply move_colony in Hm as (N1 & _).
      replace (i + S k)%nat with (S i + k)%nat by lia.
      repeat split; [congruence | exact M | exact E].
Qed.

Lemma ants_after_update_nth (w : World) (f : Frame) (k : nat) (a : Ant.t) :
  nth_error (ants w) k = Some a -> nth_error (ants_after_update w f) k = Some a.
Proof.
  intros H. unfold ants_after_update. break_if; [| exact H].
  rewrite nth_error_app1; [exact H |]. apply nth_error_Some. congruence.
Qed.

(** C9. In every iteration, an ant that carries food and whose squared
    distance to the nest point is at least [FOOD_COLLECTION_RANGE_SQUARED]
    ends the iteration strictly closer to the nest point: its Euclidean
    distance drops by exactly the current ant speed, which lies between 1
    and 2.8 and so below the collection radius 10. The nest size is assumed
    within [20, MAX_NEST_SIZE], which [run_from_init_nest_size] shows for
    every state reached from the initial colony. Distances are real numbers. *)
Theorem C9_carrying_ant_approaches_nest (f : Frame) (w w' : World) (k : nat) (a : Ant.t) :
  (20 <= Colony.nest_size (colony w) <= MAX_NEST_SIZE)%Z ->
  tick f w = Some w' ->
  nth_error (ants w) k = Some a ->
  Ant.has_food a = true ->
  sq_dist (Ant.pos a) ANTHILL_POINT >= FOOD_COLLECTION_RANGE_SQUARED ->
  exists a',
    nth_error (ants w') k = Some a' /\
    distance a' ANTHILL_POINT < distance a ANTHILL_POINT /\
    distance a' ANTHILL_POINT =
      distance a ANTHILL_POINT - Colony.get_ant_speed (colony w') /\
    Colony.get_ant_speed (colony w') < 10.
Proof.
  intros Hn Ht Hk Hf Hfar.
  pose proof (tick_colony _ _ _ Ht) as (N & _). cbv zeta in N.
  apply tick_phases in Ht as (fm & _ & Hm).
  pose proof (update_nest_size_bounds (colony w) (ants w) (growth_draw f) (newborn_draw f))
    as ([L _] & B).
  apply (ants_after_update_nth w f) in Hk.
  destruct (move_all_nth _ _ _ _ _ _ _ _ _ _ Hm Hk)
    as (ck & fmk & a' & ck' & fmk' & Nk & M & E).
  assert (Hnk : (20 <= Colony.nest_size ck <= MAX_NEST_SIZE)%Z) by lia.
  destruct (move_carrying_closer _ _ _ _ _ _ _ Hnk Hf Hfar M) as (D & Dlt).
  assert (S : Colony.get_ant_speed (colony w') = Colony.get_ant_speed ck).
  { unfold Colony.get_ant_speed. rewrite N, Nk. reflexivity. }
  pose proof (get_ant_speed_bounds ck Hnk).
  exists a'. rewrite S. repeat split; [exact E | exact Dlt | exact D | lra].
Qed.

(** ** The contents of the food index *)

Lemma py_get_In {A} (l : list A) (i : Z) (v : A) : py_get l i = Some v -> In v l.
Proof.
  unfold py_get, bind. destruct (py_norm (length l) i) as [n |]; [| discriminate].
  apply nth_error_In.
Qed.

Lemma py_set_inv {A} (l : list A) (i : Z) (v : A) (l' : list A) :
  py_set l i v = Some l' -> exists n, l' = set_nth l n v.
Proof.
  unfold py_set, bind. destruct (py_norm (length l) i) as [n |]; [| discriminate].
  intros H. some_inv. exists n. reflexivity.
Qed.

Lemma In_set_nth {A} (l : list A) :
  forall n v x, In x (set_nth l n v) -> x = v \/ In x l.
Proof.
  induction l as [| h t IH]; intros n v x H; cbn in H.
  - destruct n; contradiction.
  - destruct n as [| n]; cbn in H.
    + destruct H as [<- | H]; [left; reflexivity | right; right; exact H].
    + destruct H as [<- | H]; [right; left; reflexivity |].
      apply IH in H as [-> | H]; [left; reflexivity | right; right; exact H].
Qed.

Lemma In_items (m : Manager.t) (row : list (list Food.t)) (tile : list Food.t) (g : Food.t) :
  In row m -> In tile row -> In g tile -> In g (Manager.items m).
Proof.
  intros Hr Ht Hg. unfold Manager.items.
  apply in_concat. exists tile. split; [| exact Hg].
  apply in_concat. exists row. split; assumption.
Qed.

(** Replacing one bucket by [v] adds at most the elements of [v]. *)
Lemma items_set_bucket (m : Manager.t) (row : list (list Food.t))
    (n k : nat) (v : list Food.t) (g : Food.t) :
  In row m ->
  In g (Manager.items (set_nth m n (set_nth row k v))) ->
  In g v \/ In g (Manager.items m).
Proof.
  intros Hrow H. unfold Manager.items in H.
  apply in_concat in H as (tile & Ht & Hg).
  apply in_concat in Ht as (row' & Hr' & Ht).
  apply In_set_nth in Hr' as [-> | Hr'].
  - apply In_set_nth in Ht as [-> | Ht]; [left; exact Hg | right].
    exact (In_items m row tile g Hrow Ht Hg).
  - right. exact (In_items m row' tile g Hr' Ht Hg).
Qed.

Lemma add_items (m m' : Manager.t) (f g : Food.t) :
  Manager.add m f = Some m' ->
  In g (Manager.items m') -> g = f \/ In g (Manager.items m).
Proof.
  unfold Manager.add, bind. intros H Hg.
  destruct (py_get m (Food.x f / 10)) as [row |] eqn:Er; [| discriminate].
  destruct (py_get row (Food.y f / 10)) as [tile |] eqn:Et; [| discriminate].
  destruct (py_set row (Food.y f / 10) (tile ++ [f])) as [row' |] eqn:Es; [| discriminate].
  apply py_set_inv in Es as (k & ->). apply py_set_inv in H as (n & ->).
  apply py_get_In in Er. apply py_get_In in Et.
  apply (items_set_bucket m row n k _ g Er) in Hg as [Hg | Hg]; [| right; exact Hg].
  apply in_app_or in Hg as [Hg | [<- | []]]; [right | left; reflexivity].
  exact (In_items m row tile g Er Et Hg).
Qed.

Lemma list_remove_In (tile : list Food.t) (f g : Food.t) :
  In g (Manager.list_remove tile f) -> In g tile.
Proof.
  induction tile as [| h t IH]; cbn; [auto |].
  destruct (Food.same f h); [right; assumption |].
  intros [<- | H]; [left; reflexivity | right; auto].
Qed.

Lemma contains_indexed (tile : list Food.t) (f : Food.t) :
  Manager.contains tile f = true -> exists g, In g tile /\ Food.fid g = Food.fid f.
Proof.
  unfold Manager.contains. intros H. apply existsb_exists in H as (g & Hg & E).
  unfold Food.same in E. apply Nat.eqb_eq in E. exists g. auto.
Qed.

Lemma remove_items (m m' : Manager.t) (f g : Food.t) :
  Manager.remove m f = Some m' ->
  In g (Manager.items m') -> In g (Manager.items m).
Proof.
  unfold Manager.remove, bind. intros H Hg.
  destruct (py_get m (Food.x f / 10)) as [row |] eqn:Er; [| discriminate].
  destruct (py_get row (Food.y f / 10)) as [tile |] eqn:Et; [| discriminate].
  destruct (Manager.contains tile f); [| some_inv; exact Hg].
  destruct (py_set row (Food.y f / 10) _) as [row' |] eqn:Es; [| discriminate].
  apply py_set_inv in Es as (k & ->). apply py_set_inv in H as (n & ->).
  apply py_get_In in Er. apply py_get_In in Et.
  apply (items_set_bucket m row n k _ g Er) in Hg as [Hg | Hg]; [| exact Hg].
  apply list_remove_In in Hg. exact (In_items m row tile g Er Et Hg).
Qed.

(** [Manager.remove] of an object that is not in the index changes
    nothing (the guard of line 98). *)
Lemma remove_absent (m m' : Manager.t) (f : Food.t) :
  ~ indexed m f -> Manager.remove m f = Some m' -> m' = m.
Proof.
  unfold Manager.remove, bind. intros Hn H.
  destruct (py_get m (Food.x f / 10)) as [row |] eqn:Er; [| discriminate].
  destruct (py_get row (Food.y f / 10)) as [tile |] eqn:Et; [| discriminate].
  destruct (Manager.contains tile f) eqn:Ec; [| some_inv; reflexivity].
  exfalso. apply Hn. apply contains_indexed in Ec as (g & Hg & E).
  exists g. split; [| exact E].
  apply py_get_In in Er. apply py_get_In in Et.
  exact (In_items m row tile g Er Et Hg).
Qed.

Lemma spawn_food_items (amount : nat) :
  forall fm x y next qty fm' next' g,
  spawn_food fm x y amount next qty = Some (fm', next') ->
  (next <= next')%nat /\
  (In g (Manager.items fm') ->
   In g (Manager.items fm) \/ (next <= Food.fid g < next')%nat).
Proof.
  induction amount as [| k IH]; intros fm x y next qty fm' next' g H; cbn in H.
  - some_inv. split; [lia | auto].
  - unfold bind in H.
    destruct (Manager.add fm _) as [fm1 |] eqn:Ea; [| discriminate].
    destruct (IH _ _ _ _ _ _ _ g H) as (L & I). split; [lia |].
    intros Hg. apply I in Hg as [Hg | Hg]; [| right; lia].
    apply (add_items _ _ _ _ Ea) in Hg as [-> | Hg]; [right; cbn; lia | left; exact Hg].
Qed.

Lemma handle_clicks_items (cs : list (Z * Z)) :
  forall fm next qty fm' next' g,
  handle_clicks cs fm next qty = Some (fm', next') ->
  (next <= next')%nat /\
  (In g (Manager.items fm') ->
   In g (Manager.items fm) \/ (next <= Food.fid g < next')%nat).
Proof.
  induction cs as [| [cx cy] rest IH]; intros fm next qty fm' next' g H;
    cbn [handle_clicks] in H.
  - some_inv. split; [lia | auto].
  - unfold bind in H.
    destruct (spawn_food fm cx cy _ next qty) as [[fm1 next1] |] eqn:Es; [| discriminate].
    destruct (spawn_food_items _ _ _ _ _ _ _ _ g Es) as (L1 & I1).
    destruct (IH _ _ _ _ _ g H) as (L & I). split; [lia |].
    intros Hg. apply I in Hg as [Hg | Hg]; [| right; lia].
    apply I1 in Hg as [Hg | Hg]; [left; exact Hg | right; lia].
Qed.

(** The ant methods only ever take food out of the index. *)
Lemma move_items (a : Ant.t) (c : Colony.t) (fm : Manager.t) (d : MoveDraws)
    (a' : Ant.t) (c' : Colony.t) (fm' : Manager.t) (g : Food.t) :
  Ant.move a c fm d = Some (a', c', fm') ->
  In g (Manager.items fm') -> In g (Manager.items fm).
Proof.
  intros H. apply move_phases in H as (a1 & c1 & Hs & _).
  unfold Ant.step in Hs. repeat break_if; some_inv; auto.
  unfold bind in Hs. destruct (Manager.remove fm t) as [fm1 |] eqn:Er; [| discriminate].
  some_inv. exact (remove_items _ _ _ _ Er).
Qed.

Lemma move_all_items (l : list Ant.t) :
  forall i c fm draws l' c' fm' g,
  move_all l i c fm draws = Some (l', c', fm') ->
  In g (Manager.items fm') -> In g (Manager.items fm).
Proof.
  induction l as [| a rest IH]; intros i c fm draws l' c' fm' g H; cbn in H.
  - some_inv. auto.
  - unfold bind in H.
    destruct (Ant.move a c fm (draws i)) as [[[a1 c1] fm1] |] eqn:Hm; [| discriminate].
    destruct (move_all rest (S i) c1 fm1 draws) as [[[r2 c2] fm2] |] eqn:Hr; [| discriminate].
    some_inv. intros Hg.
    apply (move_items _ _ _ _ _ _ _ _ Hm). exact (IH _ _ _ _ _ _ _ _ Hr Hg).
Qed.

Lemma tick_items (f : Frame) (w w' : World) (g : Food.t) :
  tick f w = Some w' ->
  (next_fid w <= next_fid w')%nat /\
  (In g (Manager.items (food_manager w')) ->
   In g (Manager.items (food_manager w)) \/ (next_fid w <= Food.fid g < next_fid w')%nat).
Proof.
  intros H. apply tick_phases in H as (fm & Hc & Hm).
  destruct (handle_clicks_items _ _ _ _ _ _ g Hc) as (L & I).
  split; [exact L |]. intros Hg. apply I. exact (move_all_items _ _ _ _ _ _ _ _ _ Hm Hg).
Qed.

Lemma run_not_reindexed (fs : list Frame) :
  forall w w' f,
  ids_below w -> (Food.fid f < next_fid w)%nat ->
  ~ indexed (food_manager w) f ->
  run fs w = Some w' ->
  ids_below w' /\ (next_fid w <= next_fid w')%nat /\ ~ indexed (food_manager w') f.
Proof.
  induction fs as [| fr rest IH]; intros w w' f Hb Hf Hn H; cbn in H.
  - some_inv. repeat split; auto.
  - unfold bind in H. destruct (tick fr w) as [w1 |] eqn:Ht; [| discriminate].
    assert (Hb1 : ids_below w1).
    { intros g Hg. destruct (tick_items _ _ _ g Ht) as (L & I).
      apply I in Hg as [Hg | Hg]; [apply Hb in Hg; lia | lia]. }
    assert (L1 : (next_fid w <= next_fid w1)%nat) by (apply (tick_items _ _ _ f Ht)).
    assert (Hn1 : ~ indexed (food_manager w1) f).
    { intros (g & Hg & E). destruct (tick_items _ _ _ g Ht) as (_ & I).
      apply I in Hg as [Hg | Hg]; [apply Hn; exists g; auto | lia]. }
    destruct (IH w1 w' f Hb1 ltac:(lia) Hn1 H) as (B & L & N).
    repeat split; [exact B | lia | exact N].
Qed.

(** ** C1: what a harvest of an object that left the index does *)

(** The movement branch of an ant whose target is no longer in the index:
    the index is left alone, and the ant picks the food up all the same
    once it is within the collection range. *)
Lemma step_stale_target (a : Ant.t) (c : Colony.t) (fm : Manager.t) (d : MoveDraws)
    (tg : Food.t) (a' : Ant.t) (c' : Colony.t) (fm' : Manager.t) :
  Ant.has_food a = false ->
  Ant.target a = Some tg ->
  ~ indexed fm tg ->
  Ant.step a c fm d = Some (a', c', fm') ->
  fm' = fm /\ c' = c /\
  (sq_dist (Ant.pos (Ant.move_toward a (Food.pos tg))) (Food.pos tg)
     < FOOD_COLLECTION_RANGE_SQUARED ->
   Ant.has_food a' = true /\ Ant.target a' = None) /\
  (~ sq_dist (Ant.pos (Ant.move_toward a (Food.pos tg))) (Food.pos tg)
     < FOOD_COLLECTION_RANGE_SQUARED ->
   Ant.has_food a' = false /\ Ant.target a' = Some tg).
Proof.
  intros Hf Ht Hn H. unfold Ant.step in H. rewrite Hf, Ht in H.
  destruct (move_toward_frame a (Food.pos tg)) as (_ & _ & F & T & _).
  cbv zeta in F, T.
  destruct (Rlt_dec (sq_dist (Ant.pos (Ant.move_toward a (Food.pos tg))) (Food.pos tg))
              FOOD_COLLECTION_RANGE_SQUARED) as [Hin | Hout].
  - rewrite (Rlt_b_true _ _ Hin) in H. unfold bind in H.
    destruct (Manager.remove fm tg) as [fm1 |] eqn:Er; [| discriminate].
    apply (remove_absent _ _ _ Hn) in Er. some_inv. cbn.
    repeat split; try reflexivity; intros; contradiction.
  - rewrite (Rlt_b_false _ _ Hout) in H. some_inv.
    repeat split; try reflexivity; try congruence; intros; contradiction.
Qed.

(** The detection step keeps the stored target of an ant that is not
    searched for, and of a searching ant with no food object in range. *)
Lemma sense_keeps_target (a : Ant.t) (c : Colony.t) (fm : Manager.t) (d : MoveDraws) :
  Ant.role (Ant.update_role a c d) = builder \/
  (forall g, In g (Manager.items fm) -> ~ in_range a g) ->
  Ant.target (Ant.sense a c fm d) = Ant.target a.
Proof.
  intros H.
  destruct (update_role_frame (Ant.set_speed a (Colony.get_ant_speed c)) c d)
    as (_ & _ & _ & T & _). cbv zeta in T. cbn in T.
  destruct (Ant.role (Ant.update_role a c d)) eqn:Hr.
  - rewrite sense_skips by auto. exact T.
  - destruct H as [H | H]; [discriminate |].
    destruct (Ant.has_food a) eqn:Hf.
    + rewrite sense_skips by auto. exact T.
    + rewrite (sense_target_scan a c fm d Hr Hf).
      rewrite (scan_tile_none a _ H). reflexivity.
Qed.

(** C1 (as the program has it). A food object that is no longer in the index
    is never in the index again: [Manager.remove] takes it out once and
    nothing puts it back (new objects have new identities). For an ant that
    carries no food and whose stored target is no longer in the index, a
    call of [move] does one of two things.

    When the detection step does not give it another target (after the
    role refresh the ant is a builder, or no object of the index is
    strictly within the detection range), the call leaves the index
    unchanged, but it is not a no-op for the ant: if, after the step
    towards the target, the ant is within [FOOD_COLLECTION_RANGE_SQUARED]
    of the target's position, it sets its carrying flag and clears the
    target, exactly as for an indexed target; otherwise it keeps the
    target.

    When the ant is a scavenger after the role refresh and some object of
    the index is strictly within the detection range, the detection step
    replaces the stored target by the first such object, which is another
    object; the call pursues that one, and harvests it and takes it out of
    the index when it comes within the collection range. *)
Theorem C1_removed_food_stays_out_but_is_picked_up :
  (forall (fs : list Frame) (w w' : World) (f : Food.t),
     ids_below w -> (Food.fid f < next_fid w)%nat ->
     ~ indexed (food_manager w) f ->
     run fs w = Some w' ->
     ~ indexed (food_manager w') f) /\
  (forall (a : Ant.t) (c : Colony.t) (fm : Manager.t) (d : MoveDraws) (tg : Food.t)
          (a' : Ant.t) (c' : Colony.t) (fm' : Manager.t),
     Ant.has_food a = false ->
     Ant.target a = Some tg ->
     ~ indexed fm tg ->
     Ant.role (Ant.update_role a c d) = builder \/
     (forall g, In g (Manager.items fm) -> ~ in_range a g) ->
     Ant.move a c fm d = Some (a', c', fm') ->
     fm' = fm /\
     (sq_dist (Ant.pos (Ant.move_toward (Ant.sense a c fm d) (Food.pos tg))) (Food.pos tg)
        < FOOD_COLLECTION_RANGE_SQUARED ->
      Ant.has_food a' = true /\ Ant.target a' = None) /\
     (~ sq_dist (Ant.pos (Ant.move_toward (Ant.sense a c fm d) (Food.pos tg))) (Food.pos tg)
        < FOOD_COLLECTION_RANGE_SQUARED ->
      Ant.has_food a' = false /\ Ant.target a' = Some tg)) /\
  (forall (a : Ant.t) (c : Colony.t) (fm : Manager.t) (d : MoveDraws) (tg : Food.t)
          (before : list Food.t) (food : Food.t) (after : list Food.t)
          (a' : Ant.t) (c' : Colony.t) (fm' : Manager.t),
     Ant.has_food a = false ->
     Ant.target a = Some tg ->
     ~ indexed fm tg ->
     Ant.role (Ant.update_role a c d) = scavenger ->
     Manager.items fm = before ++ food :: after ->
     in_range a food ->
     (forall g, In g before -> ~ in_range a g) ->
     Ant.move a c fm d = Some (a', c', fm') ->
     Food.fid food <> Food.fid tg /\
     Ant.target (Ant.sense a c fm d) = Some food /\
     (sq_dist (Ant.pos (Ant.move_toward (Ant.sense a c fm d) (Food.pos food)))
        (Food.pos food) < FOOD_COLLECTION_RANGE_SQUARED ->
      Ant.has_food a' = true /\ Ant.target a' = None /\
      Manager.remove fm food = Some fm') /\
     (~ sq_dist (Ant.pos (Ant.move_toward (Ant.sense a c fm d) (Food.pos food)))
          (Food.pos food) < FOOD_COLLECTION_RANGE_SQUARED ->
      Ant.has_food a' = false /\ Ant.target a' = Some food /\ fm' = fm)).
Proof.
  split; [| split].
  - intros fs w w' f Hb Hf Hn H.
    apply (run_not_reindexed fs w w' f Hb Hf Hn H).
  - intros a c fm d tg a' c' fm' Hf Ht Hn Hkeep H.
    assert (Hs : Ant.target (Ant.sense a c fm d) = Some tg).
    { rewrite (sense_keeps_target a c fm d Hkeep). exact Ht. }
    destruct (sense_frame a c fm d) as (_ & _ & F0 & _). cbv zeta in F0.
    rewrite Hf in F0.
    apply move_phases in H as (a1 & c1 & Hstep & Ha).
    destruct (step_stale_target _ _ _ _ _ _ _ _ F0 Hs Hn Hstep) as (-> & -> & Hin & Hout).
    pose proof (act_frame a1 c d) as Hact. rewrite Ha in Hact.
    destruct Hact as (_ & _ & F & T & _). rewrite F, T.
    repeat split; tauto.
  - intros a c fm d tg before food after a' c' fm' Hf Ht Hn Hr E Hin Hout H.
    assert (Hs : Ant.target (Ant.sense a c fm d) = Some food).
    { rewrite (sense_target_scan a c fm d Hr Hf), E.
      rewrite (scan_tile_first a before after food Hin Hout). reflexivity. }
    split; [| split; [exact Hs |]].
    + intros Eid. apply Hn. exists food. split; [| exact Eid].
      rewrite E. apply in_elt.
    + exact (move_pursuit a c fm d food a' c' fm' Hf Hs H).
Qed.

(** ** C2: building comes after the movement of the same call *)

(** C2 (as the program has it). Building does not replace the movement
    branch: every call of [move] first runs the movement branch (return to
    the nest, pursuit of the target, or a random-walk step), and the position
    after [move] is the position after that branch. An ant that is then a
    builder without food, and whose draw is below 0.3, is put in building
    mode and adds [BUILD_EFFICIENCY] to the building progress if and only if
    the squared distance of that position to the nest point is below
    [BUILD_RANGE] squared. *)
Theorem C2_building_follows_movement (a : Ant.t) (c : Colony.t) (fm : Manager.t)
    (d : MoveDraws) (a' : Ant.t) (c' : Colony.t) (fm' : Manager.t) :
  Ant.move a c fm d = Some (a', c', fm') ->
  exists a1 c1,
    Ant.step (Ant.sense a c fm d) c fm d = Some (a1, c1, fm') /\
    Ant.pos a' = Ant.pos a1 /\
    (Ant.role a1 = builder -> Ant.has_food a1 = false -> build_draw d < 3 / 10 ->
     Ant.building a' = true /\
     (sq_dist (Ant.pos a1) ANTHILL_POINT < BUILD_RANGE * BUILD_RANGE ->
      Colony.building_progress c' = Colony.building_progress c + BUILD_EFFICIENCY) /\
     (~ sq_dist (Ant.pos a1) ANTHILL_POINT < BUILD_RANGE * BUILD_RANGE ->
      Colony.building_progress c' = Colony.building_progress c)).
Proof.
  intros H. apply move_phases in H as (a1 & c1 & Hs & Ha).
  exists a1, c1. split; [exact Hs |].
  pose proof (act_frame a1 c1 d) as Hact. rewrite Ha in Hact.
  destruct Hact as (P & _). split; [exact P |].
  intros Hr Hf Hd.
  apply step_frame in Hs as (_ & _ & _ & B & _).
  unfold Ant.act, Ant.is_builder in Ha. rewrite Hr, Hf in Ha. cbn in Ha.
  rewrite (Rlt_b_true _ _ Hd) in Ha. some_inv. cbn.
  split; [reflexivity |]. unfold Ant.build.
  change (Ant.pos (Ant.set_building a1 true)) with (Ant.pos a1).
  split; intros Hrange.
  - rewrite (Rlt_b_true _ _ Hrange). cbn. rewrite B. reflexivity.
  - rewrite (Rlt_b_false _ _ Hrange). exact B.
Qed.

(** ** C3: role forcing below the critical food level *)

Lemma carrying_cons (a : Ant.t) (l : list Ant.t) :
  INR (carrying (a :: l)) = (if Ant.has_food a then 1 else 0) + INR (carrying l).
Proof.
  unfold carrying. cbn [filter]. destruct (Ant.has_food a).
  - cbn [length]. rewrite S_INR. lra.
  - lra.
Qed.

Lemma carrying_nonneg (l : list Ant.t) : 0 <= INR (carrying l).
Proof. apply pos_INR. Qed.

(** As long as even the deposits of all ants still to come cannot lift
    the storage to the critical level, every ant of the pass is made a
    scavenger. *)
Lemma move_all_critical (l : list Ant.t) :
  forall i c fm draws l' c' fm',
  Colony.food_storage c + 20 * INR (carrying l) < CRITICAL_FOOD_LEVEL ->
  move_all l i c fm draws = Some (l', c', fm') ->
  Forall (fun a => Ant.role a = scavenger) l'.
Proof.
  induction l as [| a rest IH]; intros i c fm draws l' c' fm' Hc H; cbn in H.
  - some_inv. constructor.
  - unfold bind in H.
    destruct (Ant.move a c fm (draws i)) as [[[a1 c1] fm1] |] eqn:Hm; [| discriminate].
    destruct (move_all rest (S i) c1 fm1 draws) as [[[r2 c2] fm2] |] eqn:Hr; [| discriminate].
    some_inv. rewrite carrying_cons in Hc.
    pose proof (carrying_nonneg rest) as Hpos.
    constructor.
    + rewrite (move_role _ _ _ _ _ _ _ Hm). apply update_role_critical.
      destruct (Ant.has_food a); lra.
    + refine (IH _ _ _ _ _ _ _ _ Hr).
      apply move_colony in Hm as (_ & _ & [F | [Hf F]]); rewrite F.
      * destruct (Ant.has_food a); lra.
      * rewrite Hf in Hc. lra.
Qed.

Lemma carrying_after_update (w : World) (f : Frame) :
  carrying (ants_after_update w f) = carrying (ants w).
Proof.
  unfold ants_after_update.
  destruct (snd (Colony_update _ _ _ _)) as [a |] eqn:E; [| reflexivity].
  assert (Hf : Ant.has_food a = false).
  { unfold Colony_update in E.
    match type of E with context [if ?b then _ else _] => destruct b end;
      cbn [snd] in E; some_inv; reflexivity. }
  unfold carrying. rewrite filter_app, length_app. cbn [filter]. rewrite Hf. cbn. lia.
Qed.

(** C3 (as the program has it). If the food storage is non-negative and so
    far below [CRITICAL_FOOD_LEVEL] that 20 per ant carrying food still does
    not reach it (in particular: below the level with no ant carrying
    food), then after one iteration every ant is a scavenger. Without the
    margin an ant that deposits early in the pass can lift the storage to
    the level before a later ant refreshes its role. *)
Theorem C3_role_forcing_with_margin (f : Frame) (w w' : World) :
  0 <= Colony.food_storage (colony w) ->
  Colony.food_storage (colony w) + 20 * INR (carrying (ants w)) < CRITICAL_FOOD_LEVEL ->
  tick f w = Some w' ->
  Forall (fun a => Ant.role a = scavenger) (ants w').
Proof.
  intros H0 Hc H. apply tick_phases in H as (fm & _ & Hm).
  refine (move_all_critical _ _ _ _ _ _ _ _ _ Hm).
  rewrite carrying_after_update, update_food_storage.
  assert (0 <= IZR (Z.of_nat (length (ants w))) * FOOD_CONSUMPTION_RATE).
  { unfold FOOD_CONSUMPTION_RATE.
    assert (0 <= IZR (Z.of_nat (length (ants w)))) by (apply (IZR_le 0); lia).
    lra. }
  unfold Rmax. destruct (Rle_dec _ _); pose proof (carrying_nonneg (ants w)); lra.
Qed.

(** * No iteration fails

    [tick] returns [None] only for an [IndexError] of the grid. Clicks lie in
    the window, so it never does: from a state satisfying [world_ok] every
    iteration returns a state, which satisfies [world_ok] again. *)

Lemma items_init : Manager.items Manager.init = [].
Proof. vm_compute. reflexivity. Qed.

Lemma py_norm_nat (len : nat) (i : Z) :
  (0 <= i < Z.of_nat len)%Z -> py_norm len i = Some (Z.to_nat i).
Proof.
  intros [H1 H2]. unfold py_norm.
  apply Z.leb_le in H1. apply Z.ltb_lt in H2. rewrite H1, H2. reflexivity.
Qed.

Lemma py_get_nat {A} (l : list A) (i : Z) :
  (0 <= i < Z.of_nat (length l))%Z ->
  exists v, py_get l i = Some v /\ nth_error l (Z.to_nat i) = Some v.
Proof.
  intros H. unfold py_get. rewrite (py_norm_nat _ _ H). cbn [bind].
  destruct (nth_error l (Z.to_nat i)) as [v |] eqn:E; [exists v; auto |].
  apply nth_error_None in E. lia.
Qed.

Lemma py_set_nat {A} (l : list A) (i : Z) (v : A) :
  (0 <= i < Z.of_nat (length l))%Z ->
  py_set l i v = Some (set_nth l (Z.to_nat i) v).
Proof. intros H. unfold py_set. rewrite (py_norm_nat _ _ H). reflexivity. Qed.

Lemma length_set_nth {A} (l : list A) :
  forall n v, length (set_nth l n v) = length l.
Proof.
  induction l as [| h t IH]; intros n v; [destruct n; reflexivity |].
  destruct n; cbn; [reflexivity | rewrite IH; reflexivity].
Qed.

Lemma Forall_set_nth {A} (P : A -> Prop) (l : list A) :
  forall n v, Forall P l -> P v -> Forall P (set_nth l n v).
Proof.
  induction l as [| h t IH]; intros n v Hl Hv; [destruct n; constructor |].
  inversion Hl; subst. destruct n; cbn; constructor; auto.
Qed.

Lemma window_cell (px py : Z) :
  in_window px py ->
  (0 <= px / 10 < Z.of_nat (Z.to_nat (WIDTH / 10)))%Z /\
  (0 <= py / 10 < Z.of_nat (Z.to_nat (HEIGHT / 10)))%Z.
Proof.
  unfold in_window, WIDTH, HEIGHT. intros [[H1 H2] [H3 H4]].
  change (Z.of_nat (Z.to_nat (960 / 10))) with 96%Z.
  change (Z.of_nat (Z.to_nat (1080 / 10))) with 108%Z.
  repeat split.
  - apply Z.div_pos; lia.
  - apply Z.div_lt_upper_bound; lia.
  - apply Z.div_pos; lia.
  - apply Z.div_lt_upper_bound; lia.
Qed.

(** Replacing the bucket of a point of the window by [bucket v], whatever
    [bucket] makes of the old content, succeeds and keeps the shape. *)
Lemma bucket_update_total (m : Manager.t) (px py : Z)
    (bucket : list Food.t -> list Food.t) :
  grid_shape m -> in_window px py ->
  exists m',
    (row <- py_get m (px / 10) ;;
     tile <- py_get row (py / 10) ;;
     row' <- py_set row (py / 10) (bucket tile) ;;
     py_set m (px / 10) row') = Some m' /\
    grid_shape m'.
Proof.
  intros [Hl Hrows] Hw. destruct (window_cell _ _ Hw) as [Hx Hy].
  rewrite <- Hl in Hx.
  destruct (py_get_nat m _ Hx) as (row & Er & En).
  assert (Hrow : length row = Z.to_nat (HEIGHT / 10)).
  { apply nth_error_In in En. rewrite Forall_forall in Hrows. auto. }
  rewrite <- Hrow in Hy.
  destruct (py_get_nat row _ Hy) as (tile & Et & _).
  rewrite Er. cbn [bind]. rewrite Et. cbn [bind].
  rewrite (py_set_nat row _ _ Hy). cbn [bind].
  rewrite (py_set_nat m _ _ Hx).
  eexists. split; [reflexivity |]. split.
  - rewrite length_set_nth. exact Hl.
  - apply Forall_set_nth; [exact Hrows |]. rewrite length_set_nth. exact Hrow.
Qed.

Lemma add_total (m : Manager.t) (f : Food.t) :
  grid_shape m -> in_window (Food.x f) (Food.y f) ->
  exists m', Manager.add m f = Some m' /\ grid_shape m'.
Proof.
  intros Hg Hw. unfold Manager.add.
  exact (bucket_update_total m _ _ (fun tile => tile ++ [f]) Hg Hw).
Qed.

Lemma remove_total (m : Manager.t) (f : Food.t) :
  grid_shape m -> in_window (Food.x f) (Food.y f) ->
  exists m', Manager.remove m f = Some m' /\ grid_shape m'.
Proof.
  intros Hg Hw.
  destruct (bucket_update_total m _ _ (fun tile => Manager.list_remove tile f) Hg Hw)
    as (m' & E & Hg').
  unfold Manager.remove. unfold bind in *.
  destruct (py_get m (Food.x f / 10)) as [row |]; [| discriminate].
  destruct (py_get row (Food.y f / 10)) as [tile |]; [| discriminate].
  destruct (Manager.contains tile f); [exists m'; auto | exists m; auto].
Qed.

Lemma spawn_food_total (amount : nat) :
  forall fm px py next qty,
  grid_shape fm -> in_window px py ->
  items_in_window fm ->
  exists fm' next',
    spawn_food fm px py amount next qty = Some (fm', next') /\
    grid_shape fm' /\
    items_in_window fm'.
Proof.
  induction amount as [| k IH]; intros fm px py next qty Hg Hw Hi; cbn [spawn_food].
  - exists fm, next. auto.
  - destruct (add_total fm (Food.mk next px py (qty next)) Hg Hw) as (fm1 & Ea & Hg1).
    rewrite Ea. cbn [bind]. apply IH; [exact Hg1 | exact Hw |].
    intros g Hin. apply (add_items _ _ _ _ Ea) in Hin as [-> | Hin]; [exact Hw | auto].
Qed.

Lemma handle_clicks_total (cs : list (Z * Z)) :
  forall fm next qty,
  Forall (fun c => in_window (fst c) (snd c)) cs ->
  grid_shape fm ->
  items_in_window fm ->
  exists fm' next',
    handle_clicks cs fm next qty = Some (fm', next') /\
    grid_shape fm' /\
    items_in_window fm'.
Proof.
  induction cs as [| [cx cy] rest IH]; intros fm next qty Hc Hg Hi; cbn [handle_clicks].
  - exists fm, next. auto.
  - inversion Hc as [| ? ? Hw Hrest]; subst. cbn [fst snd] in Hw.
    destruct (spawn_food_total FOOD_SPAWN_AMOUNT_PER_CLICK fm cx cy next qty Hg Hw Hi)
      as (fm1 & next1 & Es & Hg1 & Hi1).
    rewrite Es. cbn [bind]. apply IH; assumption.
Qed.

Lemma scan_tile_In (a : Ant.t) (l : list Food.t) (f : Food.t) :
  Ant.scan_tile a l = Some f -> In f l.
Proof.
  induction l as [| g rest IH]; cbn; [discriminate |].
  destruct (Rlt_b _ _); intros H; [some_inv; left; reflexivity | right; auto].
Qed.

(** The target after [sense] is the old one or a food object of the
    index. *)
Lemma sense_target (a : Ant.t) (c : Colony.t) (fm : Manager.t) (d : MoveDraws) :
  Ant.target (Ant.sense a c fm d) = Ant.target a \/
  exists f, Ant.target (Ant.sense a c fm d) = Some f /\ In f (Manager.items fm).
Proof.
  unfold Ant.sense.
  destruct (update_role_frame (Ant.set_speed a (Colony.get_ant_speed c)) c d)
    as (_ & _ & _ & T & _). cbv zeta in T. cbn in T.
  break_if; [| left; exact T].
  unfold Ant.find_food. rewrite scan_grid_items.
  destruct (Ant.scan_tile _ _) as [f |] eqn:E; [right | left; exact T].
  exists f. split; [reflexivity | exact (scan_tile_In _ _ _ E)].
Qed.

Lemma sense_target_in_window (a : Ant.t) (c : Colony.t) (fm : Manager.t) (d : MoveDraws) :
  items_in_window fm -> target_in_window a ->
  target_in_window (Ant.sense a c fm d).
Proof.
  intros Hi Ht tg E.
  destruct (sense_target a c fm d) as [T | (f & T & Hf)]; rewrite T in E.
  - exact (Ht tg E).
  - some_inv. exact (Hi tg Hf).
Qed.

Lemma step_total (a : Ant.t) (c : Colony.t) (fm : Manager.t) (d : MoveDraws) :
  grid_shape fm -> target_in_window a ->
  exists a' c' fm',
    Ant.step a c fm d = Some (a', c', fm') /\ grid_shape fm' /\ target_in_window a'.
Proof.
  intros Hg Ht. unfold Ant.step.
  destruct (Ant.has_food a) eqn:F.
  - destruct (move_toward_frame a ANTHILL_POINT) as (_ & _ & _ & T & _). cbv zeta in T.
    break_if; eexists _, _, _; (split; [reflexivity |]); (split; [exact Hg |]);
      intros tg E; cbn in E; rewrite T in E; exact (Ht tg E).
  - destruct (Ant.target a) as [tg |] eqn:Etg.
    + destruct (move_toward_frame a (Food.pos tg)) as (_ & _ & _ & T & _). cbv zeta in T.
      break_if.
      * destruct (remove_total fm tg Hg (Ht tg Etg)) as (fm' & Er & Hg').
        rewrite Er. cbn [bind]. eexists _, _, _.
        split; [reflexivity |]. split; [exact Hg' |]. intros tg' E. discriminate E.
      * eexists _, _, _. split; [reflexivity |]. split; [exact Hg |].
        intros tg' E. rewrite T in E. exact (Ht tg' E).
    + eexists _, _, _. split; [reflexivity |]. split; [exact Hg |].
      intros tg' E. cbn in E. congruence.
Qed.

Lemma move_total (a : Ant.t) (c : Colony.t) (fm : Manager.t) (d : MoveDraws) :
  grid_shape fm -> items_in_window fm -> target_in_window a ->
  exists a' c' fm',
    Ant.move a c fm d = Some (a', c', fm') /\
    grid_shape fm' /\ items_in_window fm' /\ target_in_window a'.
Proof.
  intros Hg Hi Ht.
  pose proof (sense_target_in_window a c fm d Hi Ht) as Ht0.
  destruct (step_total (Ant.sense a c fm d) c fm d Hg Ht0) as (a1 & c1 & fm1 & Es & Hg1 & Ht1).
  assert (Em : Ant.move a c fm d
               = Some (fst (Ant.act a1 c1 d), snd (Ant.act a1 c1 d), fm1)).
  { unfold Ant.move. rewrite Es. cbn [bind]. destruct (Ant.act a1 c1 d). reflexivity. }
  exists (fst (Ant.act a1 c1 d)), (snd (Ant.act a1 c1 d)), fm1.
  split; [exact Em |]. split; [exact Hg1 |]. split.
  - intros g Hin. apply Hi. exact (move_items _ _ _ _ _ _ _ _ Em Hin).
  - pose proof (act_frame a1 c1 d) as Ha. destruct (Ant.act a1 c1 d) as [a2 c2].
    destruct Ha as (_ & _ & _ & T & _). intros tg E. cbn [fst] in E.
    rewrite T in E. exact (Ht1 tg E).
Qed.

Lemma move_all_total (l : list Ant.t) :
  forall i c fm draws,
  grid_shape fm -> items_in_window fm -> Forall target_in_window l ->
  exists l' c' fm',
    move_all l i c fm draws = Some (l', c', fm') /\
    grid_shape fm' /\ items_in_window fm' /\ Forall target_in_window l'.
Proof.
  induction l as [| a rest IH]; intros i c fm draws Hg Hi Hl; cbn [move_all].
  - exists [], c, fm. auto.
  - inversion Hl as [| ? ? Ha Hrest]; subst.
    destruct (move_total a c fm (draws i) Hg Hi Ha) as (a1 & c1 & fm1 & Em & Hg1 & Hi1 & Ha1).
    destruct (IH (S i) c1 fm1 draws Hg1 Hi1 Hrest) as (r2 & c2 & fm2 & Er & Hg2 & Hi2 & Hr2).
    rewrite Em. cbn [bind]. rewrite Er. cbn [bind].
    exists (a1 :: r2), c2, fm2. auto.
Qed.

(** Every iteration with clicks in the window returns a state. *)
Theorem tick_total (f : Frame) (w : World) :
  world_ok w ->
  Forall (fun c => in_window (fst c) (snd c)) (clicks f) ->
  exists w', tick f w = Some w' /\ world_ok w'.
Proof.
  intros (Hg & Hi & Ha) Hc.
  destruct (handle_clicks_total (clicks f) (food_manager w) (next_fid w) (quantity f)
              Hc Hg Hi) as (fm1 & next1 & Eh & Hg1 & Hi1).
  assert (Hl : Forall target_in_window (ants_after_update w f)).
  { unfold ants_after_update.
    destruct (snd (Colony_update _ _ _ _)) as [a |] eqn:E; [| exact Ha].
    apply Forall_app. split; [exact Ha |]. constructor; [| constructor].
    unfold Colony_update in E.
    match type of E with context [if ?b then _ else _] => destruct b end;
      cbn [snd] in E; some_inv. intros tg Et. discriminate Et. }
  destruct (move_all_total _ 0
              (fst (Colony_update (colony w) (ants w) (growth_draw f) (newborn_draw f)))
              fm1 (move_draws f) Hg1 Hi1 Hl) as (l2 & c2 & fm2 & Em & Hg2 & Hi2 & Hl2).
  exists (mkWorld c2 l2 fm2 next1).
  split; [| unfold world_ok; cbn [food_manager ants]; auto].
  unfold tick. rewrite Eh. cbn [bind].
  unfold ants_after_update in Em.
  destruct (Colony_update _ _ _ _) as [c1 new_ant]. cbn [fst snd] in Em.
  rewrite Em. reflexivity.
Qed.

(** Every run whose clicks all lie in the window returns a state. *)
Theorem run_total (fs : list Frame) :
  forall w,
  world_ok w ->
  Forall (fun f => Forall (fun c => in_window (fst c) (snd c)) (clicks f)) fs ->
  exists w', run fs w = Some w' /\ world_ok w'.
Proof.
  induction fs as [| f rest IH]; intros w Hw Hc; cbn [run].
  - exists w. auto.
  - inversion Hc as [| ? ? Hf Hrest]; subst.
    destruct (tick_total f w Hw Hf) as (w1 & Et & Hw1).
    rewrite Et. cbn [bind]. exact (IH w1 Hw1 Hrest).
Qed.

Lemma grid_shape_init : grid_shape Manager.init.
Proof.
  unfold grid_shape, Manager.init. split; [apply repeat_length |].
  apply Forall_forall. intros row Hr. apply repeat_spec in Hr. subst.
  apply repeat_length.
Qed.

(** The state [main] starts the loop with exists and is a state the loop
    can be in: 100 ants, a fresh colony. *)
Theorem main_init_total (role_draws : nat -> R) (qty : nat -> Z) :
  exists w,
    main_init role_draws qty = Some w /\ world_ok w /\
    colony w = Colony.init /\
    Z.of_nat (length (ants w)) = INITIAL_COLONY_SIZE.
Proof.
  assert (H0 : items_in_window Manager.init).
  { intros g Hg. rewrite items_init in Hg. contradiction. }
  assert (W1 : in_window 480 150) by (unfold in_window, WIDTH, HEIGHT; lia).
  assert (W2 : in_window 480 930) by (unfold in_window, WIDTH, HEIGHT; lia).
  destruct (spawn_food_total (FOOD_SPAWN_AMOUNT_PER_CLICK * 3) Manager.init 480 150 0 qty
              grid_shape_init W1 H0) as (fm1 & n1 & E1 & G1 & I1).
  destruct (spawn_food_total (FOOD_SPAWN_AMOUNT_PER_CLICK * 3) fm1 480 930 n1 qty
              G1 W2 I1) as (fm2 & n2 & E2 & G2 & I2).
  unfold main_init. rewrite E1. cbn [bind]. rewrite E2. cbn [bind].
  eexists. split; [reflexivity |]. cbn [colony ants food_manager].
  split; [| split; [reflexivity |]].
  - split; [exact G2 |]. split; [exact I2 |].
    apply Forall_forall. intros a Ha. apply in_map_iff in Ha as (i & <- & _).
    intros tg E. discriminate E.
  - rewrite length_map, length_seq. reflexivity.
Qed.

(** * The food index as a data structure *)

(** ** Lists updated by index *)

Lemma nth_error_set_nth_same {A} (l : list A) :
  forall n u v, nth_error l n = Some u -> nth_error (set_nth l n v) n = Some v.
Proof.
  induction l as [| h t IH]; intros n u v H; [destruct n; discriminate |].
  destruct n; cbn in *; [reflexivity | eauto].
Qed.

Lemma nth_error_set_nth_other {A} (l : list A) :
  forall n j v, n <> j -> nth_error (set_nth l n v) j = nth_error l j.
Proof.
  induction l as [| h t IH]; intros n j v H; [destruct n; reflexivity |].
  destruct n, j; cbn; try reflexivity; [contradiction | apply IH; lia].
Qed.

Lemma py_get_inv {A} (l : list A) (i : Z) (u : A) :
  py_get l i = Some u ->
  exists n, py_norm (length l) i = Some n /\ nth_error l n = Some u.
Proof.
  unfold py_get, bind. destruct (py_norm (length l) i) as [n |]; [| discriminate].
  intros H. exists n. auto.
Qed.

Lemma py_get_set_nth {A} (l : list A) (i : Z) (n j : nat) (v : A) :
  py_norm (length l) i = Some j ->
  py_get (set_nth l n v) i = nth_error (set_nth l n v) j.
Proof. intros H. unfold py_get. rewrite length_set_nth, H. reflexivity. Qed.

Lemma py_get_set {A} (l : list A) (i : Z) (u v : A) (l' : list A) :
  py_get l i = Some u -> py_set l i v = Some l' ->
  exists n, py_norm (length l) i = Some n /\ nth_error l n = Some u /\ l' = set_nth l n v.
Proof.
  unfold py_get, py_set, bind.
  destruct (py_norm (length l) i) as [n |]; [| discriminate].
  intros Hg Hs. some_inv. exists n. auto.
Qed.

Lemma concat_set_nth {A} (l : list (list A)) :
  forall n u v,
  nth_error l n = Some u ->
  exists pre post,
    concat l = pre ++ u ++ post /\ concat (set_nth l n v) = pre ++ v ++ post.
Proof.
  induction l as [| h t IH]; intros n u v H; [destruct n; discriminate |].
  destruct n as [| n]; cbn in H.
  - some_inv. exists [], (concat t). auto.
  - destruct (IH n u v H) as (pre & post & E1 & E2).
    exists (h ++ pre), post. cbn. rewrite E1, E2, <- !app_assoc. auto.
Qed.

(** Replacing one bucket replaces one segment of the list of items. *)
Lemma items_set_segment (m : Manager.t) (row : list (list Food.t)) (tile v : list Food.t)
    (n k : nat) :
  nth_error m n = Some row -> nth_error row k = Some tile ->
  exists pre post,
    Manager.items m = pre ++ tile ++ post /\
    Manager.items (set_nth m n (set_nth row k v)) = pre ++ v ++ post.
Proof.
  intros Hr Ht. unfold Manager.items.
  destruct (concat_set_nth row k tile v Ht) as (p1 & q1 & E1 & E2).
  destruct (concat_set_nth m n row (set_nth row k v) Hr) as (P & Q & E3 & E4).
  exists (concat P ++ p1), (q1 ++ concat Q).
  rewrite E3, E4, !concat_app, E1, E2, <- !app_assoc. auto.
Qed.

Lemma update_bucket_spec (m m' : Manager.t) (f : Food.t)
    (upd : list Food.t -> list Food.t) :
  update_bucket m f upd = Some m' ->
  exists tile pre post,
    bucket_of m f = Some tile /\
    bucket_of m' f = Some (upd tile) /\
    Manager.items m = pre ++ tile ++ post /\
    Manager.items m' = pre ++ upd tile ++ post /\
    (forall g tg, bucket_of m g = Some tg ->
       bucket_of m' g = Some tg \/ (tg = tile /\ bucket_of m' g = Some (upd tile))).
Proof.
  unfold update_bucket. intros H. unfold bind in H.
  destruct (py_get m (Food.x f / 10)) as [row |] eqn:Er; [| discriminate].
  destruct (py_get row (Food.y f / 10)) as [tile |] eqn:Et; [| discriminate].
  destruct (py_set row (Food.y f / 10) (upd tile)) as [row' |] eqn:Es; [| discriminate].
  destruct (py_get_set _ _ _ _ _ Et Es) as (k & Nk & Hk & ->).
  destruct (py_get_set _ _ _ _ _ Er H) as (n & Nn & Hn & ->).
  destruct (items_set_segment m row tile (upd tile) n k Hn Hk) as (pre & post & E1 & E2).
  exists tile, pre, post.
  assert (Bm : bucket_of m f = Some tile).
  { unfold bucket_of. rewrite Er. cbn [bind]. exact Et. }
  assert (Bm' : bucket_of (set_nth m n (set_nth row k (upd tile))) f = Some (upd tile)).
  { unfold bucket_of. rewrite (py_get_set_nth m _ n n _ Nn).
    rewrite (nth_error_set_nth_same m n row _ Hn). cbn [bind].
    rewrite (py_get_set_nth row _ k k _ Nk).
    exact (nth_error_set_nth_same row k tile _ Hk). }
  repeat split; try assumption.
  intros g tg Hg. unfold bucket_of in Hg |- *. unfold bind in Hg.
  destruct (py_get m (Food.x g / 10)) as [rg |] eqn:Erg; [| discriminate].
  destruct (py_get_inv _ _ _ Erg) as (ng & Nng & Hng).
  destruct (py_get_inv _ _ _ Hg) as (kg & Nkg & Hkg).
  rewrite (py_get_set_nth m _ n ng _ Nng).
  destruct (Nat.eq_dec n ng) as [<- | Dn].
  - rewrite (nth_error_set_nth_same m n row _ Hn). cbn [bind].
    assert (rg = row) by congruence. subst rg.
    rewrite (py_get_set_nth row _ k kg _ Nkg).
    destruct (Nat.eq_dec k kg) as [<- | Dk].
    + right. rewrite (nth_error_set_nth_same row k tile _ Hk).
      split; [congruence | reflexivity].
    + left. rewrite (nth_error_set_nth_other row k kg _ Dk). exact Hkg.
  - left. rewrite (nth_error_set_nth_other m n ng _ Dn), Hng. cbn [bind]. exact Hg.
Qed.

Lemma add_is_update (m : Manager.t) (f : Food.t) :
  Manager.add m f = update_bucket m f (fun tile => tile ++ [f]).
Proof. reflexivity. Qed.

Lemma remove_is_update (m : Manager.t) (f : Food.t) (tile : list Food.t) :
  bucket_of m f = Some tile ->
  Manager.remove m f =
  if Manager.contains tile f
  then update_bucket m f (fun t => Manager.list_remove t f)
  else Some m.
Proof.
  unfold bucket_of, Manager.remove, update_bucket, bind. intros H.
  destruct (py_get m (Food.x f / 10)) as [row |]; [| discriminate].
  rewrite H. reflexivity.
Qed.

(** ** [Manager.add] *)

Lemma add_spec (m m' : Manager.t) (f : Food.t) :
  Manager.add m f = Some m' ->
  exists tile pre post,
    bucket_of m f = Some tile /\
    bucket_of m' f = Some (tile ++ [f]) /\
    Manager.items m = pre ++ tile ++ post /\
    Manager.items m' = pre ++ (tile ++ [f]) ++ post /\
    (forall g tg, bucket_of m g = Some tg ->
       bucket_of m' g = Some tg \/ (tg = tile /\ bucket_of m' g = Some (tile ++ [f]))).
Proof. rewrite add_is_update. apply update_bucket_spec. Qed.

Lemma add_then_lookup (m m' : Manager.t) (f : Food.t) :
  Manager.add m f = Some m' ->
  (exists tile, bucket_of m f = Some tile /\ bucket_of m' f = Some (tile ++ [f])) /\
  (forall g, In g (Manager.items m') <-> g = f \/ In g (Manager.items m)) /\
  length (Manager.items m') = S (length (Manager.items m)).
Proof.
  intros H. destruct (add_spec _ _ _ H) as (tile & pre & post & B & B' & E & E' & _).
  split; [exists tile; auto |]. rewrite E, E'. split.
  - intros g. rewrite !in_app_iff. cbn. intuition auto.
  - rewrite !length_app. cbn. lia.
Qed.

Lemma add_preserves (m m' : Manager.t) (f : Food.t) :
  unique_ids m -> bucketed m -> ~ indexed m f ->
  Manager.add m f = Some m' ->
  unique_ids m' /\ bucketed m'.
Proof.
  intros Hu Hb Hn H.
  destruct (add_spec _ _ _ H) as (tile & pre & post & B & B' & E & E' & Hother).
  split.
  - unfold unique_ids in *. rewrite E'. rewrite E in Hu.
    assert (P : Permutation (Food.fid f :: map Food.fid (pre ++ tile ++ post))
                            (map Food.fid (pre ++ (tile ++ [f]) ++ post))).
    { rewrite <- !app_assoc. cbn [app].
      replace (pre ++ tile ++ f :: post) with ((pre ++ tile) ++ f :: post)
        by (rewrite <- app_assoc; reflexivity).
      replace (pre ++ tile ++ post) with ((pre ++ tile) ++ post)
        by (rewrite <- app_assoc; reflexivity).
      rewrite !map_app. cbn [map]. apply Permutation_middle. }
    apply (Permutation_NoDup P). constructor; [| exact Hu].
    intros Hin. apply Hn. apply in_map_iff in Hin as (g & Eg & Hg).
    exists g. rewrite E. auto.
  - intros g Hg. rewrite E' in Hg.
    assert (Hg' : g = f \/ In g (Manager.items m)).
    { rewrite E. rewrite !in_app_iff in *. cbn in Hg. intuition auto. }
    destruct Hg' as [-> | Hg'].
    + exists (tile ++ [f]). split; [exact B' |]. apply in_or_app. right. left. reflexivity.
    + destruct (Hb g Hg') as (tg & Bg & Hin).
      destruct (Hother g tg Bg) as [Bg' | [-> Bg']].
      * exists tg. auto.
      * exists (tile ++ [f]). split; [exact Bg' |]. apply in_or_app. left. exact Hin.
Qed.

(** ** [Manager.remove] *)

Lemma list_remove_split (tile : list Food.t) (f : Food.t) :
  Manager.contains tile f = true ->
  exists t1 g t2,
    tile = t1 ++ g :: t2 /\ Food.fid g = Food.fid f /\
    Manager.list_remove tile f = t1 ++ t2.
Proof.
  unfold Manager.contains.
  induction tile as [| h t IH]; cbn; [discriminate |].
  destruct (Food.same f h) eqn:E.
  - intros _. exists [], h, t. unfold Food.same in E. apply Nat.eqb_eq in E. auto.
  - cbn. intros H. destruct (IH H) as (t1 & g & t2 & -> & Eg & ->).
    exists (h :: t1), g, t2. auto.
Qed.

Lemma contains_self (tile : list Food.t) (f : Food.t) :
  In f tile -> Manager.contains tile f = true.
Proof.
  intros H. unfold Manager.contains. apply existsb_exists. exists f.
  split; [exact H |]. unfold Food.same. apply Nat.eqb_refl.
Qed.

Lemma unique_ids_eq (m : Manager.t) (f g : Food.t) :
  unique_ids m -> In f (Manager.items m) -> In g (Manager.items m) ->
  Food.fid g = Food.fid f -> g = f.
Proof.
  unfold unique_ids. generalize (Manager.items m). intros l.
  induction l as [| h t IH]; intros Hu Hf Hg E; [contradiction |].
  cbn in Hu. inversion Hu as [| ? ? Hni Hnd]; subst.
  destruct Hf as [-> | Hf], Hg as [-> | Hg]; auto.
  - exfalso. apply Hni. rewrite <- E. apply in_map. exact Hg.
  - exfalso. apply Hni. rewrite E. apply in_map. exact Hf.
Qed.

(** [Manager.remove] when the bucket holds an object of that identity. *)
Lemma remove_found (m : Manager.t) (f : Food.t) (tile : list Food.t) :
  unique_ids m -> bucketed m ->
  bucket_of m f = Some tile -> Manager.contains tile f = true ->
  exists m' h l1 l2,
    Manager.remove m f = Some m' /\
    Food.fid h = Food.fid f /\ In h tile /\
    Manager.items m = l1 ++ h :: l2 /\
    Manager.items m' = l1 ++ l2 /\
    ~ indexed m' f /\
    unique_ids m' /\ bucketed m'.
Proof.
  intros Hu Hb B Hc.
  rewrite (remove_is_update m f tile B), Hc.
  destruct (list_remove_split tile f Hc) as (t1 & h & t2 & -> & Eh & Erm).
  assert (Hup : exists m', update_bucket m f (fun t => Manager.list_remove t f) = Some m').
  { unfold bucket_of in B. unfold update_bucket. unfold bind in *.
    destruct (py_get m (Food.x f / 10)) as [row |] eqn:Er; [| discriminate].
    rewrite B. destruct (py_get_inv _ _ _ B) as (k & Nk & _).
    destruct (py_get_inv _ _ _ Er) as (n & Nn & _).
    unfold py_set at 1. rewrite Nk. cbn [bind]. unfold py_set. rewrite Nn. cbn [bind]. eauto. }
  destruct Hup as (m' & Hup). rewrite Hup.
  destruct (update_bucket_spec _ _ _ _ Hup) as (tile' & pre & post & B0 & B' & E & E' & Hother).
  assert (tile' = t1 ++ h :: t2) by congruence. subst tile'. rewrite Erm in *.
  assert (E1 : Manager.items m = (pre ++ t1) ++ h :: (t2 ++ post)).
  { rewrite E, <- !app_assoc. reflexivity. }
  assert (E2 : Manager.items m' = (pre ++ t1) ++ (t2 ++ post)).
  { rewrite E', <- !app_assoc. reflexivity. }
  unfold unique_ids in Hu. rewrite E1, map_app in Hu. cbn [map] in Hu.
  apply NoDup_remove in Hu as (Hnd & Hni). rewrite <- map_app in Hnd, Hni.
  exists m', h, (pre ++ t1), (t2 ++ post).
  split; [reflexivity |]. split; [exact Eh |].
  split; [apply in_or_app; right; left; reflexivity |].
  split; [exact E1 |]. split; [exact E2 |].
  split; [| split].
  - intros (g & Hg & Eg). apply Hni. rewrite Eh, <- Eg. apply in_map. rewrite <- E2. exact Hg.
  - unfold unique_ids. rewrite E2. exact Hnd.
  - intros g Hg.
    assert (Hgm : In g (Manager.items m)).
    { rewrite E1. rewrite E2 in Hg. apply in_app_or in Hg as [Hg | Hg];
        apply in_or_app; [left | right; right]; exact Hg. }
    destruct (Hb g Hgm) as (tg & Bg & Hgin).
    destruct (Hother g tg Bg) as [Bg' | [-> Bg']]; [exists tg; auto |].
    exists (t1 ++ t2). split; [exact Bg' |].
    apply in_app_or in Hgin as [Hgin | [<- | Hgin]];
      [apply in_or_app; left; exact Hgin | | apply in_or_app; right; exact Hgin].
    exfalso. apply Hni. apply in_map. rewrite <- E2. exact Hg.
Qed.

(** [Manager.remove] keeps the two invariants of the index, whatever it is
    asked to remove. *)
Lemma remove_preserves (m m' : Manager.t) (f : Food.t) :
  unique_ids m -> bucketed m ->
  Manager.remove m f = Some m' ->
  unique_ids m' /\ bucketed m'.
Proof.
  intros Hu Hb H.
  destruct (bucket_of m f) as [tile |] eqn:B.
  - destruct (Manager.contains tile f) eqn:Hc.
    + destruct (remove_found m f tile Hu Hb B Hc)
        as (m1 & h & l1 & l2 & E & _ & _ & _ & _ & _ & U & K).
      rewrite E in H. some_inv. auto.
    + rewrite (remove_is_update m f tile B), Hc in H. some_inv. auto.
  - exfalso. unfold bucket_of, Manager.remove in *. unfold bind in *.
    destruct (py_get m (Food.x f / 10)) as [row |]; [| discriminate].
    rewrite B in H. discriminate.
Qed.

(** ** Adding and removing *)

Lemma list_remove_last (tile : list Food.t) (f : Food.t) :
  (forall g, In g tile -> Food.fid g <> Food.fid f) ->
  Manager.list_remove (tile ++ [f]) f = tile.
Proof.
  induction tile as [| h t IH]; intros H; cbn.
  - unfold Food.same. rewrite Nat.eqb_refl. reflexivity.
  - assert (E : Food.same f h = false).
    { unfold Food.same. apply Nat.eqb_neq. intros E. apply (H h); [left; reflexivity | auto]. }
    rewrite E. f_equal. apply IH. intros g Hg. apply H. right. exact Hg.
Qed.

Lemma set_nth_overwrite {A} (l : list A) :
  forall n u v, set_nth (set_nth l n u) n v = set_nth l n v.
Proof.
  induction l as [| h t IH]; intros n u v; [destruct n; reflexivity |].
  destruct n; cbn; [reflexivity | rewrite IH; reflexivity].
Qed.

Lemma set_nth_current {A} (l : list A) :
  forall n u, nth_error l n = Some u -> set_nth l n u = l.
Proof.
  induction l as [| h t IH]; intros n u H; [destruct n; discriminate |].
  destruct n; cbn in *; [some_inv; reflexivity | rewrite (IH _ _ H); reflexivity].
Qed.

Lemma bucket_In_items (m : Manager.t) (f g : Food.t) (tile : list Food.t) :
  bucket_of m f = Some tile -> In g tile -> In g (Manager.items m).
Proof.
  unfold bucket_of, bind. intros B Hg.
  destruct (py_get m (Food.x f / 10)) as [row |] eqn:Er; [| discriminate].
  apply py_get_In in Er. apply py_get_In in B.
  exact (In_items m row tile g Er B Hg).
Qed.

(** X4. Adding a food object whose identity is not in the index and
    removing it again gives back the very same grid. *)
Theorem X4_add_then_remove (m m' : Manager.t) (f : Food.t) :
  ~ indexed m f ->
  Manager.add m f = Some m' ->
  Manager.remove m' f = Some m.
Proof.
  intros Hfr H. unfold Manager.add in H. unfold bind in H.
  destruct (py_get m (Food.x f / 10)) as [row |] eqn:Er; [| discriminate].
  destruct (py_get row (Food.y f / 10)) as [tile |] eqn:Et; [| discriminate].
  destruct (py_set row (Food.y f / 10) (tile ++ [f])) as [row' |] eqn:Es; [| discriminate].
  destruct (py_get_set _ _ _ _ _ Et Es) as (k & Nk & Hk & ->).
  destruct (py_get_set _ _ _ _ _ Er H) as (n & Nn & Hrow & ->).
  assert (Hfresh : forall g, In g tile -> Food.fid g <> Food.fid f).
  { intros g Hg E. apply Hfr. exists g. split; [| exact E].
    apply py_get_In in Er. apply py_get_In in Et. exact (In_items m row tile g Er Et Hg). }
  unfold Manager.remove.
  rewrite (py_get_set_nth m _ n n _ Nn), (nth_error_set_nth_same m n row _ Hrow). cbn [bind].
  rewrite (py_get_set_nth row _ k k _ Nk), (nth_error_set_nth_same row k tile _ Hk).
  cbn [bind].
  rewrite contains_self by (apply in_or_app; right; left; reflexivity).
  rewrite (list_remove_last tile f Hfresh).
  unfold py_set. rewrite !length_set_nth, Nk, Nn. cbn [bind].
  rewrite !set_nth_overwrite, (set_nth_current row k tile Hk).
  rewrite (set_nth_current m n row Hrow). reflexivity.
Qed.

(** X6. Removing a food object that is not in the index is no error as
    soon as its bucket exists, and returns the grid unchanged. *)
Theorem X6_remove_not_indexed (m : Manager.t) (f : Food.t) (tile : list Food.t) :
  ~ indexed m f ->
  bucket_of m f = Some tile ->
  Manager.remove m f = Some m.
Proof.
  intros Hn B. rewrite (remove_is_update m f tile B).
  destruct (Manager.contains tile f) eqn:Ec; [| reflexivity].
  exfalso. apply Hn. apply contains_indexed in Ec as (g & Hg & E).
  exists g. split; [exact (bucket_In_items m f g tile B Hg) | exact E].
Qed.

(** ** The edges of the grid *)

Lemma py_norm_cases (len : nat) (i : Z) :
  (0 <= i < Z.of_nat len /\ py_norm len i = Some (Z.to_nat i))%Z \/
  (- Z.of_nat len <= i < 0 /\ py_norm len i = Some (Z.to_nat (Z.of_nat len + i)))%Z \/
  ((i < - Z.of_nat len \/ Z.of_nat len <= i)%Z /\ py_norm len i = None).
Proof.
  unfold py_norm.
  destruct (Z.leb_spec 0 i), (Z.ltb_spec i (Z.of_nat len)); cbn [andb]; try (left; split; [lia | reflexivity]).
  all: destruct (Z.leb_spec (- Z.of_nat len) i), (Z.ltb_spec i 0); cbn [andb];
    try (right; left; split; [lia | reflexivity]);
    try (right; right; split; [lia | reflexivity]).
Qed.

Lemma py_get_off {A} (l : list A) (i : Z) :
  (i < - Z.of_nat (length l) \/ Z.of_nat (length l) <= i)%Z -> py_get l i = None.
Proof.
  intros H. unfold py_get.
  destruct (py_norm_cases (length l) i) as [[? _] | [[? _] | [_ ->]]]; [lia | lia | reflexivity].
Qed.

Lemma py_get_wrap {A} (l : list A) (i : Z) :
  (- Z.of_nat (length l) <= i < 0)%Z -> py_get l i = py_get l (i + Z.of_nat (length l)).
Proof.
  intros H. unfold py_get.
  destruct (py_norm_cases (length l) i) as [[? _] | [[_ ->] | [? _]]]; [lia | | lia].
  rewrite py_norm_nat by lia. f_equal. f_equal. lia.
Qed.

Lemma grid_row_length (m : Manager.t) (i : Z) (row : list (list Food.t)) :
  grid_shape m -> py_get m i = Some row -> length row = Z.to_nat (HEIGHT / 10).
Proof.
  intros [_ Hrows] H. apply py_get_In in H. rewrite Forall_forall in Hrows. auto.
Qed.

Lemma py_norm_in_range (len : nat) (i : Z) :
  (- Z.of_nat len <= i < Z.of_nat len)%Z ->
  exists n, py_norm len i = Some n /\ (n < len)%nat.
Proof.
  intros H.
  destruct (py_norm_cases len i) as [[? ->] | [[? ->] | [? _]]]; [| | lia];
    eexists; (split; [reflexivity | lia]).
Qed.

Lemma py_get_in_range {A} (l : list A) (i : Z) :
  (- Z.of_nat (length l) <= i < Z.of_nat (length l))%Z ->
  exists v, py_get l i = Some v.
Proof.
  intros H. destruct (py_norm_in_range _ _ H) as (n & E & Hn).
  unfold py_get. rewrite E. cbn [bind].
  destruct (nth_error l n) as [v |] eqn:En; [eauto |].
  apply nth_error_None in En. lia.
Qed.

Lemma py_set_in_range {A} (l : list A) (i : Z) (v : A) :
  (- Z.of_nat (length l) <= i < Z.of_nat (length l))%Z ->
  exists l', py_set l i v = Some l'.
Proof.
  intros H. destruct (py_norm_in_range _ _ H) as (n & E & _).
  unfold py_set. rewrite E. cbn [bind]. eauto.
Qed.

Lemma grid_width (m : Manager.t) : grid_shape m -> Z.of_nat (length m) = (WIDTH / 10)%Z.
Proof. intros [-> _]. reflexivity. Qed.

Lemma grid_height (m : Manager.t) (i : Z) (row : list (list Food.t)) :
  grid_shape m -> py_get m i = Some row -> Z.of_nat (length row) = (HEIGHT / 10)%Z.
Proof. intros Hg H. rewrite (grid_row_length m i row Hg H). reflexivity. Qed.

(** X3. A negative coordinate is not refused: from minus the size of the
    window up to -1 it selects, by Python's negative indexing, the bucket
    of the coordinate one window further (x + WIDTH, respectively
    y + HEIGHT). *)
Theorem X3_negative_coordinates_wrap (m : Manager.t) (f : Food.t) :
  grid_shape m ->
  ((- WIDTH <= Food.x f < 0)%Z ->
   bucket_of m f =
   bucket_of m (Food.mk (Food.fid f) (Food.x f + WIDTH) (Food.y f) (Food.amount f))) /\
  ((- HEIGHT <= Food.y f < 0)%Z ->
   bucket_of m f =
   bucket_of m (Food.mk (Food.fid f) (Food.x f) (Food.y f + HEIGHT) (Food.amount f))).
Proof.
  intros Hg. pose proof (grid_width m Hg) as Hw. unfold bucket_of. cbn [Food.x Food.y].
  split; intros H.
  - replace ((Food.x f + WIDTH) / 10)%Z with (Food.x f / 10 + Z.of_nat (length m))%Z.
    + rewrite <- py_get_wrap; [reflexivity |]. rewrite Hw. unfold WIDTH in *.
      change (960 / 10)%Z with 96%Z.
      split; [apply Z.div_le_lower_bound; lia | apply Z.div_lt_upper_bound; lia].
    + rewrite Hw. unfold WIDTH. change (960 / 10)%Z with 96%Z.
      rewrite <- (Z.div_add _ 96 10) by lia. f_equal.
  - destruct (py_get m (Food.x f / 10)) as [row |] eqn:Er; [| reflexivity]. cbn [bind].
    pose proof (grid_height m _ row Hg Er) as Hh.
    replace ((Food.y f + HEIGHT) / 10)%Z with (Food.y f / 10 + Z.of_nat (length row))%Z.
    + apply py_get_wrap. rewrite Hh. unfold HEIGHT in *.
      change (1080 / 10)%Z with 108%Z.
      split; [apply Z.div_le_lower_bound; lia | apply Z.div_lt_upper_bound; lia].
    + rewrite Hh. unfold HEIGHT. change (1080 / 10)%Z with 108%Z.
      rewrite <- (Z.div_add _ 108 10) by lia. f_equal.
Qed.

(** ** [spawn_food] *)

Lemma spawn_food_spec (amount : nat) :
  forall fm px py next qty fm' next',
  spawn_food fm px py amount next qty = Some (fm', next') ->
  next' = (next + amount)%nat /\
  length (Manager.items fm') = (length (Manager.items fm) + amount)%nat /\
  (forall g, In g (Manager.items fm') <->
     In g (Manager.items fm) \/
     exists i, (next <= i < next + amount)%nat /\ g = Food.mk i px py (qty i)).
Proof.
  induction amount as [| k IH]; intros fm px py next qty fm' next' H; cbn [spawn_food] in H.
  - some_inv. split; [lia |]. split; [lia |]. intros g. split; [auto |].
    intros [Hg | (i & Hi & _)]; [exact Hg | lia].
  - unfold bind in H.
    destruct (Manager.add fm (Food.mk next px py (qty next))) as [fm1 |] eqn:Ea; [| discriminate].
    destruct (add_then_lookup _ _ _ Ea) as (_ & Hin & Hlen).
    destruct (IH _ _ _ _ _ _ _ H) as (-> & Hlen' & Hin').
    split; [lia |]. split; [lia |]. intros g. rewrite Hin', Hin. split.
    + intros [[-> | Hg] | (i & Hi & ->)]; [right; exists next; split; [lia | reflexivity]
                                          | left; exact Hg
                                          | right; exists i; split; [lia | reflexivity]].
    + intros [Hg | (i & Hi & ->)]; [left; right; exact Hg |].
      destruct (Nat.eq_dec i next) as [-> | D]; [left; left; reflexivity |].
      right. exists i. split; [lia | reflexivity].
Qed.

(** ** The invariants of the index along a run *)

Lemma spawn_food_inv (amount : nat) :
  forall fm px py next qty fm' next',
  index_inv fm next ->
  spawn_food fm px py amount next qty = Some (fm', next') ->
  index_inv fm' next'.
Proof.
  induction amount as [| k IH]; intros fm px py next qty fm' next' Hi H; cbn [spawn_food] in H.
  - some_inv. exact Hi.
  - unfold bind in H.
    destruct (Manager.add fm (Food.mk next px py (qty next))) as [fm1 |] eqn:Ea; [| discriminate].
    refine (IH _ _ _ _ _ _ _ _ H). clear H.
    destruct Hi as (Hu & Hb & Hlt).
    assert (Hn : ~ indexed fm (Food.mk next px py (qty next))).
    { intros (g & Hg & E). apply Hlt in Hg. cbn in E. lia. }
    destruct (add_preserves _ _ _ Hu Hb Hn Ea) as (Hu' & Hb').
    split; [exact Hu' |]. split; [exact Hb' |].
    destruct (add_then_lookup _ _ _ Ea) as (_ & Hin & _).
    intros g Hg. apply Hin in Hg as [-> | Hg]; [cbn; lia |].
    apply Hlt in Hg. lia.
Qed.

Lemma handle_clicks_inv (cs : list (Z * Z)) :
  forall fm next qty fm' next',
  index_inv fm next ->
  handle_clicks cs fm next qty = Some (fm', next') ->
  index_inv fm' next'.
Proof.
  induction cs as [| [cx cy] rest IH]; intros fm next qty fm' next' Hi H;
    cbn [handle_clicks] in H.
  - some_inv. exact Hi.
  - unfold bind in H.
    destruct (spawn_food fm cx cy _ next qty) as [[fm1 next1] |] eqn:Es; [| discriminate].
    exact (IH _ _ _ _ _ (spawn_food_inv _ _ _ _ _ _ _ _ Hi Es) H).
Qed.

Lemma move_inv (a : Ant.t) (c : Colony.t) (fm : Manager.t) (d : MoveDraws)
    (a' : Ant.t) (c' : Colony.t) (fm' : Manager.t) (next : nat) :
  index_inv fm next ->
  Ant.move a c fm d = Some (a', c', fm') ->
  index_inv fm' next.
Proof.
  intros (Hu & Hb & Hlt) H.
  assert (Hlt' : forall g, In g (Manager.items fm') -> (Food.fid g < next)%nat).
  { intros g Hg. apply Hlt. exact (move_items _ _ _ _ _ _ _ _ H Hg). }
  apply move_phases in H as (a1 & c1 & Hs & _).
  unfold Ant.step in Hs.
  destruct (Ant.has_food _); [break_if; some_inv; repeat split; assumption |].
  destruct (Ant.target _) as [tg |]; [| some_inv; repeat split; assumption].
  break_if; [| some_inv; repeat split; assumption].
  unfold bind in Hs. destruct (Manager.remove fm tg) as [fm1 |] eqn:Er; [| discriminate].
  some_inv. destruct (remove_preserves _ _ _ Hu Hb Er) as (Hu' & Hb').
  repeat split; assumption.
Qed.

Lemma move_all_inv (l : list Ant.t) :
  forall i c fm draws l' c' fm' next,
  index_inv fm next ->
  move_all l i c fm draws = Some (l', c', fm') ->
  index_inv fm' next.
Proof.
  induction l as [| a rest IH]; intros i c fm draws l' c' fm' next Hi H; cbn [move_all] in H.
  - some_inv. exact Hi.
  - unfold bind in H.
    destruct (Ant.move a c fm (draws i)) as [[[a1 c1] fm1] |] eqn:Hm; [| discriminate].
    destruct (move_all rest (S i) c1 fm1 draws) as [[[r2 c2] fm2] |] eqn:Hr; [| discriminate].
    some_inv. exact (IH _ _ _ _ _ _ _ _ (move_inv _ _ _ _ _ _ _ _ Hi Hm) Hr).
Qed.

Lemma tick_inv (f : Frame) (w w' : World) :
  index_inv (food_manager w) (next_fid w) ->
  tick f w = Some w' ->
  index_inv (food_manager w') (next_fid w').
Proof.
  intros Hi H. apply tick_phases in H as (fm & Hc & Hm).
  exact (move_all_inv _ _ _ _ _ _ _ _ _ (handle_clicks_inv _ _ _ _ _ _ Hi Hc) Hm).
Qed.

Lemma run_inv (fs : list Frame) :
  forall w w',
  index_inv (food_manager w) (next_fid w) ->
  run fs w = Some w' ->
  index_inv (food_manager w') (next_fid w').
Proof.
  induction fs as [| f rest IH]; intros w w' Hi H; cbn [run] in H.
  - some_inv. exact Hi.
  - unfold bind in H. destruct (tick f w) as [w1 |] eqn:Ht; [| discriminate].
    exact (IH _ _ (tick_inv _ _ _ Hi Ht) H).
Qed.

Lemma index_inv_init : index_inv Manager.init 0.
Proof.
  unfold index_inv, unique_ids, bucketed. rewrite items_init.
  split; [constructor |]. split; intros g Hg; contradiction.
Qed.

Lemma main_init_inv (role_draws : nat -> R) (qty : nat -> Z) (w : World) :
  main_init role_draws qty = Some w ->
  index_inv (food_manager w) (next_fid w) /\
  length (Manager.items (food_manager w)) = 300%nat.
Proof.
  unfold main_init, bind. intros H.
  destruct (spawn_food Manager.init 480 150 _ 0 qty) as [[fm1 n1] |] eqn:E1; [| discriminate].
  destruct (spawn_food fm1 480 930 _ n1 qty) as [[fm2 n2] |] eqn:E2; [| discriminate].
  some_inv. cbn [food_manager next_fid]. split.
  - exact (spawn_food_inv _ _ _ _ _ _ _ _
             (spawn_food_inv _ _ _ _ _ _ _ _ index_inv_init E1) E2).
  - destruct (spawn_food_spec _ _ _ _ _ _ _ _ E1) as (_ & L1 & _).
    destruct (spawn_food_spec _ _ _ _ _ _ _ _ E2) as (_ & L2 & _).
    rewrite L2, L1, items_init. reflexivity.
Qed.

(** * Further properties of the code *)

(** ** The index operations as seen by a caller *)

(** X1. When [Manager.add] returns, the new object is the last element of
    the bucket [repository[x // 10][y // 10]]; in the order in which the
    loops over the grid meet the objects, it comes right after the old
    content of that bucket, and all other objects keep their places. So the
    index holds the old objects and the new one, one more than before. *)
Theorem X1_add_lookup (m m' : Manager.t) (f : Food.t) :
  Manager.add m f = Some m' ->
  (exists tile pre post,
     bucket_of m f = Some tile /\
     bucket_of m' f = Some (tile ++ [f]) /\
     Manager.items m = pre ++ tile ++ post /\
     Manager.items m' = pre ++ tile ++ f :: post) /\
  (forall g, In g (Manager.items m') <-> g = f \/ In g (Manager.items m)) /\
  length (Manager.items m') = S (length (Manager.items m)).
Proof.
  intros H. destruct (add_then_lookup m m' f H) as (_ & I & L).
  split; [| split; assumption].
  destruct (add_spec _ _ _ H) as (tile & pre & post & B & B' & E & E' & _).
  exists tile, pre, post. rewrite E'. rewrite <- app_assoc. auto.
Qed.

(** X5. With pairwise distinct identities and every object in the bucket of
    its coordinates, [Manager.remove] of an object of the index returns (no
    [IndexError]), takes exactly that object out, leaves the other objects
    in their order, and keeps both properties of the index. *)
Theorem X5_remove_indexed (m : Manager.t) (f : Food.t) :
  unique_ids m -> bucketed m -> In f (Manager.items m) ->
  exists m' l1 l2,
    Manager.remove m f = Some m' /\
    Manager.items m = l1 ++ f :: l2 /\
    Manager.items m' = l1 ++ l2 /\
    ~ indexed m' f /\
    unique_ids m' /\ bucketed m'.
Proof.
  intros Hu Hb Hf. destruct (Hb f Hf) as (tile & B & Hin).
  destruct (remove_found m f tile Hu Hb B (contains_self tile f Hin))
    as (m' & h & l1 & l2 & Er & Eh & Hh & E1 & E2 & Hn & U & K).
  assert (h = f).
  { apply (unique_ids_eq m f h Hu Hf); [| exact Eh].
    exact (bucket_In_items m f h tile B Hh). }
  subst h. exists m', l1, l2. auto 10.
Qed.

(** X7. When [spawn_food] returns, it has created exactly [amount] food
    objects, all at the given point, with the identities [next], ...,
    [next + amount - 1] and the drawn quantities, and the index holds
    them besides what it held before. *)
Theorem X7_spawn_food (amount : nat) (fm : Manager.t) (px py : Z) (next : nat)
    (qty : nat -> Z) (fm' : Manager.t) (next' : nat) :
  spawn_food fm px py amount next qty = Some (fm', next') ->
  next' = (next + amount)%nat /\
  length (Manager.items fm') = (length (Manager.items fm) + amount)%nat /\
  (forall g, In g (Manager.items fm') <->
     In g (Manager.items fm) \/
     exists i, (next <= i < next + amount)%nat /\ g = Food.mk i px py (qty i)).
Proof. exact (spawn_food_spec amount fm px py next qty fm' next'). Qed.

(** X8. The invariants of the food index are kept by every run of the
    loop: the identities in the index stay pairwise distinct, every object
    stays in the bucket of its coordinates (and so in one bucket only), and
    all identities stay below the next one to be handed out. *)
Theorem X8_index_invariants (fs : list Frame) (w w' : World) :
  unique_ids (food_manager w) -> bucketed (food_manager w) -> ids_below w ->
  run fs w = Some w' ->
  unique_ids (food_manager w') /\ bucketed (food_manager w') /\ ids_below w'.
Proof.
  intros Hu Hb Hi H.
  exact (run_inv fs w w' (conj Hu (conj Hb Hi)) H).
Qed.

Lemma update_bucket_total (m : Manager.t) (f : Food.t) (tile : list Food.t)
    (upd : list Food.t -> list Food.t) :
  bucket_of m f = Some tile -> exists m', update_bucket m f upd = Some m'.
Proof.
  unfold bucket_of, update_bucket, bind. intros B.
  destruct (py_get m (Food.x f / 10)) as [row |] eqn:Er; [| discriminate].
  rewrite B. destruct (py_get_inv _ _ _ B) as (k & Nk & _).
  destruct (py_get_inv _ _ _ Er) as (n & Nn & _).
  unfold py_set at 1. rewrite Nk. cbn [bind]. unfold py_set. rewrite Nn. cbn [bind]. eauto.
Qed.

Lemma bucket_exists_iff (m : Manager.t) (f : Food.t) :
  grid_shape m ->
  ((exists tile, bucket_of m f = Some tile) <->
   (- (WIDTH / 10) <= Food.x f / 10 < WIDTH / 10 /\
    - (HEIGHT / 10) <= Food.y f / 10 < HEIGHT / 10)%Z).
Proof.
  intros Hg. pose proof (grid_width m Hg) as Hw. unfold bucket_of. split.
  - intros (tile & H). unfold bind in H.
    destruct (py_get m (Food.x f / 10)) as [row |] eqn:Er; [| discriminate].
    pose proof (grid_height m _ row Hg Er) as Hh.
    destruct (py_get_inv _ _ _ Er) as (n & Nn & _).
    destruct (py_get_inv _ _ _ H) as (k & Nk & _).
    destruct (py_norm_cases (length m) (Food.x f / 10)) as [[? _] | [[? _] | [_ E]]];
      [| | congruence];
      (destruct (py_norm_cases (length row) (Food.y f / 10)) as [[? _] | [[? _] | [_ E]]];
       [| | congruence]); lia.
  - intros [Hx Hy]. rewrite <- Hw in Hx.
    destruct (py_get_in_range m _ Hx) as (row & Er). rewrite Er. cbn [bind].
    pose proof (grid_height m _ row Hg Er) as Hh. rewrite <- Hh in Hy.
    exact (py_get_in_range row _ Hy).
Qed.

Lemma add_succeeds_bucket (m : Manager.t) (f : Food.t) :
  (exists m', Manager.add m f = Some m') <-> (exists tile, bucket_of m f = Some tile).
Proof.
  split.
  - intros (m' & H). destruct (add_spec _ _ _ H) as (tile & _ & _ & B & _). eauto.
  - intros (tile & B). rewrite add_is_update. exact (update_bucket_total m f tile _ B).
Qed.

Lemma remove_succeeds_bucket (m : Manager.t) (f : Food.t) :
  (exists m', Manager.remove m f = Some m') <-> (exists tile, bucket_of m f = Some tile).
Proof.
  split.
  - intros (m' & H). unfold Manager.remove, bucket_of in *. unfold bind in *.
    destruct (py_get m (Food.x f / 10)) as [row |]; [| discriminate].
    destruct (py_get row (Food.y f / 10)) as [tile |]; [eauto | discriminate].
  - intros (tile & B). rewrite (remove_is_update m f tile B).
    destruct (Manager.contains tile f); [| eauto].
    exact (update_bucket_total m f tile _ B).
Qed.

(** X2. On a grid of the shape [Manager.__init__] builds, [Manager.add] and
    [Manager.remove] return (instead of raising [IndexError]) exactly for
    the food objects whose cell indices [x // 10] and [y // 10] a Python
    list of the grid's size accepts: from minus the size up to the size
    minus one. *)
Theorem X2_index_error_iff (m : Manager.t) (f : Food.t) :
  grid_shape m ->
  ((exists m', Manager.add m f = Some m') <->
   (- (WIDTH / 10) <= Food.x f / 10 < WIDTH / 10 /\
    - (HEIGHT / 10) <= Food.y f / 10 < HEIGHT / 10)%Z) /\
  ((exists m', Manager.remove m f = Some m') <->
   (- (WIDTH / 10) <= Food.x f / 10 < WIDTH / 10 /\
    - (HEIGHT / 10) <= Food.y f / 10 < HEIGHT / 10)%Z).
Proof.
  intros Hg. rewrite add_succeeds_bucket, remove_succeeds_bucket.
  split; apply bucket_exists_iff; exact Hg.
Qed.

Lemma remove_length (m m' : Manager.t) (f : Food.t) :
  Manager.remove m f = Some m' ->
  length (Manager.items m') = length (Manager.items m) \/
  S (length (Manager.items m')) = length (Manager.items m).
Proof.
  intros H.
  destruct (proj1 (remove_succeeds_bucket m f) (ex_intro _ m' H)) as (tile & B).
  rewrite (remove_is_update m f tile B) in H.
  destruct (Manager.contains tile f) eqn:Hc; [| some_inv; left; reflexivity].
  destruct (update_bucket_spec _ _ _ _ H) as (tile' & pre & post & B0 & _ & E & E' & _).
  assert (tile' = tile) by congruence. subst tile'.
  destruct (list_remove_split tile f Hc) as (t1 & h & t2 & -> & _ & Erm).
  right. rewrite E, E', Erm. repeat (rewrite length_app || cbn [length]). lia.
Qed.

Lemma move_items_length (a : Ant.t) (c : Colony.t) (fm : Manager.t) (d : MoveDraws)
    (a' : Ant.t) (c' : Colony.t) (fm' : Manager.t) :
  Ant.move a c fm d = Some (a', c', fm') ->
  (length (Manager.items fm') <= length (Manager.items fm) <= S (length (Manager.items fm')))%nat.
Proof.
  intros H. apply move_phases in H as (a1 & c1 & Hs & _).
  unfold Ant.step in Hs.
  destruct (Ant.has_food _); [break_if; some_inv; lia |].
  destruct (Ant.target _) as [tg |]; [| some_inv; lia].
  break_if; [| some_inv; lia].
  unfold bind in Hs. destruct (Manager.remove fm tg) as [fm1 |] eqn:Er; [| discriminate].
  some_inv. apply remove_length in Er. lia.
Qed.

Lemma move_all_items_length (l : list Ant.t) :
  forall i c fm draws l' c' fm',
  move_all l i c fm draws = Some (l', c', fm') ->
  (length (Manager.items fm') <= length (Manager.items fm)
     <= length (Manager.items fm') + length l)%nat.
Proof.
  induction l as [| a rest IH]; intros i c fm draws l' c' fm' H; cbn [move_all] in H.
  - some_inv. cbn. lia.
  - unfold bind in H.
    destruct (Ant.move a c fm (draws i)) as [[[a1 c1] fm1] |] eqn:Hm; [| discriminate].
    destruct (move_all rest (S i) c1 fm1 draws) as [[[r2 c2] fm2] |] eqn:Hr; [| discriminate].
    some_inv. apply move_items_length in Hm. apply IH in Hr. cbn [length]. lia.
Qed.

Lemma handle_clicks_length (cs : list (Z * Z)) :
  forall fm next qty fm' next',
  handle_clicks cs fm next qty = Some (fm', next') ->
  length (Manager.items fm') =
    (length (Manager.items fm) + FOOD_SPAWN_AMOUNT_PER_CLICK * length cs)%nat /\
  next' = (next + FOOD_SPAWN_AMOUNT_PER_CLICK * length cs)%nat.
Proof.
  induction cs as [| [cx cy] rest IH]; intros fm next qty fm' next' H;
    cbn [handle_clicks] in H.
  - some_inv. cbn [length]. lia.
  - unfold bind in H.
    destruct (spawn_food fm cx cy _ next qty) as [[fm1 next1] |] eqn:Es; [| discriminate].
    destruct (spawn_food_spec _ _ _ _ _ _ _ _ Es) as (-> & L & _).
    destruct (IH _ _ _ _ _ H) as (L' & ->). cbn [length]. lia.
Qed.

(** X10. Food balance of one iteration: food identities are handed out 50
    per click, the index gains exactly 50 objects per click, and the pass
    over the ants takes out at most one object per ant. *)
Theorem X10_food_balance (f : Frame) (w w' : World) :
  tick f w = Some w' ->
  let spawned := (FOOD_SPAWN_AMOUNT_PER_CLICK * length (clicks f))%nat in
  next_fid w' = (next_fid w + spawned)%nat /\
  (length (Manager.items (food_manager w'))
   <= length (Manager.items (food_manager w)) + spawned
   <= length (Manager.items (food_manager w')) + length (ants w'))%nat.
Proof.
  intros H. pose proof (tick_colony _ _ _ H) as (_ & _ & _ & L).
  apply tick_phases in H as (fm & Hc & Hm).
  apply handle_clicks_length in Hc as (Lc & N).
  apply move_all_items_length in Hm. cbv zeta. rewrite L. lia.
Qed.

(** X14. Harvest. An ant without food whose target, after the detection
    step, is in the index and which comes within the collection range of
    it: the call succeeds, the ant carries food and has no target, exactly
    the target has left the index (the other objects keep their order),
    and the food storage is not credited at that moment. *)
Theorem X14_harvest (a : Ant.t) (c : Colony.t) (fm : Manager.t) (d : MoveDraws) (tg : Food.t) :
  unique_ids fm -> bucketed fm ->
  Ant.has_food (Ant.sense a c fm d) = false ->
  Ant.target (Ant.sense a c fm d) = Some tg ->
  In tg (Manager.items fm) ->
  sq_dist (Ant.pos (Ant.move_toward (Ant.sense a c fm d) (Food.pos tg))) (Food.pos tg)
    < FOOD_COLLECTION_RANGE_SQUARED ->
  exists a' c' fm' l1 l2,
    Ant.move a c fm d = Some (a', c', fm') /\
    Ant.has_food a' = true /\ Ant.target a' = None /\
    Manager.items fm = l1 ++ tg :: l2 /\
    Manager.items fm' = l1 ++ l2 /\
    ~ indexed fm' tg /\
    Colony.food_storage c' = Colony.food_storage c.
Proof.
  intros Hu Hb Hf Ht Hin Hr.
  destruct (Hb tg Hin) as (tile & B & Htile).
  destruct (remove_found fm tg tile Hu Hb B (contains_self tile tg Htile))
    as (fm' & h & l1 & l2 & Er & Eh & Hh & E1 & E2 & Hn & _ & _).
  assert (h = tg).
  { apply (unique_ids_eq fm tg h Hu Hin); [| exact Eh].
    exact (bucket_In_items fm tg h tile B Hh). }
  subst h.
  set (a0 := Ant.sense a c fm d) in *.
  assert (Es : Ant.step a0 c fm d
               = Some (Ant.set_target (Ant.set_has_food (Ant.move_toward a0 (Food.pos tg)) true) None,
                       c, fm')).
  { unfold Ant.step. rewrite Hf, Ht. rewrite (Rlt_b_true _ _ Hr). rewrite Er. reflexivity. }
  pose proof (act_frame (Ant.set_target (Ant.set_has_food (Ant.move_toward a0 (Food.pos tg)) true) None) c d) as Ha.
  destruct (Ant.act _ c d) as [a2 c2] eqn:Eact.
  destruct Ha as (_ & _ & F & T & S & _).
  exists a2, c2, fm', l1, l2.
  split; [unfold Ant.move; fold a0; rewrite Es; cbn [bind]; rewrite Eact; reflexivity |].
  repeat split; auto.
Qed.

(** ** Movement *)

Lemma move_toward_dist (a : Ant.t) (p : R * R) :
  sqrt ((fst p - Ant.x a) * (fst p - Ant.x a) + (snd p - Ant.y a) * (snd p - Ant.y a))
  = distance a p.
Proof. unfold distance, sq_dist. cbn. f_equal. ring. Qed.

Lemma distance_pos (a : Ant.t) (p : R * R) : distance a p <> 0 -> 0 < distance a p.
Proof.
  intros H. destruct (sqrt_pos (sq_dist (Ant.pos a) p)) as [Hp | Hz]; [exact Hp |].
  exfalso. apply H. symmetry. exact Hz.
Qed.

Lemma distance_sqr (a : Ant.t) (p : R * R) :
  distance a p * distance a p
  = (fst p - Ant.x a) * (fst p - Ant.x a) + (snd p - Ant.y a) * (snd p - Ant.y a).
Proof.
  unfold distance. rewrite sqrt_sqrt by apply sq_dist_nonneg.
  unfold sq_dist. cbn. ring.
Qed.

(** On the spot, [move_toward] does nothing (the guard of line 185). *)
Lemma move_toward_at_point (a : Ant.t) (p : R * R) :
  distance a p = 0 -> Ant.move_toward a p = a.
Proof.
  intros H. unfold Ant.move_toward. cbv zeta.
  rewrite move_toward_dist, Rneq_b_false by exact H. reflexivity.
Qed.

(** X11. [move_toward] on the spot changes nothing (no division by zero);
    anywhere else the new distance to the point is the absolute value of
    (old distance - speed): the ant advances by exactly its speed, and when
    the speed exceeds the distance it overshoots and ends on the other
    side. *)
Theorem X11_move_toward_distance (a : Ant.t) (p : R * R) :
  (distance a p = 0 -> Ant.move_toward a p = a) /\
  (distance a p <> 0 ->
   distance (Ant.move_toward a p) p = Rabs (distance a p - Ant.speed a)).
Proof.
  split; [apply move_toward_at_point |]. intros H.
  pose proof (distance_pos a p H) as Hd0. pose proof (distance_sqr a p) as Hdd.
  set (d := distance a p) in *.
  set (dx := fst p - Ant.x a) in *. set (dy := snd p - Ant.y a) in *.
  rewrite (move_toward_value a p d Hd0 Hdd). fold dx dy.
  unfold distance at 1.
  replace (sq_dist _ p) with (Rsqr (d - Ant.speed a)); [apply sqrt_Rsqr_abs |].
  unfold sq_dist, Rsqr. cbn.
  replace (Ant.x a + dx / d * Ant.speed a - fst p) with (dx * (Ant.speed a / d - 1))
    by (unfold dx; field; lra).
  replace (Ant.y a + dy / d * Ant.speed a - snd p) with (dy * (Ant.speed a / d - 1))
    by (unfold dy; field; lra).
  replace (dx * (Ant.speed a / d - 1) * (dx * (Ant.speed a / d - 1))
           + dy * (Ant.speed a / d - 1) * (dy * (Ant.speed a / d - 1)))
    with ((dx * dx + dy * dy) * ((Ant.speed a / d - 1) * (Ant.speed a / d - 1)))
    by ring.
  rewrite <- Hdd. field. lra.
Qed.

Lemma unit_component (u v D s : R) :
  0 < D -> D * D = u * u + v * v -> 0 <= s -> Rabs (u / D * s) <= s.
Proof.
  intros HD E Hs. set (t := u / D).
  assert (Huu : t * t * (D * D) = u * u) by (unfold t; field; lra).
  assert (Hv : 0 <= v * v) by nra.
  assert (Ht : t * t <= 1).
  { apply (Rmult_le_reg_r (D * D)); [nra | lra]. }
  assert (-1 <= t <= 1) by nra.
  apply Rabs_le. nra.
Qed.

Lemma move_toward_bounded (a : Ant.t) (p : R * R) :
  0 <= Ant.speed a ->
  Rabs (Ant.x (Ant.move_toward a p) - Ant.x a) <= Ant.speed a /\
  Rabs (Ant.y (Ant.move_toward a p) - Ant.y a) <= Ant.speed a.
Proof.
  intros Hs.
  destruct (Req_dec (distance a p) 0) as [Hz | Hnz].
  - rewrite (move_toward_at_point a p Hz).
    replace (Ant.x a - Ant.x a) with 0 by ring. replace (Ant.y a - Ant.y a) with 0 by ring.
    rewrite Rabs_R0. auto.
  - pose proof (distance_pos a p Hnz) as Hd0. pose proof (distance_sqr a p) as Hdd.
    set (d := distance a p) in *.
    set (dx := fst p - Ant.x a) in *. set (dy := snd p - Ant.y a) in *.
    rewrite (move_toward_value a p d Hd0 Hdd). fold dx dy. cbn.
    replace (Ant.x a + dx / d * Ant.speed a - Ant.x a) with (dx / d * Ant.speed a) by ring.
    replace (Ant.y a + dy / d * Ant.speed a - Ant.y a) with (dy / d * Ant.speed a) by ring.
    split; [apply (unit_component dx dy d) | apply (unit_component dy dx d)];
      try assumption. rewrite Hdd. ring.
Qed.

Lemma choice_bounded (ch : Choice) (s : R) : 0 <= s -> Rabs (choice_val ch * s) <= s.
Proof. intros Hs. apply Rabs_le. destruct ch; cbn; lra. Qed.

(** X12. In one call of [move], whatever branch it takes, an ant moves by
    at most the current ant speed along each axis, and stores that speed. *)
Theorem X12_displacement (a : Ant.t) (c : Colony.t) (fm : Manager.t) (d : MoveDraws)
    (a' : Ant.t) (c' : Colony.t) (fm' : Manager.t) :
  (20 <= Colony.nest_size c)%Z ->
  Ant.move a c fm d = Some (a', c', fm') ->
  Ant.speed a' = Colony.get_ant_speed c /\
  Rabs (Ant.x a' - Ant.x a) <= Colony.get_ant_speed c /\
  Rabs (Ant.y a' - Ant.y a) <= Colony.get_ant_speed c.
Proof.
  intros Hn H.
  assert (Hs : 0 <= Colony.get_ant_speed c).
  { unfold Colony.get_ant_speed, BASE_ANT_SPEED.
    assert (0 <= IZR (Colony.nest_size c - 20)) by (apply (IZR_le 0); lia). lra. }
  apply move_phases in H as (a1 & c1 & Hstep & Hact).
  destruct (sense_frame a c fm d) as (P & S & _). cbv zeta in P, S.
  set (a0 := Ant.sense a c fm d) in *.
  assert (Px : Ant.x a0 = Ant.x a) by (injection P; auto).
  assert (Py : Ant.y a0 = Ant.y a) by (injection P; auto).
  pose proof (act_frame a1 c1 d) as Ha. rewrite Hact in Ha. destruct Ha as (P' & _).
  assert (Px' : Ant.x a' = Ant.x a1) by (injection P'; auto).
  assert (Py' : Ant.y a' = Ant.y a1) by (injection P'; auto).
  assert (S' : Ant.speed a' = Ant.speed a1).
  { unfold Ant.act in Hact. repeat break_if; some_inv; reflexivity. }
  rewrite Px', Py', S', <- Px, <- Py, <- S.
  rewrite <- S in Hs. clear - Hstep Hs.
  unfold Ant.step in Hstep.
  destruct (Ant.has_food a0).
  - destruct (move_toward_bounded a0 ANTHILL_POINT Hs) as (Bx & By).
    destruct (move_toward_frame a0 ANTHILL_POINT) as (Sp & _). cbv zeta in Sp.
    break_if; some_inv; cbn; rewrite ?Sp; auto.
  - destruct (Ant.target a0) as [tg |].
    + destruct (move_toward_bounded a0 (Food.pos tg) Hs) as (Bx & By).
      destruct (move_toward_frame a0 (Food.pos tg)) as (Sp & _). cbv zeta in Sp.
      break_if.
      * unfold bind in Hstep. destruct (Manager.remove fm tg); [| discriminate].
        some_inv. cbn. rewrite ?Sp. auto.
      * some_inv. rewrite ?Sp. auto.
    + some_inv. cbn.
      replace (Ant.x a0 + choice_val (step_x d) * Ant.speed a0 - Ant.x a0)
        with (choice_val (step_x d) * Ant.speed a0) by ring.
      replace (Ant.y a0 + choice_val (step_y d) * Ant.speed a0 - Ant.y a0)
        with (choice_val (step_y d) * Ant.speed a0) by ring.
      split; [reflexivity |]. split; apply choice_bounded; exact Hs.
Qed.

(** X13. Deposit. A call of [move] on an ant that carries food never touches
    the food index or the ant's target; if the ant ends the call within
    the collection range of the nest point, the food storage grows by the
    flat amount 20 and the ant no longer carries food; otherwise the storage
    is unchanged and the ant still carries its food. *)
Theorem X13_deposit (a : Ant.t) (c : Colony.t) (fm : Manager.t) (d : MoveDraws)
    (a' : Ant.t) (c' : Colony.t) (fm' : Manager.t) :
  Ant.has_food a = true ->
  Ant.move a c fm d = Some (a', c', fm') ->
  fm' = fm /\ Ant.target a' = Ant.target a /\
  (sq_dist (Ant.pos a') ANTHILL_POINT < FOOD_COLLECTION_RANGE_SQUARED ->
   Colony.food_storage c' = Colony.food_storage c + 20 /\ Ant.has_food a' = false) /\
  (~ sq_dist (Ant.pos a') ANTHILL_POINT < FOOD_COLLECTION_RANGE_SQUARED ->
   Colony.food_storage c' = Colony.food_storage c /\ Ant.has_food a' = true).
Proof.
  intros Hf H. apply move_phases in H as (a1 & c1 & Hs & Ha).
  pose proof (act_frame a1 c1 d) as Hact. rewrite Ha in Hact.
  destruct Hact as (P & _ & F & T & S & _).
  destruct (sense_frame a c fm d) as (_ & _ & F0 & _). cbv zeta in F0.
  assert (T0 : Ant.target (Ant.sense a c fm d) = Ant.target a).
  { unfold Ant.sense.
    destruct (update_role_frame (Ant.set_speed a (Colony.get_ant_speed c)) c d)
      as (_ & _ & Fu & Tu & _). cbv zeta in Fu, Tu. cbn in Fu, Tu.
    rewrite Fu, Hf, andb_false_r. exact Tu. }
  unfold Ant.step in Hs. rewrite F0, Hf in Hs.
  destruct (move_toward_frame (Ant.sense a c fm d) ANTHILL_POINT) as (_ & _ & Fm & Tm & _).
  cbv zeta in Fm, Tm.
  rewrite P, F, T, S.
  destruct (Rlt_dec (sq_dist (Ant.pos (Ant.move_toward (Ant.sense a c fm d) ANTHILL_POINT))
                       ANTHILL_POINT) FOOD_COLLECTION_RANGE_SQUARED) as [Hin | Hout].
  - rewrite (Rlt_b_true _ _ Hin) in Hs. some_inv. cbn.
    repeat split; try congruence; intros; contradiction.
  - rewrite (Rlt_b_false _ _ Hout) in Hs. some_inv.
    repeat split; try congruence; intros; contradiction.
Qed.

(** ** Roles and targets *)

(** X16. A call of [move] changes the role of an ant in two cases only: the
    food storage is below [CRITICAL_FOOD_LEVEL] (the new role is scavenger),
    or it is above [OPTIMAL_FOOD_LEVEL] and the switch draw is below 0.1 (the
    new role is builder exactly when the role draw is below 0.3). Between
    the two levels the role never changes. *)
Theorem X16_role_change (a : Ant.t) (c : Colony.t) (fm : Manager.t) (d : MoveDraws)
    (a' : Ant.t) (c' : Colony.t) (fm' : Manager.t) :
  Ant.move a c fm d = Some (a', c', fm') ->
  Ant.role a' <> Ant.role a ->
  (Colony.food_storage c < CRITICAL_FOOD_LEVEL /\ Ant.role a' = scavenger) \/
  (Colony.food_storage c > OPTIMAL_FOOD_LEVEL /\ switch_draw d < 1 / 10 /\
   (role_draw d < 3 / 10 <-> Ant.role a' = builder)).
Proof.
  intros H. rewrite (move_role _ _ _ _ _ _ _ H). unfold Ant.update_role.
  destruct (Rlt_dec (Colony.food_storage c) CRITICAL_FOOD_LEVEL) as [Hc | Hc].
  - rewrite (Rlt_b_true _ _ Hc). intros _. left. auto.
  - rewrite (Rlt_b_false _ _ Hc).
    destruct (Rgt_dec (Colony.food_storage c) OPTIMAL_FOOD_LEVEL) as [Ho | Ho].
    + rewrite (Rgt_b_true _ _ Ho).
      destruct (Rlt_dec (switch_draw d) (1 / 10)) as [Hsw | Hsw].
      * rewrite (Rlt_b_true _ _ Hsw). intros _. right. split; [exact Ho |]. split; [exact Hsw |].
        cbn. destruct (Rlt_dec (role_draw d) (3 / 10)) as [Hr | Hr].
        -- rewrite (Rlt_b_true _ _ Hr). tauto.
        -- rewrite (Rlt_b_false _ _ Hr). split; [tauto | discriminate].
      * rewrite (Rlt_b_false _ _ Hsw). intros E. exfalso. apply E. reflexivity.
    + rewrite (Rgt_b_false _ _ Ho). intros E. exfalso. apply E. reflexivity.
Qed.

(** ** Growth, speed and building progress *)

Lemma update_spawn_iff (c : Colony.t) (l : list Ant.t) (g n : R) :
  let c1 := fst (Colony_update c l g n) in
  (Colony.food_storage c1 > OPTIMAL_FOOD_LEVEL /\
   (Z.of_nat (length l) < MAX_COLONY_SIZE)%Z /\ g < COLONY_GROWTH_RATE) <->
  snd (Colony_update c l g n)
  = Some (Ant.init (fst ANTHILL_POINT) (snd ANTHILL_POINT) c1 n).
Proof.
  cbv zeta. split.
  - intros (H1 & H2 & H3). unfold Colony_update in *.
    match goal with |- context [if ?b then (?u, Some ?v) else _] =>
      destruct b eqn:E; cbn [fst snd] in *; [reflexivity |] end.
    exfalso. rewrite (Rgt_b_true _ _ H1), (Rlt_b_true _ _ H3) in E.
    apply Z.ltb_lt in H2. rewrite H2 in E. discriminate.
  - intros H. destruct (update_spawn_below_cap c l g n _ H) as (A & B & C). auto.
Qed.

(** X17. An iteration adds an ant exactly when, after consumption, the food
    storage exceeds [OPTIMAL_FOOD_LEVEL], the number of ants is below
    [MAX_COLONY_SIZE] and the growth draw is below [COLONY_GROWTH_RATE]. The
    new ant is created at the nest point, is last in the list, and is
    moved in the very same iteration. *)
Theorem X17_growth (f : Frame) (w w' : World) :
  tick f w = Some w' ->
  let c1 := fst (Colony_update (colony w) (ants w) (growth_draw f) (newborn_draw f)) in
  let grows :=
    Colony.food_storage c1 > OPTIMAL_FOOD_LEVEL /\
    (Z.of_nat (length (ants w)) < MAX_COLONY_SIZE)%Z /\
    growth_draw f < COLONY_GROWTH_RATE in
  (length (ants w') = S (length (ants w)) <-> grows) /\
  (grows ->
   exists ck fmk a' ck' fmk',
     Ant.move (Ant.init (fst ANTHILL_POINT) (snd ANTHILL_POINT) c1 (newborn_draw f))
       ck fmk (move_draws f (length (ants w))) = Some (a', ck', fmk') /\
     nth_error (ants w') (length (ants w)) = Some a').
Proof.
  intros H. cbv zeta.
  pose proof (tick_colony _ _ _ H) as (_ & _ & _ & L).
  apply tick_phases in H as (fm & _ & Hm).
  pose proof (update_spawn_iff (colony w) (ants w) (growth_draw f) (newborn_draw f)) as Hiff.
  cbv zeta in Hiff. split.
  - rewrite L. unfold ants_after_update. rewrite Hiff.
    destruct (snd (Colony_update _ _ _ _)) as [b |] eqn:E.
    + rewrite length_app. cbn [length]. split; intros Hx; [| lia].
      destruct (update_spawn_below_cap _ _ _ _ _ E) as (A & B & C).
      apply Hiff. auto.
    + split; [lia | discriminate].
  - intros Hg. apply Hiff in Hg.
    assert (Hk : nth_error (ants_after_update w f) (length (ants w))
                 = Some (Ant.init (fst ANTHILL_POINT) (snd ANTHILL_POINT)
                           (fst (Colony_update (colony w) (ants w) (growth_draw f) (newborn_draw f)))
                           (newborn_draw f))).
    { unfold ants_after_update. rewrite Hg.
      rewrite nth_error_app2 by lia. rewrite Nat.sub_diag. reflexivity. }
    destruct (move_all_nth _ _ _ _ _ _ _ _ _ _ Hm Hk)
      as (ck & fmk & a' & ck' & fmk' & _ & M & E).
    exists ck, fmk, a', ck', fmk'. auto.
Qed.

Lemma speed_of_nest (c1 c2 : Colony.t) :
  Colony.nest_size c1 = Colony.nest_size c2 ->
  Colony.get_ant_speed c1 = Colony.get_ant_speed c2.
Proof. intros H. unfold Colony.get_ant_speed. rewrite H. reflexivity. Qed.

Lemma move_speed (a : Ant.t) (c : Colony.t) (fm : Manager.t) (d : MoveDraws)
    (a' : Ant.t) (c' : Colony.t) (fm' : Manager.t) :
  Ant.move a c fm d = Some (a', c', fm') ->
  Ant.speed a' = Colony.get_ant_speed c.
Proof.
  intros H. apply move_phases in H as (a1 & c1 & Hs & Ha).
  destruct (sense_frame a c fm d) as (_ & S & _). cbv zeta in S.
  assert (S1 : Ant.speed a1 = Ant.speed (Ant.sense a c fm d)).
  { unfold Ant.step in Hs.
    destruct (move_toward_frame (Ant.sense a c fm d) ANTHILL_POINT) as (Sp & _).
    destruct (Ant.has_food _); [break_if; some_inv; cbn; auto |].
    destruct (Ant.target _) as [tg |]; [| some_inv; reflexivity].
    destruct (move_toward_frame (Ant.sense a c fm d) (Food.pos tg)) as (Sp' & _).
    break_if; [| some_inv; auto].
    unfold bind in Hs. destruct (Manager.remove fm tg); [| discriminate].
    some_inv. cbn. auto. }
  assert (S' : Ant.speed a' = Ant.speed a1).
  { unfold Ant.act in Ha. repeat break_if; some_inv; reflexivity. }
  congruence.
Qed.

Lemma move_all_speed (l : list Ant.t) :
  forall i c fm draws l' c' fm',
  move_all l i c fm draws = Some (l', c', fm') ->
  Forall (fun a => Ant.speed a = Colony.get_ant_speed c) l'.
Proof.
  induction l as [| a rest IH]; intros i c fm draws l' c' fm' H; cbn [move_all] in H.
  - some_inv. constructor.
  - unfold bind in H.
    destruct (Ant.move a c fm (draws i)) as [[[a1 c1] fm1] |] eqn:Hm; [| discriminate].
    destruct (move_all rest (S i) c1 fm1 draws) as [[[r2 c2] fm2] |] eqn:Hr; [| discriminate].
    some_inv. constructor; [exact (move_speed _ _ _ _ _ _ _ Hm) |].
    apply move_colony in Hm as (N & _).
    rewrite <- (speed_of_nest c1 c N). exact (IH _ _ _ _ _ _ _ Hr).
Qed.

(** X18. In every state reached from the initial colony, after an
    iteration all ants store the same speed, the one
    [Colony.get_ant_speed] gives for the current nest size; that speed never
    decreases from one iteration to the next and stays between 1 and 2.8. *)
Theorem X18_speed (fs : list Frame) (f : Frame) (w0 w w' : World) :
  colony w0 = Colony.init ->
  run fs w0 = Some w ->
  tick f w = Some w' ->
  Forall (fun a => Ant.speed a = Colony.get_ant_speed (colony w')) (ants w') /\
  1 <= Colony.get_ant_speed (colony w) /\
  Colony.get_ant_speed (colony w) <= Colony.get_ant_speed (colony w') /\
  Colony.get_ant_speed (colony w') <= 28 / 10.
Proof.
  intros H0 Hr Ht.
  pose proof (run_from_init_nest_size fs w0 w H0 Hr) as Hn.
  pose proof (tick_nest_size _ _ _ Ht) as ([L _] & B).
  pose proof (tick_colony _ _ _ Ht) as (N & _). cbv zeta in N.
  split.
  - apply tick_phases in Ht as (fm & _ & Hm). apply move_all_speed in Hm.
    rewrite (speed_of_nest _ _ N). exact Hm.
  - assert (Hn' : (20 <= Colony.nest_size (colony w') <= MAX_NEST_SIZE)%Z) by lia.
    pose proof (get_ant_speed_bounds _ Hn). pose proof (get_ant_speed_bounds _ Hn').
    split; [lra |]. split; [| lra].
    unfold Colony.get_ant_speed, BASE_ANT_SPEED.
    assert (IZR (Colony.nest_size (colony w) - 20) <= IZR (Colony.nest_size (colony w') - 20))
      by (apply IZR_le; lia).
    lra.
Qed.

Lemma move_building_progress (a : Ant.t) (c : Colony.t) (fm : Manager.t) (d : MoveDraws)
    (a' : Ant.t) (c' : Colony.t) (fm' : Manager.t) :
  Ant.move a c fm d = Some (a', c', fm') ->
  Colony.building_progress c' = Colony.building_progress c \/
  Colony.building_progress c' = Colony.building_progress c + BUILD_EFFICIENCY.
Proof.
  intros H. apply move_phases in H as (a1 & c1 & Hs & Ha).
  apply step_frame in Hs as (_ & _ & _ & B & _). rewrite <- B.
  unfold Ant.act, Ant.build in Ha. repeat break_if; some_inv; cbn; auto.
Qed.

Lemma move_all_building_progress (l : list Ant.t) :
  forall i c fm draws l' c' fm',
  move_all l i c fm draws = Some (l', c', fm') ->
  Colony.building_progress c <= Colony.building_progress c'
    <= Colony.building_progress c + BUILD_EFFICIENCY * INR (length l).
Proof.
  induction l as [| a rest IH]; intros i c fm draws l' c' fm' H; cbn [move_all] in H.
  - some_inv. cbn. lra.
  - unfold bind in H.
    destruct (Ant.move a c fm (draws i)) as [[[a1 c1] fm1] |] eqn:Hm; [| discriminate].
    destruct (move_all rest (S i) c1 fm1 draws) as [[[r2 c2] fm2] |] eqn:Hr; [| discriminate].
    some_inv. apply move_building_progress in Hm. apply IH in Hr.
    change (length (a :: rest)) with (S (length rest)). rewrite S_INR.
    unfold BUILD_EFFICIENCY in *. pose proof (pos_INR (length rest)).
    destruct Hm as [Hm | Hm]; rewrite Hm in Hr; lra.
Qed.

(** X19. Over an iteration the building progress stays non-negative; while
    the nest can still grow it ends below 100 + 0.2 per ant; and once the
    nest size has reached [MAX_NEST_SIZE] it is never reset again and only
    accumulates. *)
Theorem X19_building_progress (f : Frame) (w w' : World) :
  tick f w = Some w' ->
  (0 <= Colony.building_progress (colony w) -> 0 <= Colony.building_progress (colony w')) /\
  ((Colony.nest_size (colony w) < MAX_NEST_SIZE)%Z ->
   Colony.building_progress (colony w') < 100 + BUILD_EFFICIENCY * INR (length (ants w'))) /\
  ((MAX_NEST_SIZE <= Colony.nest_size (colony w))%Z ->
   Colony.building_progress (colony w) <= Colony.building_progress (colony w')).
Proof.
  intros H. pose proof (tick_colony _ _ _ H) as (_ & _ & _ & L).
  apply tick_phases in H as (fm & _ & Hm).
  apply move_all_building_progress in Hm. rewrite <- L in Hm.
  set (c1 := fst (Colony_update (colony w) (ants w) (growth_draw f) (newborn_draw f))) in *.
  destruct (Rge_dec (Colony.building_progress (colony w)) 100) as [Hb | Hb];
    [destruct (Z_lt_ge_dec (Colony.nest_size (colony w)) MAX_NEST_SIZE) as [Hn | Hn] |].
  - destruct (update_nest_size_grow (colony w) (ants w) (growth_draw f) (newborn_draw f) Hb Hn)
      as (_ & E). fold c1 in E. rewrite E in Hm.
    repeat split; intros; try lra; lia.
  - destruct (update_nest_size_keep (colony w) (ants w) (growth_draw f) (newborn_draw f))
      as (_ & E); [intros [_ ?]; lia |]. fold c1 in E. rewrite E in Hm.
    repeat split; intros; try lra; lia.
  - destruct (update_nest_size_keep (colony w) (ants w) (growth_draw f) (newborn_draw f))
      as (_ & E); [intros [? _]; contradiction |]. fold c1 in E. rewrite E in Hm.
    repeat split; intros; lra.
Qed.

Lemma scan_tile_in_range (a : Ant.t) (l : list Food.t) (f : Food.t) :
  Ant.scan_tile a l = Some f -> in_range a f.
Proof.
  induction l as [| g rest IH]; cbn; [discriminate |].
  destruct (Rlt_b _ _) eqn:E; intros H; [| auto].
  some_inv. apply Rlt_b_iff in E. exact E.
Qed.

(** X15. The detection step of [move] either leaves the target as it is, or
    sets it to a food object that is in the index and strictly within the
    detection range, and it does the latter only for a scavenger that does
    not carry food. *)
Theorem X15_targeting (a : Ant.t) (c : Colony.t) (fm : Manager.t) (d : MoveDraws) :
  Ant.target (Ant.sense a c fm d) = Ant.target a \/
  exists f,
    Ant.target (Ant.sense a c fm d) = Some f /\
    In f (Manager.items fm) /\ in_range a f /\
    Ant.role (Ant.sense a c fm d) = scavenger /\ Ant.has_food a = false.
Proof.
  unfold Ant.sense.
  destruct (update_role_frame (Ant.set_speed a (Colony.get_ant_speed c)) c d)
    as (P & _ & F & T & _). cbv zeta in P, F, T. cbn in P, F, T.
  set (a1 := Ant.update_role (Ant.set_speed a (Colony.get_ant_speed c)) c d) in *.
  destruct (Ant.is_scavenger a1 && negb (Ant.has_food a1)) eqn:E; [| left; exact T].
  apply andb_prop in E as [Es Ef].
  unfold Ant.find_food. rewrite scan_grid_items.
  destruct (Ant.scan_tile a1 (Manager.items fm)) as [f |] eqn:Sc; [right | left; exact T].
  exists f. cbn. split; [reflexivity |]. split; [exact (scan_tile_In _ _ _ Sc) |].
  split; [| split].
  - apply scan_tile_in_range in Sc. unfold in_range, Ant.pos in *.
    injection P as Px Py. rewrite <- Px, <- Py. exact Sc.
  - unfold Ant.is_scavenger in Es. destruct (Ant.role a1); [discriminate | reflexivity].
  - rewrite <- F. destruct (Ant.has_food a1); [discriminate | reflexivity].
Qed.

(** ** The whole program *)

(** X9. The program never raises [IndexError] as long as all clicks lie in
    the window: [main] builds its initial state, every iteration returns a
    state, and in the state reached the grid has its shape, all food lies in
    the window, the invariants of the index hold, there are between 100 and
    500 ants and the nest size is between 20 and 200. *)
Theorem X9_main_never_fails (role_draws : nat -> R) (qty : nat -> Z) (fs : list Frame) :
  Forall (fun f => Forall (fun c => in_window (fst c) (snd c)) (clicks f)) fs ->
  exists w0 w,
    main_init role_draws qty = Some w0 /\
    run fs w0 = Some w /\
    world_ok w /\
    index_inv (food_manager w) (next_fid w) /\
    (INITIAL_COLONY_SIZE <= Z.of_nat (length (ants w)) <= MAX_COLONY_SIZE)%Z /\
    (20 <= Colony.nest_size (colony w) <= MAX_NEST_SIZE)%Z.
Proof.
  intros Hc.
  destruct (main_init_total role_draws qty) as (w0 & E0 & Hok & Hcol & Hlen).
  destruct (run_total fs w0 Hok Hc) as (w & Er & Hok').
  destruct (main_init_inv role_draws qty w0 E0) as (Hinv & _).
  exists w0, w. split; [exact E0 |]. split; [exact Er |]. split; [exact Hok' |].
  split; [exact (run_inv fs w0 w Hinv Er) |]. split.
  - destruct (run_ants_length fs w0 w Er) as (L & B).
    split; [rewrite <- Hlen; lia |]. apply B. rewrite Hlen.
    unfold INITIAL_COLONY_SIZE, MAX_COLONY_SIZE. lia.
  - exact (run_from_init_nest_size fs w0 w Hcol Er).
Qed.

(** ** Pheromones *)

Lemma decay_strength (p : Pheromone.t) :
  Pheromone.strength (Pheromone.decay p) = Z.max 0 (Pheromone.strength p - 1).
Proof.
  unfold Pheromone.decay. cbn.
  destruct (Z.ltb_spec (Pheromone.strength p - 1) 0); lia.
Qed.

Lemma decay_iter_strength (p : Pheromone.t) (n : nat) :
  Pheromone.strength (Nat.iter (S n) Pheromone.decay p)
  = Z.max 0 (Pheromone.strength p - Z.of_nat (S n)).
Proof.
  induction n as [| n IH].
  - cbn [Nat.iter]. rewrite decay_strength. f_equal.
  - change (Nat.iter (S (S n)) Pheromone.decay p)
      with (Pheromone.decay (Nat.iter (S n) Pheromone.decay p)).
    rewrite decay_strength, IH. lia.
Qed.

Lemma decay_iter_place (p : Pheromone.t) (n : nat) :
  Pheromone.x (Nat.iter n Pheromone.decay p) = Pheromone.x p /\
  Pheromone.y (Nat.iter n Pheromone.decay p) = Pheromone.y p.
Proof.
  induction n as [| n [Ix Iy]]; [split; reflexivity |].
  cbn [Nat.iter]. split; [rewrite <- Ix | rewrite <- Iy]; reflexivity.
Qed.

(** X20. [Pheromone.decay] never leaves a negative strength and never moves
    the marker; [n + 1] decays in a row leave the strength
    max(0, strength - (n + 1)), whatever the strength was, so a marker
    created with the default strength 100 is drawn after each of the first
    99 decays and no longer from the 100th on. *)
Theorem X20_pheromone_decay (p : Pheromone.t) (n : nat) :
  let q := Nat.iter (S n) Pheromone.decay p in
  Pheromone.strength q = Z.max 0 (Pheromone.strength p - Z.of_nat (S n)) /\
  (0 <= Pheromone.strength q)%Z /\
  Pheromone.x q = Pheromone.x p /\ Pheromone.y q = Pheromone.y p /\
  (Pheromone.strength p = PHEROMONE_STRENGTH ->
   (Pheromone.visible q = true <-> (S n < 100)%nat)).
Proof.
  cbv zeta. pose proof (decay_iter_strength p n) as Hs.
  destruct (decay_iter_place p (S n)) as [Hx Hy].
  split; [exact Hs |]. split; [rewrite Hs; lia |].
  split; [exact Hx |]. split; [exact Hy |].
  intros E. unfold Pheromone.visible. rewrite Hs, E. unfold PHEROMONE_STRENGTH.
  rewrite Z.ltb_lt. lia.
Qed.

(** * Concrete runs *)

(** ** Evaluating the program on explicit states *)

Lemma ant_eq (x y s x' y' s' : R) (r : Role) (b h : bool) (t : option Food.t) :
  x = x' -> y = y' -> s = s' -> Ant.mk x y s r b h t = Ant.mk x' y' s' r b h t.
Proof. intros; subst; reflexivity. Qed.

Lemma colony_eq (f b f' b' : R) (n p : Z) :
  f = f' -> b = b' -> Colony.mk f n p b = Colony.mk f' n p b'.
Proof. intros; subst; reflexivity. Qed.

Lemma pair_eq {A B} (a a' : A) (b b' : B) : a = a' -> b = b' -> (a, b) = (a', b').
Proof. intros; subst; reflexivity. Qed.

Lemma tick_value (f : Frame) (w : World) (fm : Manager.t) (next : nat)
    (c : Colony.t) (new_ant : option Ant.t)
    (l2 : list Ant.t) (c2 : Colony.t) (fm2 : Manager.t) :
  handle_clicks (clicks f) (food_manager w) (next_fid w) (quantity f) = Some (fm, next) ->
  Colony_update (colony w) (ants w) (growth_draw f) (newborn_draw f) = (c, new_ant) ->
  move_all (match new_ant with Some a => ants w ++ [a] | None => ants w end)
    0 c fm (move_draws f) = Some (l2, c2, fm2) ->
  tick f w = Some (mkWorld c2 l2 fm2 next).
Proof. intros H1 H2 H3. unfold tick. rewrite H1. cbn [bind]. rewrite H2, H3. reflexivity. Qed.

Lemma move_all_value (a : Ant.t) (rest : list Ant.t) (i : nat) (c : Colony.t)
    (fm : Manager.t) (draws : nat -> MoveDraws)
    (a' : Ant.t) (c' : Colony.t) (fm' : Manager.t)
    (rest' : list Ant.t) (c'' : Colony.t) (fm'' : Manager.t) :
  Ant.move a c fm (draws i) = Some (a', c', fm') ->
  move_all rest (S i) c' fm' draws = Some (rest', c'', fm'') ->
  move_all (a :: rest) i c fm draws = Some (a' :: rest', c'', fm'').
Proof. intros H1 H2. cbn [move_all]. rewrite H1. cbn [bind]. rewrite H2. reflexivity. Qed.

(** Closes an arithmetic side condition on explicit numbers. *)
Ltac rsolve :=
  cbn;
  unfold in_range, distance;
  unfold CRITICAL_FOOD_LEVEL, OPTIMAL_FOOD_LEVEL, FOOD_DETECTION_RANGE_SQUARED,
    FOOD_COLLECTION_RANGE_SQUARED, BUILD_RANGE, BUILD_EFFICIENCY, COLONY_GROWTH_RATE,
    FOOD_CONSUMPTION_RATE, INITIAL_FOOD_STORAGE, Colony.get_ant_speed, BASE_ANT_SPEED,
    sq_dist, choice_val;
  cbn;
  solve [lra | unfold Rmax; repeat destruct (Rle_dec _ _); lra].

(** Decides one comparison of the goal. *)
Ltac rdecide :=
  match goal with
  | |- context [Rlt_b ?a ?b] =>
      first [rewrite (Rlt_b_true a b) by rsolve | rewrite (Rlt_b_false a b) by rsolve]
  | |- context [Rgt_b ?a ?b] =>
      first [rewrite (Rgt_b_true a b) by rsolve | rewrite (Rgt_b_false a b) by rsolve]
  | |- context [Rge_b ?a ?b] =>
      first [rewrite (Rge_b_true a b) by rsolve | rewrite (Rge_b_false a b) by rsolve]
  | |- context [Rneq_b ?a ?b] =>
      first [rewrite (Rneq_b_true a b) by rsolve | rewrite (Rneq_b_false a b) by rsolve]
  end.

(** Equality of explicit states, field by field. *)
Ltac state_eq :=
  cbn;
  repeat first
    [ reflexivity
    | rsolve
    | apply (f_equal (@Some _))
    | apply ant_eq
    | apply colony_eq
    | apply pair_eq ].

(** Reduces the projections and setters of explicit records. *)
Ltac fields :=
  cbn [Ant.x Ant.y Ant.speed Ant.role Ant.building Ant.has_food Ant.target Ant.pos
       Ant.set_pos Ant.set_speed Ant.set_role Ant.set_building Ant.set_has_food
       Ant.set_target Ant.is_scavenger Ant.is_builder
       Colony.food_storage Colony.nest_size Colony.population Colony.building_progress
       Colony.set_food_storage Colony.set_nest_size Colony.set_building_progress
       Food.x Food.y Food.pos fst snd andb negb bind
       switch_draw role_draw step_x step_y build_draw].

Lemma run_cons_value (f : Frame) (fs : list Frame) (w w1 w2 : World) :
  tick f w = Some w1 -> run fs w1 = Some w2 -> run (f :: fs) w = Some w2.
Proof. intros H1 H2. cbn [run]. rewrite H1. exact H2. Qed.

(** ** The food indexes of the runs *)

Lemma items_one_item : Manager.items one_item = [last_food].
Proof. vm_compute. reflexivity. Qed.

Lemma items_three_items :
  Manager.items three_items = [on_the_edge; first_found; nearest].
Proof. vm_compute. reflexivity. Qed.

Lemma remove_last : Manager.remove one_item last_food = Some Manager.init.
Proof. vm_compute. reflexivity. Qed.

Lemma remove_gone : Manager.remove Manager.init last_food = Some Manager.init.
Proof. vm_compute. reflexivity. Qed.

Lemma not_indexed_init (f : Food.t) : ~ indexed Manager.init f.
Proof. intros (g & Hg & _). rewrite items_init in Hg. exact Hg. Qed.

(** ** [Colony.update] on the colonies of the runs *)

Lemma update_calm (v : R) (l : list Ant.t) (g n : R) :
  0 <= v - IZR (Z.of_nat (length l)) * FOOD_CONSUMPTION_RATE <= 800 ->
  Colony_update (stock v) l g n
  = (stock (v - IZR (Z.of_nat (length l)) * FOOD_CONSUMPTION_RATE), None).
Proof.
  intros Hv. unfold Colony_update, stock. fields.
  rdecide. fields.
  rewrite (Rgt_b_false (Rmax 0 _) _)
    by (unfold Rmax, OPTIMAL_FOOD_LEVEL; destruct (Rle_dec _ _); lra).
  fields. apply pair_eq; [| reflexivity]. apply colony_eq; [| reflexivity].
  unfold Rmax; destruct (Rle_dec _ _); lra.
Qed.

Lemma update_calm_value (v v' : R) (l : list Ant.t) (g n : R) :
  0 <= v' <= 800 ->
  v' = v - IZR (Z.of_nat (length l)) * FOOD_CONSUMPTION_RATE ->
  Colony_update (stock v) l g n = (stock v', None).
Proof. intros Hv ->. apply update_calm. exact Hv. Qed.

Lemma update_grow :
  Colony_update Colony.init [] 0 (1 / 2) = (stock 1000, Some (scout 540 false None)).
Proof.
  unfold Colony_update, Colony.init, stock, scout. fields.
  repeat (rdecide; fields).
  cbn [andb Z.ltb length Z.of_nat Z.compare MAX_COLONY_SIZE].
  unfold Ant.init. rdecide. rewrite ANTHILL_POINT_eq. fields.
  apply pair_eq; [apply colony_eq; rsolve |].
  apply f_equal. apply ant_eq; rsolve.
Qed.

(** ** Single calls of [move] *)

(** A scavenger at the nest detects the last food object and walks one
    unit towards it; at distance 10 it does not harvest yet. *)
Lemma move_detect (v : R) :
  300 <= v <= 800 ->
  Ant.move (scout 540 false None) (stock v) one_item still
  = Some (scout 541 false (Some last_food), stock v, one_item).
Proof.
  intros Hv. unfold Ant.move, Ant.sense.
  rewrite update_role_steady by rsolve.
  unfold scout, stock, still. fields.
  unfold Ant.find_food. rewrite scan_grid_items, items_one_item.
  cbn [Ant.scan_tile]. rdecide. fields.
  unfold Ant.step. fields.
  rewrite (move_toward_value _ _ 11) by rsolve.
  fields. rdecide. fields.
  unfold Ant.act. fields.
  state_eq.
Qed.

(** The first ant to come within range harvests the object: it leaves the
    index. *)
Lemma move_harvest (v : R) :
  300 <= v <= 800 ->
  Ant.move (scout 541 false (Some last_food)) (stock v) one_item still
  = Some (scout 542 true None, stock v, Manager.init).
Proof.
  intros Hv. unfold Ant.move, Ant.sense.
  rewrite update_role_steady by rsolve.
  unfold scout, stock, still. fields.
  unfold Ant.find_food. rewrite scan_grid_items, items_one_item.
  cbn [Ant.scan_tile]. rdecide. fields.
  unfold Ant.step. fields.
  rewrite (move_toward_value _ _ 10) by rsolve.
  fields. rdecide. rewrite remove_last. fields.
  unfold Ant.act. fields.
  state_eq.
Qed.

(** What [sense] leaves of an ant whose target is gone from an empty
    index: the target is kept. *)
Lemma sense_stale (v : R) :
  300 <= v <= 800 ->
  Ant.sense (scout 541 false (Some last_food)) (stock v) Manager.init still
  = scout 541 false (Some last_food).
Proof.
  intros Hv. unfold Ant.sense.
  rewrite update_role_steady by rsolve.
  unfold scout, stock, still. fields.
  unfold Ant.find_food. rewrite scan_grid_items, items_init.
  cbn [Ant.scan_tile]. apply ant_eq; rsolve.
Qed.

(** The second ant, whose target has just left the index, picks it up
    all the same. *)
Lemma move_harvest_stale (v : R) :
  300 <= v <= 800 ->
  Ant.move (scout 541 false (Some last_food)) (stock v) Manager.init still
  = Some (scout 542 true None, stock v, Manager.init).
Proof.
  intros Hv. unfold Ant.move. rewrite (sense_stale v Hv).
  unfold scout, stock, still. fields.
  unfold Ant.step. fields.
  rewrite (move_toward_value _ _ 10) by rsolve.
  fields. rdecide. rewrite remove_gone. fields.
  unfold Ant.act. fields.
  state_eq.
Qed.

Lemma stale_within_range (v : R) :
  300 <= v <= 800 ->
  sq_dist
    (Ant.pos (Ant.move_toward
                (Ant.sense (scout 541 false (Some last_food)) (stock v) Manager.init still)
                (Food.pos last_food)))
    (Food.pos last_food)
  < FOOD_COLLECTION_RANGE_SQUARED.
Proof.
  intros Hv. rewrite (sense_stale v Hv).
  rewrite (move_toward_value _ _ 10) by rsolve. rsolve.
Qed.

(** A carrying ant two units from the nest deposits: the colony gets 20. *)
Lemma move_deposit (v : R) (fm : Manager.t) :
  300 <= v <= 800 ->
  Ant.move (scout 542 true None) (stock v) fm still
  = Some (scout 541 false None, stock (v + 20), fm).
Proof.
  intros Hv. unfold Ant.move, Ant.sense.
  rewrite update_role_steady by rsolve.
  unfold scout, stock, still. fields.
  unfold Ant.step. fields. rewrite ANTHILL_POINT_eq.
  rewrite (move_toward_value _ _ 2) by rsolve.
  fields. rdecide. fields.
  unfold Ant.act. fields.
  state_eq.
Qed.

(** Below the critical level a carrying ant deposits and lifts the storage
    above it. *)
Lemma move_deposit_critical :
  Ant.move (scout 545 true None) (stock (2898 / 10)) Manager.init still
  = Some (scout 544 false None, stock (3098 / 10), Manager.init).
Proof.
  unfold Ant.move, Ant.sense, Ant.update_role.
  unfold scout, stock, still. fields. rdecide. fields.
  unfold Ant.step. fields. rewrite ANTHILL_POINT_eq.
  rewrite (move_toward_value _ _ 5) by rsolve.
  fields. rdecide. fields.
  unfold Ant.act. fields.
  state_eq.
Qed.

(** A carrying ant 12 units from the nest walks one unit and keeps its
    food. *)
Lemma move_carry_far :
  Ant.move (scout 552 true None) (stock (4999 / 10)) Manager.init still
  = Some (scout 551 true None, stock (4999 / 10), Manager.init).
Proof.
  unfold Ant.move, Ant.sense.
  rewrite update_role_steady by rsolve.
  unfold scout, stock, still. fields.
  unfold Ant.step. fields. rewrite ANTHILL_POINT_eq.
  rewrite (move_toward_value _ _ 12) by rsolve.
  fields. rdecide. fields.
  unfold Ant.act. fields.
  state_eq.
Qed.

(** A builder between the two food levels, with draws that keep it
    still, stays a builder and stays where it is. *)
Lemma move_mason_still (v : R) :
  300 <= v <= 800 ->
  Ant.move mason (stock v) Manager.init still = Some (mason, stock v, Manager.init).
Proof.
  intros Hv. unfold Ant.move, Ant.sense.
  rewrite update_role_steady by rsolve.
  unfold mason, stock, still. fields.
  unfold Ant.step. fields.
  unfold Ant.act. fields. rdecide.
  state_eq.
Qed.

(** The same builder below the critical level is made a scavenger. *)
Lemma move_mason_critical :
  Ant.move mason (stock (2899 / 10)) Manager.init still
  = Some (scout 540 false None, stock (2899 / 10), Manager.init).
Proof.
  unfold Ant.move, Ant.sense, Ant.update_role.
  unfold mason, scout, stock, still. fields. rdecide. fields.
  unfold Ant.find_food. rewrite scan_grid_items, items_init.
  cbn [Ant.scan_tile]. fields.
  unfold Ant.step. fields.
  unfold Ant.act. fields.
  state_eq.
Qed.

(** A builder without food or target whose building draw succeeds: it
    takes its random-walk step (x goes from 480 to 481) and builds. *)
Lemma move_mason_eager :
  Ant.move mason (stock 500) Manager.init eager
  = Some (Ant.mk 481 540 1 builder true false None,
          Colony.mk 500 20 100 (2 / 10), Manager.init).
Proof.
  unfold Ant.move, Ant.sense.
  rewrite update_role_steady by rsolve.
  unfold mason, stock, eager. fields.
  unfold Ant.step. fields.
  unfold Ant.act. fields. rdecide.
  unfold Ant.build. fields. rewrite ANTHILL_POINT_eq. rdecide.
  state_eq.
Qed.

(** The ant born in this iteration moves in the same iteration. *)
Lemma move_newborn :
  Ant.move (scout 540 false None) (stock 1000) Manager.init eager
  = Some (Ant.mk 481 540 1 scavenger false false None, stock 1000, Manager.init).
Proof.
  unfold Ant.move, Ant.sense, Ant.update_role.
  unfold scout, stock, eager. fields. repeat (rdecide; fields).
  unfold Ant.find_food. rewrite scan_grid_items, items_init.
  cbn [Ant.scan_tile]. fields.
  unfold Ant.step. fields.
  unfold Ant.act. fields.
  state_eq.
Qed.

(** Scenario C: one build in range lifts the progress from 99.9 to
    100.1. *)
Lemma build_crosses_100 :
  Ant.build mason nearly_built = Colony.mk 1000 20 100 (1001 / 10).
Proof.
  unfold Ant.build, mason, nearly_built. fields. rewrite ANTHILL_POINT_eq.
  rdecide. fields. apply colony_eq; rsolve.
Qed.

(** ** Whole iterations *)

(** Two scavengers at the nest, one food object left: both take it as
    target. *)
Lemma tick_pile_1 :
  tick calm (pile 500 (scout 540 false None) (scout 540 false None) one_item)
  = Some (pile (4998 / 10) (scout 541 false (Some last_food))
               (scout 541 false (Some last_food)) one_item).
Proof.
  unfold pile. eapply tick_value.
  - reflexivity.
  - apply (update_calm_value 500 (4998 / 10)); rsolve.
  - eapply move_all_value; [apply move_detect; rsolve |].
    eapply move_all_value; [apply move_detect; rsolve |]. reflexivity.
Qed.

(** The first ant harvests the object, the second one picks it up again
    from the emptied index. *)
Lemma tick_pile_2 :
  tick calm (pile (4998 / 10) (scout 541 false (Some last_food))
                  (scout 541 false (Some last_food)) one_item)
  = Some (pile (4996 / 10) (scout 542 true None) (scout 542 true None) Manager.init).
Proof.
  unfold pile. eapply tick_value.
  - reflexivity.
  - apply (update_calm_value (4998 / 10) (4996 / 10)); rsolve.
  - eapply move_all_value; [apply move_harvest; rsolve |].
    eapply move_all_value; [apply move_harvest_stale; rsolve |]. reflexivity.
Qed.

(** Both ants deposit: 40 for one food object. *)
Lemma tick_pile_3 :
  tick calm (pile (4996 / 10) (scout 542 true None) (scout 542 true None) Manager.init)
  = Some (pile (5394 / 10) (scout 541 false None) (scout 541 false None) Manager.init).
Proof.
  unfold pile.
  replace (stock (5394 / 10)) with (stock (4994 / 10 + 20 + 20))
    by (apply colony_eq; rsolve).
  eapply tick_value.
  - reflexivity.
  - apply (update_calm_value (4996 / 10) (4994 / 10)); rsolve.
  - eapply move_all_value; [apply move_deposit; rsolve |].
    eapply move_all_value; [apply move_deposit; rsolve |]. reflexivity.
Qed.

Lemma run_pile_1 :
  run [calm] (pile 500 (scout 540 false None) (scout 540 false None) one_item)
  = Some (pile (4998 / 10) (scout 541 false (Some last_food))
               (scout 541 false (Some last_food)) one_item).
Proof. eapply run_cons_value; [exact tick_pile_1 |]. reflexivity. Qed.

Lemma run_pile_2 :
  run [calm; calm] (pile 500 (scout 540 false None) (scout 540 false None) one_item)
  = Some (pile (4996 / 10) (scout 542 true None) (scout 542 true None) Manager.init).
Proof.
  eapply run_cons_value; [exact tick_pile_1 |].
  eapply run_cons_value; [exact tick_pile_2 |]. reflexivity.
Qed.

Lemma run_pile_23 :
  run [calm; calm]
      (pile (4998 / 10) (scout 541 false (Some last_food))
            (scout 541 false (Some last_food)) one_item)
  = Some (pile (5394 / 10) (scout 541 false None) (scout 541 false None) Manager.init).
Proof.
  eapply run_cons_value; [exact tick_pile_2 |].
  eapply run_cons_value; [exact tick_pile_3 |]. reflexivity.
Qed.

Lemma run_pile_3 :
  run [calm; calm; calm]
      (pile 500 (scout 540 false None) (scout 540 false None) one_item)
  = Some (pile (5394 / 10) (scout 541 false None) (scout 541 false None) Manager.init).
Proof. eapply run_cons_value; [exact tick_pile_1 |]. exact run_pile_23. Qed.

Lemma run_pile_last :
  run [calm] (pile (4996 / 10) (scout 542 true None) (scout 542 true None) Manager.init)
  = Some (pile (5394 / 10) (scout 541 false None) (scout 541 false None) Manager.init).
Proof. eapply run_cons_value; [exact tick_pile_3 |]. reflexivity. Qed.

(** Storage 290, below the critical level: the first ant deposits, the
    second one is a builder and stays one. *)
Lemma tick_deposit_then_builder :
  tick calm (duo 290 (scout 545 true None) mason)
  = Some (duo (3098 / 10) (scout 544 false None) mason).
Proof.
  unfold duo. eapply tick_value.
  - reflexivity.
  - apply (update_calm_value 290 (2898 / 10)); rsolve.
  - eapply move_all_value; [apply move_deposit_critical |].
    eapply move_all_value; [apply move_mason_still; rsolve |]. reflexivity.
Qed.

Lemma tick_solo_critical :
  tick calm (solo 290 mason) = Some (solo (2899 / 10) (scout 540 false None)).
Proof.
  unfold solo. eapply tick_value.
  - reflexivity.
  - apply (update_calm_value 290 (2899 / 10)); rsolve.
  - eapply move_all_value; [apply move_mason_critical |]. reflexivity.
Qed.

Lemma tick_carry_far :
  tick calm (solo 500 (scout 552 true None))
  = Some (solo (4999 / 10) (scout 551 true None)).
Proof.
  unfold solo. eapply tick_value.
  - reflexivity.
  - apply (update_calm_value 500 (4999 / 10)); rsolve.
  - eapply move_all_value; [apply move_carry_far |]. reflexivity.
Qed.

(** From a fresh colony without ants the growth rule creates an ant. *)
Lemma tick_grow :
  tick lucky empty_world
  = Some (mkWorld (stock 1000) [Ant.mk 481 540 1 scavenger false false None]
                  Manager.init 0).
Proof.
  eapply tick_value.
  - reflexivity.
  - exact update_grow.
  - cbn [ants empty_world app].
    eapply move_all_value; [apply move_newborn |]. reflexivity.
Qed.

Lemma run_grow :
  run [lucky] empty_world
  = Some (mkWorld (stock 1000) [Ant.mk 481 540 1 scavenger false false None]
                  Manager.init 0).
Proof. eapply run_cons_value; [exact tick_grow |]. reflexivity. Qed.

Lemma ids_below_emptied (v : R) (a b : Ant.t) : ids_below (pile v a b Manager.init).
Proof.
  intros g Hg. unfold pile in Hg. cbn [food_manager] in Hg.
  rewrite items_init in Hg. contradiction.
Qed.

Lemma carrying_mason : INR (carrying (ants (solo 290 mason))) = 0.
Proof. reflexivity. Qed.

(** ** C1: one food object, two harvests, two credits *)

(** C1, counterexample. The index holds a single food object and no food is
    ever spawned. Two scavengers take it as target; in the second iteration
    the first ant harvests it and the second ant, whose target is then no
    longer in the index, sets its carrying flag all the same; in the third
    iteration both deposit, so the colony is credited 2 * 20 for the one
    object (the storage also pays 0.2 per iteration for the two ants). *)
Lemma C1_one_food_credited_twice :
  Manager.items one_item = [last_food] /\
  run [calm; calm] (pile 500 (scout 540 false None) (scout 540 false None) one_item)
    = Some (pile (4996 / 10) (scout 542 true None) (scout 542 true None) Manager.init) /\
  ~ indexed Manager.init last_food /\
  Ant.move (scout 541 false (Some last_food)) (stock (4996 / 10)) Manager.init still
    = Some (scout 542 true None, stock (4996 / 10), Manager.init) /\
  run [calm; calm; calm] (pile 500 (scout 540 false None) (scout 540 false None) one_item)
    = Some (pile (500 - 3 * (2 / 10) + 2 * 20)
                 (scout 541 false None) (scout 541 false None) Manager.init).
Proof.
  split; [exact items_one_item |].
  split; [exact run_pile_2 |].
  split; [apply not_indexed_init |].
  split; [apply move_harvest_stale; lra |].
  replace (500 - 3 * (2 / 10) + 2 * 20) with (5394 / 10) by lra.
  exact run_pile_3.
Qed.

(** Between the two food levels a scavenger stays one. *)
Lemma scout_stays_scavenger (py : R) (carry : bool) (tg : option Food.t) :
  Ant.role (Ant.update_role (scout py carry tg) (stock 500) still) = scavenger.
Proof. rewrite update_role_steady by rsolve. reflexivity. Qed.

(** A scavenger at the nest whose stored target left the index earlier,
    with the last food object in detection range: the detection step gives
    it that object as target, and it walks one unit towards it. *)
Lemma sense_retarget :
  Ant.sense (scout 540 false (Some taken)) (stock 500) one_item still
  = scout 540 false (Some last_food).
Proof.
  unfold Ant.sense.
  rewrite update_role_steady by rsolve.
  unfold scout, stock, still. fields.
  unfold Ant.find_food. rewrite scan_grid_items, items_one_item.
  cbn [Ant.scan_tile]. rdecide. fields. apply ant_eq; rsolve.
Qed.

Lemma move_retarget :
  Ant.move (scout 540 false (Some taken)) (stock 500) one_item still
  = Some (scout 541 false (Some last_food), stock 500, one_item).
Proof.
  unfold Ant.move. rewrite sense_retarget.
  unfold scout, stock, still. fields.
  unfold Ant.step. fields.
  rewrite (move_toward_value _ _ 11) by rsolve.
  fields. rdecide. fields.
  unfold Ant.act. fields.
  state_eq.
Qed.

Lemma retarget_out_of_range :
  ~ sq_dist
      (Ant.pos (Ant.move_toward
                  (Ant.sense (scout 540 false (Some taken)) (stock 500) one_item still)
                  (Food.pos last_food)))
      (Food.pos last_food)
    < FOOD_COLLECTION_RANGE_SQUARED.
Proof.
  rewrite sense_retarget.
  rewrite (move_toward_value _ _ 11) by rsolve. rsolve.
Qed.

Lemma not_indexed_taken : ~ indexed one_item taken.
Proof.
  intros (g & Hg & E). rewrite items_one_item in Hg.
  destruct Hg as [<- | []]. discriminate E.
Qed.

(** C1, witness: the emptied index stays without the object over the next
    iteration; the ant with the stale target and nothing in detection
    range picks the object up; the ant with a stale target and the last
    food object in detection range is given that object as target. *)
Lemma C1_stale_pickup_witness :
  ~ indexed
      (food_manager
         (pile (5394 / 10) (scout 541 false None) (scout 541 false None) Manager.init))
      last_food /\
  (Manager.init = Manager.init /\
   Ant.has_food (scout 542 true None) = true /\
   Ant.target (scout 542 true None) = None) /\
  (Food.fid last_food <> Food.fid taken /\
   Ant.target (Ant.sense (scout 540 false (Some taken)) (stock 500) one_item still)
     = Some last_food /\
   Ant.has_food (scout 541 false (Some last_food)) = false /\
   Ant.target (scout 541 false (Some last_food)) = Some last_food /\
   one_item = one_item).
Proof.
  destruct C1_removed_food_stays_out_but_is_picked_up as (Stay & Pick & Swap).
  split; [| split].
  - apply (Stay [calm]
             (pile (4996 / 10) (scout 542 true None) (scout 542 true None) Manager.init)
             (pile (5394 / 10) (scout 541 false None) (scout 541 false None) Manager.init)
             last_food).
    + apply ids_below_emptied.
    + cbn. lia.
    + apply not_indexed_init.
    + exact run_pile_last.
  - destruct (Pick (scout 541 false (Some last_food)) (stock (4996 / 10)) Manager.init still
                last_food (scout 542 true None) (stock (4996 / 10)) Manager.init)
      as (E & Hin & _).
    + reflexivity.
    + reflexivity.
    + apply not_indexed_init.
    + right. intros g Hg. rewrite items_init in Hg. contradiction.
    + apply move_harvest_stale. lra.
    + split; [exact E |]. apply Hin. apply stale_within_range. lra.
  - destruct (Swap (scout 540 false (Some taken)) (stock 500) one_item still taken
                [] last_food [] (scout 541 false (Some last_food)) (stock 500) one_item)
      as (Other & Sensed & _ & Far).
    + reflexivity.
    + reflexivity.
    + exact not_indexed_taken.
    + apply scout_stays_scavenger.
    + exact items_one_item.
    + rsolve.
    + intros g [].
    + exact move_retarget.
    + split; [exact Other |]. split; [exact Sensed |].
      exact (Far retarget_out_of_range).
Defined.

(** ** C2: a builder that builds has moved first *)

(** C2, counterexample. A builder without food and without target, standing
    on the nest point, whose building draw succeeds (0 < 0.3): in the same
    call of [move] it takes its random-walk step, from x = 480 to x = 481,
    and then builds (the progress goes from 0 to 0.2). *)
Lemma C2_builder_walks_and_builds :
  Ant.role mason = builder /\ Ant.has_food mason = false /\
  build_draw eager < 3 / 10 /\
  Ant.move mason (stock 500) Manager.init eager
    = Some (Ant.mk 481 540 1 builder true false None,
            Colony.mk 500 20 100 (2 / 10), Manager.init) /\
  Ant.x mason = 480 /\
  Ant.x (Ant.mk 481 540 1 builder true false None) <> Ant.x mason.
Proof.
  repeat split; try reflexivity.
  - cbn. lra.
  - exact move_mason_eager.
  - cbn. lra.
Qed.

(** C2, witness: the same call. *)
Lemma C2_builder_witness :
  exists a1 c1,
    Ant.step (Ant.sense mason (stock 500) Manager.init eager) (stock 500) Manager.init eager
      = Some (a1, c1, Manager.init) /\
    Ant.pos (Ant.mk 481 540 1 builder true false None) = Ant.pos a1 /\
    (Ant.role a1 = builder -> Ant.has_food a1 = false -> build_draw eager < 3 / 10 ->
     Ant.building (Ant.mk 481 540 1 builder true false None) = true /\
     (sq_dist (Ant.pos a1) ANTHILL_POINT < BUILD_RANGE * BUILD_RANGE ->
      Colony.building_progress (Colony.mk 500 20 100 (2 / 10))
        = Colony.building_progress (stock 500) + BUILD_EFFICIENCY) /\
     (~ sq_dist (Ant.pos a1) ANTHILL_POINT < BUILD_RANGE * BUILD_RANGE ->
      Colony.building_progress (Colony.mk 500 20 100 (2 / 10))
        = Colony.building_progress (stock 500))).
Proof.
  exact (C2_building_follows_movement mason (stock 500) Manager.init eager
           _ _ _ move_mason_eager).
Defined.

(** ** C3: a deposit early in the pass ends the emergency *)

(** C3, counterexample. The storage is 290, below the critical level 300.
    In the iteration the first ant deposits (289.8 + 20 = 309.8), so the
    second ant, a builder, finds the storage at the level or above when it
    refreshes its role, and is still a builder after the iteration. *)
Lemma C3_builder_survives_critical_level :
  Colony.food_storage (colony (duo 290 (scout 545 true None) mason)) < CRITICAL_FOOD_LEVEL /\
  tick calm (duo 290 (scout 545 true None) mason)
    = Some (duo (3098 / 10) (scout 544 false None) mason) /\
  nth_error (ants (duo (3098 / 10) (scout 544 false None) mason)) 1 = Some mason /\
  Ant.role mason = builder.
Proof.
  repeat split.
  - cbn. unfold CRITICAL_FOOD_LEVEL. lra.
  - exact tick_deposit_then_builder.
Qed.

(** C3, witness: storage 290 and a single builder that carries nothing; after
    the iteration it is a scavenger. *)
Lemma C3_lone_builder_witness :
  Ant.role mason = builder /\
  Forall (fun a => Ant.role a = scavenger)
         (ants (solo (2899 / 10) (scout 540 false None))).
Proof.
  split; [reflexivity |].
  apply (C3_role_forcing_with_margin calm (solo 290 mason)).
  - cbn. lra.
  - rewrite carrying_mason. cbn. unfold CRITICAL_FOOD_LEVEL. lra.
  - exact tick_solo_critical.
Defined.

(** ** Witnesses of C4 to C10 *)

(** C4, witness: the third iteration of the run with two ants. *)
Lemma C4_pile_witness :
  Colony.food_storage
    (colony (pile (5394 / 10) (scout 541 false None) (scout 541 false None) Manager.init))
    >= 0 /\
  Colony.food_storage
    (colony (pile (5394 / 10) (scout 541 false None) (scout 541 false None) Manager.init))
    >= Rmax 0
         (Colony.food_storage
            (colony (pile (4996 / 10) (scout 542 true None) (scout 542 true None)
                          Manager.init))
          - IZR (Z.of_nat (length
              (ants (pile (4996 / 10) (scout 542 true None) (scout 542 true None)
                          Manager.init))))
            * FOOD_CONSUMPTION_RATE).
Proof.
  exact (C4_food_storage_nonneg [calm; calm] calm _ _ _ run_pile_2 tick_pile_3).
Defined.

(** C5, witness: the nest size between the first and the third iteration
    of the same run. *)
Lemma C5_pile_witness :
  (Colony.nest_size
     (colony (pile (4998 / 10) (scout 541 false (Some last_food))
                   (scout 541 false (Some last_food)) one_item))
   <= Colony.nest_size
        (colony (pile (5394 / 10) (scout 541 false None) (scout 541 false None)
                      Manager.init))
   <= MAX_NEST_SIZE)%Z.
Proof.
  apply (C5_nest_size_monotone_bounded [calm] [calm; calm]
           (pile 500 (scout 540 false None) (scout 540 false None) one_item)).
  - cbn. unfold MAX_NEST_SIZE. lia.
  - exact run_pile_1.
  - exact run_pile_23.
Defined.

(** C6, witness: the iteration in which the colony grows from no ant to
    one. *)
Lemma C6_growth_witness :
  (Z.of_nat (length (ants empty_world)) <= MAX_COLONY_SIZE)%Z /\
  (Z.of_nat (length (ants (mkWorld (stock 1000)
      [Ant.mk 481 540 1 scavenger false false None] Manager.init 0))) <= MAX_COLONY_SIZE)%Z /\
  (length (ants empty_world) <= length (ants empty_world))%nat /\
  (length (ants (mkWorld (stock 1000)
      [Ant.mk 481 540 1 scavenger false false None] Manager.init 0))
     = length (ants empty_world) \/
   length (ants (mkWorld (stock 1000)
      [Ant.mk 481 540 1 scavenger false false None] Manager.init 0))
     = S (length (ants empty_world)) /\
   (Z.of_nat (length (ants empty_world)) < MAX_COLONY_SIZE)%Z).
Proof.
  apply (C6_population_bound [] lucky empty_world empty_world).
  - cbn. unfold MAX_COLONY_SIZE. lia.
  - reflexivity.
  - exact tick_grow.
Defined.

(** C7, witness: scenario C. The progress is 99.9, a builder on the nest
    point builds once (100.1), and the next [Colony.update] gives nest size
    21 and progress 0. *)
Lemma C7_scenario_C_witness :
  Colony.building_progress nearly_built = 999 / 10 /\
  Colony.building_progress (Ant.build mason nearly_built) = 999 / 10 + BUILD_EFFICIENCY /\
  Colony.nest_size (fst (Colony_update (Ant.build mason nearly_built) [mason] (1 / 2) (1 / 2)))
    = (Colony.nest_size (Ant.build mason nearly_built) + 1)%Z /\
  Colony.building_progress
    (fst (Colony_update (Ant.build mason nearly_built) [mason] (1 / 2) (1 / 2))) = 0.
Proof.
  split; [reflexivity |]. split.
  - rewrite build_crosses_100. cbn. unfold BUILD_EFFICIENCY. lra.
  - apply C7_building_increment.
    + rewrite build_crosses_100. cbn. lra.
    + rewrite build_crosses_100. cbn. unfold MAX_NEST_SIZE. lia.
Defined.

(** C8, witness: of three objects, the one at squared distance exactly
    10000 is passed over, the next one in loop order is taken by the
    detection step of [move], although the third one is nearer; an ant that
    already holds the nearer one as target is given the same new target. *)
Lemma C8_three_items_witness :
  Ant.target (Ant.sense (scout 540 false None) (stock 500) three_items still)
    = Some first_found /\
  Ant.target (Ant.sense (scout 540 false (Some nearest)) (stock 500) three_items still)
    = Some first_found /\
  Ant.find_food (scout 540 false None) three_items
    = Ant.set_target (scout 540 false None) (Some first_found) /\
  sq_dist (Ant.pos (scout 540 false None)) (Food.pos on_the_edge)
    = FOOD_DETECTION_RANGE_SQUARED /\
  sq_dist (Ant.pos (scout 540 false None)) (Food.pos nearest)
    < sq_dist (Ant.pos (scout 540 false None)) (Food.pos first_found).
Proof.
  destruct (proj1 (C8_find_food_first_in_range (scout 540 false None) (stock 500)
                     three_items still (scout_stays_scavenger 540 false None) eq_refl)
              [on_the_edge] first_found [nearest])
    as (Found & Sensed & _).
  - exact items_three_items.
  - rsolve.
  - intros g [<- | []]. rsolve.
  - destruct (proj1 (C8_find_food_first_in_range (scout 540 false (Some nearest))
                       (stock 500) three_items still
                       (scout_stays_scavenger 540 false (Some nearest)) eq_refl)
                [on_the_edge] first_found [nearest])
      as (_ & Retargeted & _).
    + exact items_three_items.
    + rsolve.
    + intros g [<- | []]. rsolve.
    + split; [exact Sensed |]. split; [exact Retargeted |].
      split; [exact Found |]. split; rsolve.
Defined.

(** C9, witness: a carrying ant 12 units from the nest. *)
Lemma C9_carry_far_witness :
  exists a',
    nth_error (ants (solo (4999 / 10) (scout 551 true None))) 0 = Some a' /\
    distance a' ANTHILL_POINT < distance (scout 552 true None) ANTHILL_POINT /\
    distance a' ANTHILL_POINT =
      distance (scout 552 true None) ANTHILL_POINT
      - Colony.get_ant_speed (colony (solo (4999 / 10) (scout 551 true None))) /\
    Colony.get_ant_speed (colony (solo (4999 / 10) (scout 551 true None))) < 10.
Proof.
  apply (C9_carrying_ant_approaches_nest calm (solo 500 (scout 552 true None))).
  - cbn. unfold MAX_NEST_SIZE. lia.
  - exact tick_carry_far.
  - reflexivity.
  - reflexivity.
  - rewrite ANTHILL_POINT_eq. rsolve.
Defined.

(** C10, witness: the colony grows from no ant to one ant; the population
    field is 100 before and after. *)
Lemma C10_growth_witness :
  length (ants empty_world) = 0%nat /\
  length (ants (mkWorld (stock 1000)
     [Ant.mk 481 540 1 scavenger false false None] Manager.init 0)) = 1%nat /\
  Colony.population (colony (mkWorld (stock 1000)
     [Ant.mk 481 540 1 scavenger false false None] Manager.init 0)) = INITIAL_COLONY_SIZE /\
  Colony.population (colony (mkWorld (stock 1000)
     [Ant.mk 481 540 1 scavenger false false None] Manager.init 0))
    = Colony.population (colony empty_world).
Proof.
  split; [reflexivity |]. split; [reflexivity |].
  apply (C10_population_field_frozen [lucky] empty_world).
  - reflexivity.
  - exact run_grow.
Defined.

(** ** Witnesses of the further properties *)

Lemma add_last : Manager.add Manager.init last_food = Some one_item.
Proof. vm_compute. reflexivity. Qed.

Lemma bucket_init_last : bucket_of Manager.init last_food = Some [].
Proof. vm_compute. reflexivity. Qed.

Lemma bucket_one_item : bucket_of one_item last_food = Some [last_food].
Proof. vm_compute. reflexivity. Qed.

Lemma unique_ids_one_item : unique_ids one_item.
Proof.
  unfold unique_ids. rewrite items_one_item. cbn.
  constructor; [intros [] | constructor].
Qed.

Lemma bucketed_one_item : bucketed one_item.
Proof.
  intros g Hg. rewrite items_one_item in Hg. destruct Hg as [<- | []].
  exists [last_food]. split; [exact bucket_one_item | left; reflexivity].
Qed.

Lemma ids_below_pile (v : R) (a b : Ant.t) : ids_below (pile v a b one_item).
Proof.
  intros g Hg. unfold pile in Hg. cbn [food_manager] in Hg.
  rewrite items_one_item in Hg. destruct Hg as [<- | []]. cbn. lia.
Qed.

Lemma spawn_two :
  spawn_food Manager.init 480 150 2 0 (fun _ => 5%Z) = Some (two_spawned, 2%nat).
Proof. vm_compute. reflexivity. Qed.

Lemma sense_fresh (v : R) :
  300 <= v <= 800 ->
  Ant.sense (scout 541 false (Some last_food)) (stock v) one_item still
  = scout 541 false (Some last_food).
Proof.
  intros Hv. unfold Ant.sense.
  rewrite update_role_steady by rsolve.
  unfold scout, stock, still. fields.
  unfold Ant.find_food. rewrite scan_grid_items, items_one_item.
  cbn [Ant.scan_tile]. rdecide. fields. apply ant_eq; rsolve.
Qed.

Lemma fresh_within_range (v : R) :
  300 <= v <= 800 ->
  sq_dist
    (Ant.pos (Ant.move_toward
                (Ant.sense (scout 541 false (Some last_food)) (stock v) one_item still)
                (Food.pos last_food)))
    (Food.pos last_food)
  < FOOD_COLLECTION_RANGE_SQUARED.
Proof.
  intros Hv. rewrite (sense_fresh v Hv).
  rewrite (move_toward_value _ _ 10) by rsolve. rsolve.
Qed.

Lemma distance_half : distance (scout (1081 / 2) true None) ANTHILL_POINT = 1 / 2.
Proof.
  unfold distance. rewrite ANTHILL_POINT_eq. apply sqrt_lem_1; rsolve.
Qed.

(** X1, witness: the last food object added to the empty grid. *)
Lemma X1_add_lookup_witness :
  (exists tile pre post,
     bucket_of Manager.init last_food = Some tile /\
     bucket_of one_item last_food = Some (tile ++ [last_food]) /\
     Manager.items Manager.init = pre ++ tile ++ post /\
     Manager.items one_item = pre ++ tile ++ last_food :: post) /\
  (forall g, In g (Manager.items one_item) <->
             g = last_food \/ In g (Manager.items Manager.init)) /\
  length (Manager.items one_item) = S (length (Manager.items Manager.init)).
Proof. exact (X1_add_lookup Manager.init one_item last_food add_last). Defined.

(** X2, witness: the grid of [Manager.__init__]. *)
Lemma X2_index_error_iff_witness :
  ((exists m', Manager.add Manager.init last_food = Some m') <->
   (- (WIDTH / 10) <= Food.x last_food / 10 < WIDTH / 10 /\
    - (HEIGHT / 10) <= Food.y last_food / 10 < HEIGHT / 10)%Z) /\
  ((exists m', Manager.remove Manager.init last_food = Some m') <->
   (- (WIDTH / 10) <= Food.x last_food / 10 < WIDTH / 10 /\
    - (HEIGHT / 10) <= Food.y last_food / 10 < HEIGHT / 10)%Z).
Proof. exact (X2_index_error_iff Manager.init last_food grid_shape_init). Defined.

(** X3, witness: a food object at (-5, -5) shares its buckets with
    (955, -5) and (-5, 1075). *)
Lemma X3_negative_coordinates_wrap_witness :
  bucket_of Manager.init (Food.mk 7 (-5) (-5) 5)
  = bucket_of Manager.init (Food.mk 7 (-5 + WIDTH) (-5) 5) /\
  bucket_of Manager.init (Food.mk 7 (-5) (-5) 5)
  = bucket_of Manager.init (Food.mk 7 (-5) (-5 + HEIGHT) 5).
Proof.
  destruct (X3_negative_coordinates_wrap Manager.init (Food.mk 7 (-5) (-5) 5)
              grid_shape_init) as [Hx Hy].
  split; [apply Hx | apply Hy]; cbn; unfold WIDTH, HEIGHT; lia.
Defined.

(** X4, witness. *)
Lemma X4_add_then_remove_witness : Manager.remove one_item last_food = Some Manager.init.
Proof.
  exact (X4_add_then_remove Manager.init one_item last_food
           (not_indexed_init last_food) add_last).
Defined.

(** X5, witness: the index with the one food object. *)
Lemma X5_remove_indexed_witness :
  exists m' l1 l2,
    Manager.remove one_item last_food = Some m' /\
    Manager.items one_item = l1 ++ last_food :: l2 /\
    Manager.items m' = l1 ++ l2 /\
    ~ indexed m' last_food /\
    unique_ids m' /\ bucketed m'.
Proof.
  apply (X5_remove_indexed one_item last_food unique_ids_one_item bucketed_one_item).
  rewrite items_one_item. left. reflexivity.
Defined.

(** X6, witness. *)
Lemma X6_remove_not_indexed_witness :
  Manager.remove Manager.init last_food = Some Manager.init.
Proof.
  exact (X6_remove_not_indexed Manager.init last_food []
           (not_indexed_init last_food) bucket_init_last).
Defined.

(** X7, witness: two objects spawned into the empty grid. *)
Lemma X7_spawn_food_witness :
  2%nat = (0 + 2)%nat /\
  length (Manager.items two_spawned) = (length (Manager.items Manager.init) + 2)%nat /\
  (forall g, In g (Manager.items two_spawned) <->
     In g (Manager.items Manager.init) \/
     exists i, (0 <= i < 0 + 2)%nat /\ g = Food.mk i 480 150 5).
Proof.
  exact (X7_spawn_food 2 Manager.init 480 150 0 (fun _ => 5%Z) two_spawned 2 spawn_two).
Defined.

(** X8, witness: the run with two ants and one food object. *)
Lemma X8_index_invariants_witness :
  unique_ids (food_manager
    (pile (5394 / 10) (scout 541 false None) (scout 541 false None) Manager.init)) /\
  bucketed (food_manager
    (pile (5394 / 10) (scout 541 false None) (scout 541 false None) Manager.init)) /\
  ids_below (pile (5394 / 10) (scout 541 false None) (scout 541 false None) Manager.init).
Proof.
  apply (X8_index_invariants [calm; calm; calm]
           (pile 500 (scout 540 false None) (scout 540 false None) one_item)).
  - exact unique_ids_one_item.
  - exact bucketed_one_item.
  - apply ids_below_pile.
  - exact run_pile_3.
Defined.

(** X9, witness: one iteration without clicks. *)
Lemma X9_main_never_fails_witness :
  exists w0 w,
    main_init (fun _ => 1 / 2) (fun _ => 5%Z) = Some w0 /\
    run [calm] w0 = Some w /\
    world_ok w /\
    index_inv (food_manager w) (next_fid w) /\
    (INITIAL_COLONY_SIZE <= Z.of_nat (length (ants w)) <= MAX_COLONY_SIZE)%Z /\
    (20 <= Colony.nest_size (colony w) <= MAX_NEST_SIZE)%Z.
Proof.
  apply (X9_main_never_fails (fun _ => 1 / 2) (fun _ => 5%Z) [calm]).
  constructor; [constructor | constructor].
Defined.

(** X10, witness: the iteration in which the food object is harvested. *)
Lemma X10_food_balance_witness :
  let spawned := (FOOD_SPAWN_AMOUNT_PER_CLICK * length (clicks calm))%nat in
  next_fid (pile (4996 / 10) (scout 542 true None) (scout 542 true None) Manager.init)
  = (next_fid (pile (4998 / 10) (scout 541 false (Some last_food))
                    (scout 541 false (Some last_food)) one_item) + spawned)%nat /\
  (length (Manager.items (food_manager
     (pile (4996 / 10) (scout 542 true None) (scout 542 true None) Manager.init)))
   <= length (Manager.items (food_manager
        (pile (4998 / 10) (scout 541 false (Some last_food))
              (scout 541 false (Some last_food)) one_item))) + spawned
   <= length (Manager.items (food_manager
        (pile (4996 / 10) (scout 542 true None) (scout 542 true None) Manager.init)))
      + length (ants
        (pile (4996 / 10) (scout 542 true None) (scout 542 true None) Manager.init)))%nat.
Proof. exact (X10_food_balance calm _ _ tick_pile_2). Defined.

(** X11, witness: a carrying ant half a unit below the nest point, with
    speed 1, ends half a unit above it. *)
Lemma X11_move_toward_distance_witness :
  distance (scout (1081 / 2) true None) ANTHILL_POINT = 1 / 2 /\
  distance (Ant.move_toward (scout (1081 / 2) true None) ANTHILL_POINT) ANTHILL_POINT
  = Rabs (distance (scout (1081 / 2) true None) ANTHILL_POINT
          - Ant.speed (scout (1081 / 2) true None)).
Proof.
  split; [exact distance_half |].
  apply (proj2 (X11_move_toward_distance (scout (1081 / 2) true None) ANTHILL_POINT)).
  rewrite distance_half. lra.
Defined.

(** X12, witness: the builder that walks and builds. *)
Lemma X12_displacement_witness :
  Ant.speed (Ant.mk 481 540 1 builder true false None) = Colony.get_ant_speed (stock 500) /\
  Rabs (Ant.x (Ant.mk 481 540 1 builder true false None) - Ant.x mason)
    <= Colony.get_ant_speed (stock 500) /\
  Rabs (Ant.y (Ant.mk 481 540 1 builder true false None) - Ant.y mason)
    <= Colony.get_ant_speed (stock 500).
Proof.
  apply (X12_displacement mason (stock 500) Manager.init eager
           (Ant.mk 481 540 1 builder true false None)
           (Colony.mk 500 20 100 (2 / 10)) Manager.init).
  - cbn. lia.
  - exact move_mason_eager.
Defined.

(** X13, witness: the deposit two units from the nest point. *)
Lemma X13_deposit_witness :
  Manager.init = Manager.init /\
  Ant.target (scout 541 false None) = Ant.target (scout 542 true None) /\
  (sq_dist (Ant.pos (scout 541 false None)) ANTHILL_POINT < FOOD_COLLECTION_RANGE_SQUARED ->
   Colony.food_storage (stock (500 + 20)) = Colony.food_storage (stock 500) + 20 /\
   Ant.has_food (scout 541 false None) = false) /\
  (~ sq_dist (Ant.pos (scout 541 false None)) ANTHILL_POINT < FOOD_COLLECTION_RANGE_SQUARED ->
   Colony.food_storage (stock (500 + 20)) = Colony.food_storage (stock 500) /\
   Ant.has_food (scout 541 false None) = true).
Proof.
  apply (X13_deposit (scout 542 true None) (stock 500) Manager.init still
           (scout 541 false None) (stock (500 + 20)) Manager.init).
  - reflexivity.
  - apply move_deposit. lra.
Defined.

(** X14, witness: the first ant of the run harvests the food object. *)
Lemma X14_harvest_witness :
  exists a' c' fm' l1 l2,
    Ant.move (scout 541 false (Some last_food)) (stock 500) one_item still
      = Some (a', c', fm') /\
    Ant.has_food a' = true /\ Ant.target a' = None /\
    Manager.items one_item = l1 ++ last_food :: l2 /\
    Manager.items fm' = l1 ++ l2 /\
    ~ indexed fm' last_food /\
    Colony.food_storage c' = Colony.food_storage (stock 500).
Proof.
  apply (X14_harvest (scout 541 false (Some last_food)) (stock 500) one_item still last_food).
  - exact unique_ids_one_item.
  - exact bucketed_one_item.
  - rewrite sense_fresh by lra. reflexivity.
  - rewrite sense_fresh by lra. reflexivity.
  - rewrite items_one_item. left. reflexivity.
  - apply fresh_within_range. lra.
Defined.

(** X16, witness: the builder that the critical level makes a scavenger. *)
Lemma X16_role_change_witness :
  (Colony.food_storage (stock (2899 / 10)) < CRITICAL_FOOD_LEVEL /\
   Ant.role (scout 540 false None) = scavenger) \/
  (Colony.food_storage (stock (2899 / 10)) > OPTIMAL_FOOD_LEVEL /\
   switch_draw still < 1 / 10 /\
   (role_draw still < 3 / 10 <-> Ant.role (scout 540 false None) = builder)).
Proof.
  apply (X16_role_change mason (stock (2899 / 10)) Manager.init still _ _ _
           move_mason_critical).
  cbn. discriminate.
Defined.

(** X17, witness: the iteration in which the first ant is born. *)
Lemma X17_growth_witness :
  let c1 := fst (Colony_update (colony empty_world) (ants empty_world)
                   (growth_draw lucky) (newborn_draw lucky)) in
  let grows :=
    Colony.food_storage c1 > OPTIMAL_FOOD_LEVEL /\
    (Z.of_nat (length (ants empty_world)) < MAX_COLONY_SIZE)%Z /\
    growth_draw lucky < COLONY_GROWTH_RATE in
  (length (ants (mkWorld (stock 1000) [Ant.mk 481 540 1 scavenger false false None]
                         Manager.init 0))
   = S (length (ants empty_world)) <-> grows) /\
  (grows ->
   exists ck fmk a' ck' fmk',
     Ant.move (Ant.init (fst ANTHILL_POINT) (snd ANTHILL_POINT) c1 (newborn_draw lucky))
       ck fmk (move_draws lucky (length (ants empty_world))) = Some (a', ck', fmk') /\
     nth_error (ants (mkWorld (stock 1000) [Ant.mk 481 540 1 scavenger false false None]
                              Manager.init 0))
               (length (ants empty_world)) = Some a').
Proof. exact (X17_growth lucky empty_world _ tick_grow). Defined.

(** X18, witness: the same iteration, from the fresh colony. *)
Lemma X18_speed_witness :
  Forall (fun a => Ant.speed a
                   = Colony.get_ant_speed (colony (mkWorld (stock 1000)
                       [Ant.mk 481 540 1 scavenger false false None] Manager.init 0)))
         (ants (mkWorld (stock 1000) [Ant.mk 481 540 1 scavenger false false None]
                        Manager.init 0)) /\
  1 <= Colony.get_ant_speed (colony empty_world) /\
  Colony.get_ant_speed (colony empty_world)
    <= Colony.get_ant_speed (colony (mkWorld (stock 1000)
         [Ant.mk 481 540 1 scavenger false false None] Manager.init 0)) /\
  Colony.get_ant_speed (colony (mkWorld (stock 1000)
    [Ant.mk 481 540 1 scavenger false false None] Manager.init 0)) <= 28 / 10.
Proof.
  apply (X18_speed [] lucky empty_world empty_world).
  - reflexivity.
  - reflexivity.
  - exact tick_grow.
Defined.

(** X19, witness: the first iteration of the run with two ants. *)
Lemma X19_building_progress_witness :
  (0 <= Colony.building_progress (colony
          (pile 500 (scout 540 false None) (scout 540 false None) one_item)) ->
   0 <= Colony.building_progress (colony
          (pile (4998 / 10) (scout 541 false (Some last_food))
                (scout 541 false (Some last_food)) one_item))) /\
  ((Colony.nest_size (colony
      (pile 500 (scout 540 false None) (scout 540 false None) one_item)) < MAX_NEST_SIZE)%Z ->
   Colony.building_progress (colony
      (pile (4998 / 10) (scout 541 false (Some last_food))
            (scout 541 false (Some last_food)) one_item))
   < 100 + BUILD_EFFICIENCY * INR (length (ants
      (pile (4998 / 10) (scout 541 false (Some last_food))
            (scout 541 false (Some last_food)) one_item)))) /\
  ((MAX_NEST_SIZE <= Colony.nest_size (colony
      (pile 500 (scout 540 false None) (scout 540 false None) one_item)))%Z ->
   Colony.building_progress (colony
      (pile 500 (scout 540 false None) (scout 540 false None) one_item))
   <= Colony.building_progress (colony
      (pile (4998 / 10) (scout 541 false (Some last_food))
            (scout 541 false (Some last_food)) one_item))).
Proof. exact (X19_building_progress calm _ _ tick_pile_1). Defined.
